(** * tour-assist: the tool-orchestration core, embedded and verified

    A shallow embedding of the Go sources of the conversational
    assistant backend:

    - [internal/chat/assistant/assistant.go] (and its traced revision):
      [Assistant.Title] and [Assistant.Reply];
    - [internal/tools/tool.go]: the tool [Registry], and the
      instrumented revision of its [Execute];
    - [internal/tools/calendar.go] and its sorted revision:
      [GetHolidaysTool.Execute];
    - [internal/tools/weather.go]: [GetWeatherTool.Execute] and
      [GetWeatherForecastTool.Execute];
    - the flight tool: [GetFlightPricesTool.Execute];
    - [internal/chat/assistant/eval]: the evaluation [Runner], the
      rule-based and the composite evaluator.

    Go strings are byte sequences and are modelled as [list ascii]
    (an [ascii] is one byte).  Outbound calls (the completion service,
    HTTP) are modelled by explicit state passing over a world together
    with a trace of the calls that were issued. *)

From Stdlib Require Import List Ascii String NArith ZArith Lia Bool Arith.
From Stdlib Require Import Sorting.Permutation Sorting.Sorted.
From Stdlib Require Floats Uint63.
From stdpp Require Import base list strings gmap sorting.
Import ListNotations.

#[local] Open Scope list_scope.

(** ** Go byte strings *)

Abbreviation gostring := (list ascii).

(** Literal of a Go string constant. *)
Definition str (s : string) : gostring := list_ascii_of_string s.

Definition byte_of (c : ascii) : N := N_of_ascii c.

(** The Go literal for a line feed, as a one-byte string. *)
Definition nl : gostring := ["010"%char].

(** ** UTF-8, as package [unicode/utf8] decodes it *)

Module utf8.

Definition RuneError : N := 65533.   (* U+FFFD *)
Definition RuneSelf : N := 128.
Definition UTFMax : nat := 4.

Definition locb : N := 128.          (* 0x80 *)
Definition hicb : N := 191.          (* 0xBF *)

(** The [first] table joined with [acceptRanges]: for a leading byte,
    the size of the sequence and the range accepted for the second
    byte; [None] for the entries [as] (ASCII) and [xx] (invalid). *)
Definition first (b : N) : option (nat * N * N) :=
  if (b <? 194)%N then None                              (* 00-7F as, 80-C1 xx *)
  else if (b <=? 223)%N then Some (2, locb, hicb)        (* C2-DF s1 *)
  else if (b =? 224)%N then Some (3, 160%N, hicb)        (* E0    s2 *)
  else if (b <=? 236)%N then Some (3, locb, hicb)        (* E1-EC s3 *)
  else if (b =? 237)%N then Some (3, locb, 159%N)        (* ED    s4 *)
  else if (b <=? 239)%N then Some (3, locb, hicb)        (* EE-EF s3 *)
  else if (b =? 240)%N then Some (4, 144%N, hicb)        (* F0    s5 *)
  else if (b <=? 243)%N then Some (4, locb, hicb)        (* F1-F3 s6 *)
  else if (b =? 244)%N then Some (4, locb, 143%N)        (* F4    s7 *)
  else None.                                             (* F5-FF xx *)

Definition in_range (lo hi b : N) : bool := ((lo <=? b) && (b <=? hi))%N.

(** [utf8.DecodeRuneInString]: the first rune of [s] and its width in
    bytes; an invalid or short encoding gives [(RuneError, 1)], the
    empty string [(RuneError, 0)]. *)
Definition DecodeRuneInString (s : gostring) : N * nat :=
  match s with
  | [] => (RuneError, 0)
  | c0 :: t =>
      let s0 := byte_of c0 in
      match first s0 with
      | None => if (s0 <? RuneSelf)%N then (s0, 1) else (RuneError, 1)
      | Some (sz, lo, hi) =>
          if length s <? sz then (RuneError, 1) else
          match t with
          | [] => (RuneError, 1)
          | c1 :: t1 =>
              let s1 := byte_of c1 in
              if negb (in_range lo hi s1) then (RuneError, 1) else
              if sz <=? 2 then
                (N.lor (N.shiftl (N.land s0 31) 6) (N.land s1 63), 2)
              else
              match t1 with
              | [] => (RuneError, 1)
              | c2 :: t2 =>
                  let s2 := byte_of c2 in
                  if negb (in_range locb hicb s2) then (RuneError, 1) else
                  if sz <=? 3 then
                    (N.lor (N.lor (N.shiftl (N.land s0 15) 12)
                                  (N.shiftl (N.land s1 63) 6))
                           (N.land s2 63), 3)
                  else
                  match t2 with
                  | [] => (RuneError, 1)
                  | c3 :: _ =>
                      let s3 := byte_of c3 in
                      if negb (in_range locb hicb s3) then (RuneError, 1) else
                      (N.lor (N.lor (N.lor (N.shiftl (N.land s0 7) 18)
                                           (N.shiftl (N.land s1 63) 12))
                                    (N.shiftl (N.land s2 63) 6))
                             (N.land s3 63), 4)
                  end
              end
          end
      end
  end.

(** [utf8.RuneStart]: the byte is not a continuation byte. *)
Definition RuneStart (b : N) : bool := negb (N.land b 192 =? 128)%N.

(** The backward scan of [DecodeLastRuneInString]: from index [start]
    down to [lim], stop at the first byte that starts a rune. *)
Fixpoint scan_start (s : gostring) (lim : nat) (n : nat) (start : nat) : nat :=
  match n with
  | 0 => start
  | S n' =>
      if RuneStart (byte_of (nth start s "000"%char)) then start
      else if start <=? lim then
             (* the loop leaves with start = lim - 1, clamped at 0 *)
             (if lim =? 0 then 0 else lim - 1)
           else scan_start s lim n' (start - 1)
  end.

(** [utf8.DecodeLastRuneInString]. *)
Definition DecodeLastRuneInString (s : gostring) : N * nat :=
  let e := length s in
  match e with
  | 0 => (RuneError, 0)
  | S start0 =>
      let r := byte_of (nth start0 s "000"%char) in
      if (r <? RuneSelf)%N then (r, 1) else
      let lim := e - UTFMax in
      let start :=
        match start0 with
        | 0 => 0
        | S st => if st <? lim then st else scan_start s lim UTFMax st
        end in
      let '(r', size) := DecodeRuneInString (drop start s) in
      if start + size =? e then (r', size) else (RuneError, 1)
  end.

(** [utf8.RuneCountInString]: every invalid byte counts as one rune. *)
Fixpoint RuneCount_fuel (fuel : nat) (s : gostring) : nat :=
  match fuel with
  | 0 => 0
  | S fuel' =>
      match s with
      | [] => 0
      | _ => S (RuneCount_fuel fuel' (drop (snd (DecodeRuneInString s)) s))
      end
  end.

Definition RuneCountInString (s : gostring) : nat :=
  RuneCount_fuel (length s) s.

(** [utf8.ValidString]: no position decodes to an encoding error. *)
Fixpoint Valid_fuel (fuel : nat) (s : gostring) : bool :=
  match fuel with
  | 0 => true
  | S fuel' =>
      match s with
      | [] => true
      | c :: _ =>
          let '(r, size) := DecodeRuneInString s in
          if (size =? 1) && (RuneSelf <=? byte_of c)%N then false
          else Valid_fuel fuel' (drop size s)
      end
  end.

Definition ValidString (s : gostring) : bool := Valid_fuel (length s) s.

End utf8.

(** ** Packages [unicode] and [strings] *)

Module unicode.

(** [unicode.IsSpace]: the Latin-1 cases and the [White_Space] table. *)
Definition IsSpace (r : N) : bool :=
  if (r <=? 255)%N then
    (((9 <=? r) && (r <=? 13)) || (r =? 32) || (r =? 133) || (r =? 160))%N
  else
    ((r =? 5760) || ((8192 <=? r) && (r <=? 8202)) || (r =? 8232)
     || (r =? 8233) || (r =? 8239) || (r =? 8287) || (r =? 12288))%N.

End unicode.

Module strings.

(** [strings.ReplaceAll(s, old, new)] at the one shape the sources use:
    [old] is a one-byte string, so every occurrence of that byte is
    replaced, left to right. *)
Fixpoint ReplaceAll (s : gostring) (old : ascii) (new : gostring) : gostring :=
  match s with
  | [] => []
  | c :: s' =>
      if Ascii.eqb c old then new ++ ReplaceAll s' old new
      else c :: ReplaceAll s' old new
  end.

(** Membership in an ASCII cutset ([asciiSet.contains]). *)
Definition contains (cutset : gostring) (c : ascii) : bool :=
  existsb (Ascii.eqb c) cutset.

(** [trimLeftASCII]: drop leading bytes that are in the cutset. *)
Fixpoint trimLeftASCII (s : gostring) (cutset : gostring) : gostring :=
  match s with
  | [] => []
  | c :: s' => if contains cutset c then trimLeftASCII s' cutset else s
  end.

(** [trimRightASCII]: drop trailing bytes that are in the cutset. *)
Definition trimRightASCII (s : gostring) (cutset : gostring) : gostring :=
  rev (trimLeftASCII (rev s) cutset).

(** [strings.Trim(s, cutset)] for a cutset of ASCII bytes: Go builds an
    [asciiSet] and trims bytewise,
    [trimLeftASCII(trimRightASCII(s, &as), &as)]. *)
Definition Trim (s : gostring) (cutset : gostring) : gostring :=
  trimLeftASCII (trimRightASCII s cutset) cutset.

(** The [asciiSpace] table: tab, newline, vertical tab, form feed,
    carriage return and space. *)
Definition asciiSpace (c : N) : bool :=
  (((9 <=? c) && (c <=? 13)) || (c =? 32))%N.

(** [indexFunc(s, unicode.IsSpace, false)] followed by [s[i:]]: the
    suffix from the first rune that is not a space ([TrimLeftFunc]). *)
Fixpoint TrimLeftFunc_fuel (fuel : nat) (s : gostring) : gostring :=
  match fuel with
  | 0 => []
  | S fuel' =>
      match s with
      | [] => []
      | _ =>
          let '(r, size) := utf8.DecodeRuneInString s in
          if unicode.IsSpace r then TrimLeftFunc_fuel fuel' (drop size s) else s
      end
  end.

Definition TrimLeftFunc (s : gostring) : gostring :=
  TrimLeftFunc_fuel (length s) s.

(** [lastIndexFunc(s, unicode.IsSpace, false)]: the index of the last
    rune that is not a space, scanning backwards from [i]. *)
Fixpoint lastIndexFunc (fuel : nat) (s : gostring) (i : nat) : option nat :=
  match fuel with
  | 0 => None
  | S fuel' =>
      if i =? 0 then None else
      let '(r, size) := utf8.DecodeLastRuneInString (take i s) in
      let i' := i - size in
      if unicode.IsSpace r then lastIndexFunc fuel' s i' else Some i'
  end.

(** [strings.TrimRightFunc(s, unicode.IsSpace)]. *)
Definition TrimRightFunc (s : gostring) : gostring :=
  match lastIndexFunc (length s) s (length s) with
  | Some i =>
      if (utf8.RuneSelf <=? byte_of (nth i s "000"%char))%N
      then take (i + snd (utf8.DecodeRuneInString (drop i s))) s
      else take (i + 1) s
  | None => take 0 s
  end.

Definition TrimFunc (s : gostring) : gostring :=
  TrimRightFunc (TrimLeftFunc s).

(** The second loop of [TrimSpace], on [s[start:]]: [stop] moves down
    over ASCII spaces; a byte [>= RuneSelf] hands over to
    [TrimRightFunc]. *)
Fixpoint trimSpace_stop (s : gostring) (stop : nat) : gostring :=
  match stop with
  | 0 => take 0 s
  | S stop' =>
      let c := byte_of (nth stop' s "000"%char) in
      if (utf8.RuneSelf <=? c)%N then TrimRightFunc (take stop s)
      else if asciiSpace c then trimSpace_stop s stop'
      else take stop s
  end.

(** [strings.TrimSpace]: the ASCII fast path from the left, falling
    back to [TrimFunc] on the first non-ASCII byte. *)
Fixpoint TrimSpace (s : gostring) : gostring :=
  match s with
  | [] => []
  | c :: s' =>
      if (utf8.RuneSelf <=? byte_of c)%N then TrimFunc s
      else if asciiSpace (byte_of c) then TrimSpace s'
      else trimSpace_stop s (length s)
  end.

(** [strings.HasPrefix]. *)
Fixpoint HasPrefix (s prefix : gostring) : bool :=
  match prefix, s with
  | [], _ => true
  | _ :: _, [] => false
  | p :: prefix', c :: s' => Ascii.eqb c p && HasPrefix s' prefix'
  end.

(** [strings.Contains]: [substr] starts at some index of [s]. *)
Fixpoint Contains (s substr : gostring) : bool :=
  HasPrefix s substr ||
  match s with
  | [] => false
  | _ :: s' => Contains s' substr
  end.

(** [strings.Count] for a non-empty [substr]: the occurrences that do
    not overlap, found from the left; after an occurrence the search
    goes on behind it. *)
Fixpoint Count_fuel (fuel : nat) (s substr : gostring) : nat :=
  match fuel with
  | 0 => 0
  | S fuel' =>
      match s with
      | [] => 0
      | _ :: s' =>
          if HasPrefix s substr
          then S (Count_fuel fuel' (drop (length substr) s) substr)
          else Count_fuel fuel' s' substr
      end
  end.

Definition Count (s substr : gostring) : nat := Count_fuel (length s) s substr.

(** A field that is being read ends: it is recorded unless it is
    empty. *)
Definition endField (field : gostring) : list gostring :=
  match field with
  | [] => []
  | _ :: _ => [field]
  end.

(** The ASCII path of [strings.Fields]: the fields are the maximal runs
    of bytes outside [asciiSpace]. *)
Fixpoint fieldsASCII (s field : gostring) : list gostring :=
  match s with
  | [] => endField field
  | c :: s' =>
      if asciiSpace (byte_of c) then endField field ++ fieldsASCII s' []
      else fieldsASCII s' (field ++ [c])
  end.

(** [strings.FieldsFunc(s, unicode.IsSpace)]: the range over the
    string decodes rune by rune; the fields are the maximal runs of
    runes that are not spaces. *)
Fixpoint FieldsFunc_fuel (fuel : nat) (s field : gostring) : list gostring :=
  match fuel with
  | 0 => endField field
  | S fuel' =>
      match s with
      | [] => endField field
      | _ :: _ =>
          let '(r, size) := utf8.DecodeRuneInString s in
          if unicode.IsSpace r
          then endField field ++ FieldsFunc_fuel fuel' (drop size s) []
          else FieldsFunc_fuel fuel' (drop size s) (field ++ take size s)
      end
  end.

(** [strings.Fields]: the ASCII path when no byte reaches [RuneSelf],
    [FieldsFunc] otherwise. *)
Definition Fields (s : gostring) : list gostring :=
  if forallb (fun c => (byte_of c <? utf8.RuneSelf)%N) s
  then fieldsASCII s []
  else FieldsFunc_fuel (length s) s [].

End strings.
Import strings.

(** ** The conversation model and the completion service *)

Module model.

(** [model.Role]: the two roles the assistant replays, and any other. *)
Inductive Role := RoleUser | RoleAssistant | RoleOther.

Record Message := { Role_ : Role; Content : gostring }.

Record Conversation := { Messages : list Message }.

End model.

Module openai.

(** A tool-call request of the model: [call.ID], [call.Function.Name],
    [call.Function.Arguments]. *)
Record ToolCall := { ID : gostring; Name : gostring; Arguments : gostring }.

(** [resp.Choices[i].Message]. *)
Record ChatCompletionMessage :=
  { Content : gostring; ToolCalls : list ToolCall }.

(** The response; a choice is represented by its message. *)
Record ChatCompletion := { Choices : list ChatCompletionMessage }.

(** [openai.ChatCompletionMessageParamUnion], by constructor. *)
Inductive MessageParam :=
| SystemMessage (content : gostring)
| UserMessage (content : gostring)
| AssistantMessage (content : gostring)
| ToolMessage (content : gostring) (toolCallID : gostring)
| ToParam (message : ChatCompletionMessage).

(** The request.  [Tools] is keyed by tool name: [Registry.Definitions]
    ranges over a Go map, whose order is unspecified. *)
Record ChatCompletionNewParams :=
  { Model : gostring;
    Messages : list MessageParam;
    Tools : gmap gostring gostring }.

Definition ChatModelGPT5 : gostring := str "gpt-5".
Definition ChatModelGPT4_1 : gostring := str "gpt-4.1".

End openai.

(** Errors and results.  A Go [(T, error)] pair is a [result]: the
    sources return the zero value of [T] (the empty string) with every
    non-nil error, so [Err e] stands for [("", e)]. *)
Inductive result (E A : Type) :=
| Ok (a : A)
| Err (e : E).
Arguments Ok {E A} a.
Arguments Err {E A} e.

(** ** The tool registry ([internal/tools/tool.go]) *)

Module tools.
Section Registry.

(** The world the tools act on (the network, the environment). *)
Context {W : Type}.

(** The [Tool] interface.  The error of [Execute] is kept as its text,
    the only thing the callers read ([err.Error()]). *)
Record Tool := {
  Name : gostring;
  Description : gostring;
  Execute : gostring -> W -> result gostring gostring * W
}.

Definition Registry := gmap gostring Tool.

Definition NewRegistry : gmap gostring Tool := ∅.

(** [Register]: [r.tools[t.Name()] = t]. *)
Definition Register (t : Tool) (r : gmap gostring Tool) : gmap gostring Tool :=
  <[Name t := t]> r.

Definition Get (r : gmap gostring Tool) (name : gostring) : option Tool :=
  r !! name.

(** One descriptor per registered tool. *)
Definition Definitions (r : gmap gostring Tool) : gmap gostring gostring :=
  Description <$> r.

(** [Registry.Execute]: an unknown name is an error, otherwise the
    tool's own result or error, unchanged. *)
Definition Registry_Execute (r : gmap gostring Tool) (name args : gostring)
    (w : W) : result gostring gostring * W :=
  match Get r name with
  | None => (Err (str "unknown tool: " ++ name), w)
  | Some tool => Execute tool args w
  end.

End Registry.
Arguments Tool : clear implicits.
Arguments Registry : clear implicits.
End tools.

(** ** The assistant ([internal/chat/assistant/assistant.go]) *)

Module assistant.

(** The errors [Title] and [Reply] return, by origin. *)
Inductive error :=
| ErrCompletion (cause : gostring)   (* err of cli.Chat.Completions.New *)
| ErrEmptyResponse
| ErrNoMessages
| ErrNoChoices
| ErrTooManyToolCalls.

(** [err.Error()]. *)
Definition Error (e : error) : gostring :=
  match e with
  | ErrCompletion cause => cause
  | ErrEmptyResponse => str "empty response from OpenAI for title generation"
  | ErrNoMessages => str "conversation has no messages"
  | ErrNoChoices => str "no choices returned by OpenAI"
  | ErrTooManyToolCalls => str "too many tool calls, unable to generate reply"
  end.

(** What leaves the process, in order. *)
Inductive Event :=
| EvCompletion (params : openai.ChatCompletionNewParams)
| EvTool (name args : gostring).

Definition is_completion (e : Event) : bool :=
  match e with EvCompletion _ => true | EvTool _ _ => false end.

Definition is_tool (e : Event) : bool :=
  match e with EvCompletion _ => false | EvTool _ _ => true end.

Section Assistant.

Context {W : Type}.

(** The state threaded through a call: the world and the calls issued. *)
Record State := { world : W; trace : list Event }.

(** [Assistant]: the completion client and the registry builder. *)
Record Assistant := {
  cli : openai.ChatCompletionNewParams -> W ->
        result gostring openai.ChatCompletion * W;
  buildRegistry : model.Conversation -> gmap gostring (tools.Tool W)
}.

(** [a.cli.Chat.Completions.New(ctx, params)]. *)
Definition Completions_New (a : Assistant)
    (params : openai.ChatCompletionNewParams) (st : State)
    : result gostring openai.ChatCompletion * State :=
  let '(r, w) := cli a params (world st) in
  (r, {| world := w; trace := trace st ++ [EvCompletion params] |}).

(** [registry.Execute(ctx, name, args)], recorded in the trace. *)
Definition registry_Execute (registry : gmap gostring (tools.Tool W))
    (name args : gostring) (st : State) : result gostring gostring * State :=
  let '(r, w) := tools.Registry_Execute registry name args (world st) in
  (r, {| world := w; trace := trace st ++ [EvTool name args] |}).

Definition en_dash : gostring :=
  [ascii_of_nat 226; ascii_of_nat 128; ascii_of_nat 147].

Definition titlePrompt : gostring :=
  str "Return ONLY a concise 2" ++ en_dash ++
  str "6 word title summarizing the user's question. Do not answer the question. No punctuation or emojis. Max 80 chars.".

(** The cutset of the title's [strings.Trim]: space, tab, carriage
    return, newline, dash, double quote, single quote. *)
Definition titleCutset : gostring :=
  [" "; "009"; "013"; "010"; "-"; "034"; "'"]%char.

Definition newline : ascii := "010"%char.

(** The post-processing of [Title]: collapse newlines, trim the
    cutset, cut to 80 bytes ([len] and [title[:80]] count bytes). *)
Definition postprocess (content : gostring) : gostring :=
  let title := content in
  let title := strings.ReplaceAll title newline (str " ") in
  let title := strings.Trim title titleCutset in
  if 80 <? length title then take 80 title else title.

(** The one request of [Title]: the fixed instruction, the first
    message of the conversation, and no tools. *)
Definition titleParams (userMessage : gostring) : openai.ChatCompletionNewParams :=
  {| openai.Model := openai.ChatModelGPT5;
     openai.Messages := [openai.SystemMessage titlePrompt;
                         openai.UserMessage userMessage];
     openai.Tools := ∅ |}.

(** [Assistant.Title]. *)
Definition Title (a : Assistant) (conv : model.Conversation) (st : State)
    : result error gostring * State :=
  match model.Messages conv with
  | [] => (Ok (str "An empty conversation"), st)
  | m0 :: _ =>
      let userMessage := model.Content m0 in
      let '(resp, st1) := Completions_New a (titleParams userMessage) st in
      match resp with
      | Err err => (Err (ErrCompletion err), st1)
      | Ok resp =>
          match openai.Choices resp with
          | [] => (Err ErrEmptyResponse, st1)
          | choice :: _ =>
              if decide (strings.TrimSpace (openai.Content choice) = [])
              then (Err ErrEmptyResponse, st1)
              else (Ok (postprocess (openai.Content choice)), st1)
          end
      end
  end.

Definition replyPrompt : gostring :=
  str "You are a helpful, concise AI assistant. Provide accurate, safe, and clear responses. For time-sensitive queries (flights, weather forecasts, holidays, etc.), always use the get_today_date tool first to ensure you have the correct current date before making other API calls.".

(** The replay of the persisted history: user and assistant messages
    in order, other roles skipped. *)
Fixpoint replay (ms : list model.Message) : list openai.MessageParam :=
  match ms with
  | [] => []
  | m :: ms' =>
      match model.Role_ m with
      | model.RoleUser => openai.UserMessage (model.Content m) :: replay ms'
      | model.RoleAssistant =>
          openai.AssistantMessage (model.Content m) :: replay ms'
      | model.RoleOther => replay ms'
      end
  end.

(** The inner loop over [message.ToolCalls]: one tool message per
    call, carrying the result or the error text. *)
Fixpoint dispatch (registry : gmap gostring (tools.Tool W))
    (calls : list openai.ToolCall) (msgs : list openai.MessageParam)
    (st : State) : list openai.MessageParam * State :=
  match calls with
  | [] => (msgs, st)
  | call :: calls' =>
      let '(r, st1) :=
        registry_Execute registry (openai.Name call) (openai.Arguments call) st in
      match r with
      | Err err =>
          dispatch registry calls'
            (msgs ++ [openai.ToolMessage err (openai.ID call)]) st1
      | Ok result =>
          dispatch registry calls'
            (msgs ++ [openai.ToolMessage result (openai.ID call)]) st1
      end
  end.

(** What one iteration of the loop of [Reply] does. *)
Inductive Outcome :=
| Continue (msgs : list openai.MessageParam)
| Return (r : result error gostring).

Definition round (a : Assistant) (registry : gmap gostring (tools.Tool W))
    (msgs : list openai.MessageParam) (st : State) : Outcome * State :=
  let '(resp, st1) :=
    Completions_New a
      {| openai.Model := openai.ChatModelGPT4_1;
         openai.Messages := msgs;
         openai.Tools := tools.Definitions registry |} st in
  match resp with
  | Err err => (Return (Err (ErrCompletion err)), st1)
  | Ok resp =>
      match openai.Choices resp with
      | [] => (Return (Err ErrNoChoices), st1)
      | message :: _ =>
          if 0 <? length (openai.ToolCalls message) then
            let '(msgs', st2) :=
              dispatch registry (openai.ToolCalls message)
                (msgs ++ [openai.ToParam message]) st1 in
            (Continue msgs', st2)
          else (Return (Ok (openai.Content message)), st1)
      end
  end.

(** [for i := 0; i < 15; i++ { ... }], with [n] iterations left. *)
Fixpoint loop (n : nat) (a : Assistant)
    (registry : gmap gostring (tools.Tool W))
    (msgs : list openai.MessageParam) (st : State)
    : result error gostring * State :=
  match n with
  | 0 => (Err ErrTooManyToolCalls, st)
  | S n' =>
      match round a registry msgs st with
      | (Continue msgs', st') => loop n' a registry msgs' st'
      | (Return r, st') => (r, st')
      end
  end.

Definition maxRounds : nat := 15.

(** [Assistant.Reply]. *)
Definition Reply (a : Assistant) (conv : model.Conversation) (st : State)
    : result error gostring * State :=
  match model.Messages conv with
  | [] => (Err ErrNoMessages, st)
  | _ :: _ =>
      let registry := buildRegistry a conv in
      let msgs := openai.SystemMessage replyPrompt :: replay (model.Messages conv) in
      loop maxRounds a registry msgs st
  end.

(** The number of completion calls a state has recorded. *)
Definition completions (st : State) : nat :=
  length (List.filter is_completion (trace st)).

End Assistant.
Arguments State : clear implicits.
Arguments Assistant : clear implicits.
End assistant.

(** ** Package [time], as far as the holiday tool uses it *)

Module time.

(** A [time.Time], as its UTC wall clock: civil date and nanoseconds
    since midnight.  Two instants compare as these tuples do. *)
Record Time := { year : nat; month : nat; day : nat; nsec : nat }.

Definition compare (t u : Time) : comparison :=
  match Nat.compare (year t) (year u) with
  | Eq =>
      match Nat.compare (month t) (month u) with
      | Eq =>
          match Nat.compare (day t) (day u) with
          | Eq => Nat.compare (nsec t) (nsec u)
          | c => c
          end
      | c => c
      end
  | c => c
  end.

Definition Before (t u : Time) : bool :=
  match compare t u with Lt => true | _ => false end.

Definition After (t u : Time) : bool :=
  match compare t u with Gt => true | _ => false end.

(** The zero time: January 1, year 1, 00:00:00 UTC. *)
Definition IsZero (t : Time) : bool :=
  (year t =? 1) && (month t =? 1) && (day t =? 1) && (nsec t =? 0).

Definition zero : Time := {| year := 1; month := 1; day := 1; nsec := 0 |}.

Definition digit (n : nat) : ascii := ascii_of_nat (48 + n mod 10).

Fixpoint itoa_aux (fuel n : nat) (acc : gostring) : gostring :=
  match fuel with
  | 0 => acc
  | S fuel' =>
      let acc' := digit n :: acc in
      if n / 10 =? 0 then acc' else itoa_aux fuel' (n / 10) acc'
  end.

(** Decimal digits of a non-negative integer ([strconv.Itoa], [%d]). *)
Definition itoa (n : nat) : gostring := itoa_aux (S n) n [].

(** [appendInt(b, x, width)]: decimal, zero-padded to [width]. *)
Definition appendInt (x width : nat) : gostring :=
  let d := itoa x in repeat "0"%char (width - length d) ++ d.

(** [t.Format(time.DateOnly)], layout 2006-01-02. *)
Definition Format_DateOnly (t : Time) : gostring :=
  appendInt (year t) 4 ++ str "-" ++ appendInt (month t) 2 ++ str "-" ++
  appendInt (day t) 2.

(** An all-day date, midnight UTC. *)
Definition Date (y m d : nat) : Time :=
  {| year := y; month := m; day := d; nsec := 0 |}.

End time.

(** [strings.Join(elems, sep)]. *)
Fixpoint Join (elems : list gostring) (sep : gostring) : gostring :=
  match elems with
  | [] => []
  | [e] => e
  | e :: rest => e ++ sep ++ Join rest sep
  end.

(** ** The holiday tool *)

Module ics.

(** An [ics.VEvent], by what the tool reads of it: the outcome of
    [GetAllDayStartAt] ([None] when it returns an error) and the
    SUMMARY property ([None] when [GetProperty] returns nil). *)
Record VEvent := {
  GetAllDayStartAt : option time.Time;
  Summary : option gostring
}.

End ics.

Module holidays.

(** The decoded arguments of [get_holidays]. *)
Record payload := {
  BeforeDate : time.Time;
  AfterDate : time.Time;
  MaxCount : Z
}.

Inductive error :=
| ErrLoad (cause : gostring)     (* failed to load holiday events *)
| ErrParse (cause : gostring).   (* failed to parse tool call arguments *)

Definition Error (e : error) : gostring :=
  match e with
  | ErrLoad cause => str "failed to load holiday events: " ++ cause
  | ErrParse cause => str "failed to parse tool call arguments: " ++ cause
  end.

(** How a call ends: it returns, or the goroutine panics. *)
Inductive outcome :=
| Returned (r : result error gostring)
| Panicked.

(** The guards shared by both revisions of the loop body. *)
Definition maxReached (p : payload) (holidays : list gostring) : bool :=
  (0 <? MaxCount p)%Z && (MaxCount p <=? Z.of_nat (length holidays))%Z.

Definition afterBound (p : payload) (date : time.Time) : bool :=
  negb (time.IsZero (BeforeDate p)) && time.After date (BeforeDate p).

Definition beforeBound (p : payload) (date : time.Time) : bool :=
  negb (time.IsZero (AfterDate p)) && time.Before date (AfterDate p).

Definition line (date : time.Time) (summary : gostring) : gostring :=
  time.Format_DateOnly date ++ str ": " ++ summary.

(** *** [internal/tools/calendar.go]: events in feed order *)

Module calendar_go.

(** The loop of lines 115-134.  [None] is the nil-pointer dereference
    of [event.GetProperty(ics.ComponentPropertySummary).Value] on an
    event without SUMMARY. *)
Fixpoint collect (p : payload) (events : list ics.VEvent)
    (holidays : list gostring) : option (list gostring) :=
  match events with
  | [] => Some holidays
  | event :: events' =>
      match ics.GetAllDayStartAt event with
      | None => collect p events' holidays
      | Some date =>
          if maxReached p holidays then Some holidays
          else if afterBound p date then collect p events' holidays
          else if beforeBound p date then collect p events' holidays
          else
            match ics.Summary event with
            | None => None
            | Some value =>
                collect p events' (holidays ++ [line date value])
            end
      end
  end.

(** [GetHolidaysTool.Execute], from the outcome of [LoadCalendar] and
    of [json.Unmarshal] on the arguments. *)
Definition Execute (loaded : result gostring (list ics.VEvent))
    (args : result gostring payload) : outcome :=
  match loaded with
  | Err err => Returned (Err (ErrLoad err))
  | Ok events =>
      match args with
      | Err err => Returned (Err (ErrParse err))
      | Ok p =>
          match collect p events [] with
          | None => Panicked
          | Some holidays => Returned (Ok (Join holidays nl))
          end
      end
  end.

End calendar_go.

(** *** The revision that sorts by date before filtering *)

Module calendar_sorted.

Record datedEvent := { evt : ics.VEvent; date : time.Time }.

(** Lines 110-117: the events that have an all-day start. *)
Fixpoint dated (events : list ics.VEvent) : list datedEvent :=
  match events with
  | [] => []
  | ev :: events' =>
      match ics.GetAllDayStartAt ev with
      | None => dated events'
      | Some d => {| evt := ev; date := d |} :: dated events'
      end
  end.

(** The [less] of line 118. *)
Definition less (a b : datedEvent) : bool := time.Before (date a) (date b).

(** The insertion sort [sort.Slice] runs on slices of at most 12
    elements: element [x] moves left past every element it is less
    than.  [sorted_rev] is the sorted prefix, last element first. *)
Fixpoint insert (x : datedEvent) (sorted_rev : list datedEvent) : list datedEvent :=
  match sorted_rev with
  | [] => [x]
  | y :: rest => if less x y then y :: insert x rest else x :: sorted_rev
  end.

Definition insertionSort (l : list datedEvent) : list datedEvent :=
  rev (fold_left (fun acc x => insert x acc) l []).

(** The loop of lines 131-151. *)
Fixpoint collect (p : payload) (items : list datedEvent)
    (holidays : list gostring) : list gostring :=
  match items with
  | [] => holidays
  | item :: items' =>
      if maxReached p holidays then holidays
      else if afterBound p (date item) then collect p items' holidays
      else if beforeBound p (date item) then collect p items' holidays
      else
        let summary :=
          match ics.Summary (evt item) with
          | Some value => value
          | None => str "No summary"
          end in
        collect p items' (holidays ++ [line (date item) summary])
  end.

(** [GetHolidaysTool.Execute] of the sorted revision.  [sort_Slice] is
    the library sort with the [less] above; Go leaves the order of
    elements that compare equal unspecified. *)
Definition Execute (sort_Slice : list datedEvent -> list datedEvent)
    (loaded : result gostring (list ics.VEvent))
    (args : result gostring payload) : outcome :=
  match loaded with
  | Err err => Returned (Err (ErrLoad err))
  | Ok events =>
      let datedEvents := sort_Slice (dated events) in
      match args with
      | Err err => Returned (Err (ErrParse err))
      | Ok p => Returned (Ok (Join (collect p datedEvents []) nl))
      end
  end.

(** What [sort.Slice] promises: the same elements, and no element less
    than one placed before it. *)
Definition sorts (sort_Slice : list datedEvent -> list datedEvent) : Prop :=
  forall l, Permutation (sort_Slice l) l /\
            StronglySorted (fun a b => less b a = false) (sort_Slice l).

End calendar_sorted.

End holidays.

(** ** Package [regexp], for the patterns the tools compile *)

Module regexp.

(** A pattern is a sequence of items over byte classes: one byte of a
    class, a greedy [+] over a class, or a capturing group around a
    greedy [+].  The classes of the weather pattern are ASCII (or the
    complement of an ASCII set), so matching bytes and matching runes
    select the same spans. *)
Inductive item :=
| Lit (cls : ascii -> bool)
| Plus (cls : ascii -> bool)
| Group (cls : ascii -> bool).

(** Greedy repetition: take one more byte of the class when the rest
    of the pattern still matches after it, otherwise stop here.  The
    result is the bytes taken and what the continuation [k] returns. *)
Fixpoint more {A : Type} (cls : ascii -> bool) (k : gostring -> option A)
    (s : gostring) : option (gostring * A) :=
  match s with
  | c :: s' =>
      if cls c then
        match more cls k s' with
        | Some (taken, r) => Some (c :: taken, r)
        | None => match k s with Some r => Some ([], r) | None => None end
        end
      else match k s with Some r => Some ([], r) | None => None end
  | [] => match k s with Some r => Some ([], r) | None => None end
  end.

(** Match the pattern at the start of [s]: the unmatched rest and the
    captured groups, preferring the longest repetitions first. *)
Fixpoint match_here (p : list item) (s : gostring)
    : option (gostring * list gostring) :=
  match p with
  | [] => Some (s, [])
  | Lit cls :: p' =>
      match s with
      | c :: s' => if cls c then match_here p' s' else None
      | [] => None
      end
  | Plus cls :: p' =>
      match s with
      | c :: s' =>
          if cls c then
            match more cls (match_here p') s' with
            | Some (_, r) => Some r
            | None => None
            end
          else None
      | [] => None
      end
  | Group cls :: p' =>
      match s with
      | c :: s' =>
          if cls c then
            match more cls (match_here p') s' with
            | Some (taken, (rest, groups)) => Some (rest, (c :: taken) :: groups)
            | None => None
            end
          else None
      | [] => None
      end
  end.

(** [re.FindStringSubmatch(s)]: the leftmost match, as the matched text
    followed by the groups; the empty slice when nothing matches. *)
Fixpoint FindStringSubmatch (p : list item) (s : gostring) : list gostring :=
  match match_here p s with
  | Some (rest, groups) => take (length s - length rest) s :: groups
  | None =>
      match s with
      | [] => []
      | _ :: s' => FindStringSubmatch p s'
      end
  end.

(** A letter under the flag [(?i)]. *)
Definition fold (lower upper : ascii) (c : ascii) : bool :=
  Ascii.eqb c lower || Ascii.eqb c upper.

(** The Perl class [\s]: tab, newline, form feed, carriage return, space. *)
Definition space (c : ascii) : bool :=
  existsb (Ascii.eqb c) ["009"; "010"; "012"; "013"; " "]%char.

(** The class [[^?.!]]. *)
Definition notEnd (c : ascii) : bool :=
  negb (existsb (Ascii.eqb c) ["?"; "."; "!"]%char).

End regexp.

(** ** The current-weather tool ([internal/tools/weather.go]) *)

Module weather.

(** [(?i)weather\s+in\s+([^?.!]+)]. *)
Definition weatherIn : list regexp.item :=
  [regexp.Lit (regexp.fold "w" "W"); regexp.Lit (regexp.fold "e" "E");
   regexp.Lit (regexp.fold "a" "A"); regexp.Lit (regexp.fold "t" "T");
   regexp.Lit (regexp.fold "h" "H"); regexp.Lit (regexp.fold "e" "E");
   regexp.Lit (regexp.fold "r" "R"); regexp.Plus regexp.space;
   regexp.Lit (regexp.fold "i" "I"); regexp.Lit (regexp.fold "n" "N");
   regexp.Plus regexp.space; regexp.Group regexp.notEnd]%char.

Record payload := { Location : gostring }.

Inductive error :=
| ErrParse (cause : gostring)
| ErrLocationRequired
| ErrLookup (cause : gostring).

Definition Error (e : error) : gostring :=
  match e with
  | ErrParse cause => str "failed to parse tool call arguments: " ++ cause
  | ErrLocationRequired =>
      str "weather lookup failed: please provide a location (e.g., 'weather in Paris')"
  | ErrLookup cause => str "weather lookup failed: " ++ cause
  end.

(** Lines 280-288: from the last message to the first, the first user
    message the pattern matches decides, even when the trimmed group
    is empty. *)
Fixpoint scan (backwards : list model.Message) : gostring :=
  match backwards with
  | [] => []
  | m :: older =>
      match model.Role_ m with
      | model.RoleUser =>
          let m' := regexp.FindStringSubmatch weatherIn (model.Content m) in
          match m' with
          | [_; group] => strings.TrimSpace group
          | _ => scan older
          end
      | _ => scan older
      end
  end.

Section Execute.

(** The environment, the float type with its [%.0f] rendering, and the
    weather provider behind [FetchCurrentWeather]. *)
Context {W float : Type}.
Context (Getenv : gostring -> gostring).
Context (fmt_f0 : float -> gostring).

Record CurrentWeather := {
  cwLocation : gostring;
  Condition : gostring;
  TempC : float;
  FeelsLikeC : float;
  WindKph : float;
  Humidity : nat
}.

Context (provider : gostring -> gostring -> W -> result gostring CurrentWeather * W).

(** The lookups sent to the provider, as (key, location). *)
Record State := { world : W; lookups : list (gostring * gostring) }.

(** Lines 276-295: payload, then the conversation, then the default. *)
Definition resolveLocation (conv : model.Conversation) (p : payload)
    : result error gostring :=
  let resolvedLocation := strings.TrimSpace (Location p) in
  let resolvedLocation :=
    if decide (resolvedLocation = [])
    then scan (rev (model.Messages conv)) else resolvedLocation in
  let resolvedLocation :=
    if decide (resolvedLocation = [])
    then Getenv (str "WEATHER_DEFAULT_LOCATION") else resolvedLocation in
  if decide (resolvedLocation = []) then Err ErrLocationRequired
  else Ok resolvedLocation.

(** [FetchCurrentWeather]: the two guards, then the request. *)
Definition FetchCurrentWeather (apiKey location : gostring) (st : State)
    : result gostring CurrentWeather * State :=
  if decide (apiKey = []) then (Err (str "missing WEATHER_API_KEY"), st)
  else if decide (location = []) then (Err (str "missing location"), st)
  else
    let '(r, w) := provider apiKey location (world st) in
    (r, {| world := w; lookups := lookups st ++ [(apiKey, location)] |}).

Definition degC : gostring := [ascii_of_nat 194; ascii_of_nat 176; "C"%char].

(** [GetWeatherTool.Execute]. *)
Definition Execute (conv : model.Conversation) (args : result gostring payload)
    (st : State) : result error gostring * State :=
  match args with
  | Err err => (Err (ErrParse err), st)
  | Ok p =>
      match resolveLocation conv p with
      | Err e => (Err e, st)
      | Ok resolvedLocation =>
          let apiKey := Getenv (str "WEATHER_API_KEY") in
          match FetchCurrentWeather apiKey resolvedLocation st with
          | (Err err, st') => (Err (ErrLookup err), st')
          | (Ok cw, st') =>
              let name :=
                if decide (cwLocation cw = []) then resolvedLocation
                else cwLocation cw in
              (Ok (name ++ str ": " ++ fmt_f0 (TempC cw) ++ degC ++ str ", " ++
                   Condition cw ++ str ". Feels " ++ fmt_f0 (FeelsLikeC cw) ++
                   degC ++ str ". Wind " ++ fmt_f0 (WindKph cw) ++
                   str " kph. Humidity " ++ time.itoa (Humidity cw) ++ str "%"),
               st')
          end
      end
  end.

End Execute.
End weather.

(** ** The flight-price tool *)

Module flights.

Record payload := {
  Origin : gostring;
  Destination : gostring;
  DepartureDate : gostring;
  MaxPrice : Z
}.

Record FlightDestination := {
  fdOrigin : gostring;
  fdDestination : gostring;
  fdDepartureDate : gostring;
  ReturnDate : gostring;
  Price : gostring
}.

(** The HTTP requests the tool can issue. *)
Inductive Request :=
| TokenRequest (apiKey apiSecret : gostring)
| OfferSearch (token origin destination departureDate : gostring) (maxPrice : Z).

Inductive error :=
| ErrParse (cause : gostring)
| ErrOriginRequired
| ErrDestinationRequired
| ErrDepartureDateRequired
| ErrCredentials
| ErrSearch (cause : gostring).

Definition Error (e : error) : gostring :=
  match e with
  | ErrParse cause => str "failed to parse tool call arguments: " ++ cause
  | ErrOriginRequired => str "origin is required"
  | ErrDestinationRequired => str "destination is required"
  | ErrDepartureDateRequired => str "departure date is required"
  | ErrCredentials =>
      str "amadeus API credentials not configured - please set AMADEUS_API_KEY and AMADEUS_API_SECRET environment variables"
  | ErrSearch cause => str "flight search failed: " ++ cause
  end.

(** The ASCII path of [strings.ToUpper]. *)
Definition upperByte (c : ascii) : ascii :=
  let n := nat_of_ascii c in
  if (97 <=? n) && (n <=? 122) then ascii_of_nat (n - 32) else c.

Definition isASCII (s : gostring) : bool :=
  forallb (fun c => (byte_of c <? utf8.RuneSelf)%N) s.

Section Execute.

Context {W : Type}.
Context (Getenv : gostring -> gostring).

(** [strings.Map(unicode.ToUpper, s)], the path [strings.ToUpper] takes
    on a string with a non-ASCII byte. *)
Context (mapToUpper : gostring -> gostring).

(** The provider behind the two endpoints: what the token call and the
    offer search come back with once the request is sent. *)
Context (tokenEndpoint : gostring -> gostring -> W -> result gostring gostring * W).
Context (offersEndpoint :
  gostring -> gostring -> gostring -> gostring -> Z -> W ->
  result gostring (list FlightDestination) * W).

Record State := { world : W; requests : list Request }.

Definition ToUpper (s : gostring) : gostring :=
  if isASCII s then map upperByte s else mapToUpper s.

(** [FetchAmadeusToken]: both credentials are checked before the
    request is built. *)
Definition FetchAmadeusToken (apiKey apiSecret : gostring) (st : State)
    : result gostring gostring * State :=
  if decide (apiKey = []) then (Err (str "missing AMADEUS_API_KEY"), st)
  else if decide (apiSecret = []) then (Err (str "missing AMADEUS_API_SECRET"), st)
  else
    let '(r, w) := tokenEndpoint apiKey apiSecret (world st) in
    (r, {| world := w; requests := requests st ++ [TokenRequest apiKey apiSecret] |}).

(** [FetchFlightDestinations]. *)
Definition FetchFlightDestinations
    (token origin destination departureDate : gostring) (maxPrice : Z)
    (st : State) : result gostring (list FlightDestination) * State :=
  if decide (token = []) then (Err (str "missing access token"), st)
  else if decide (origin = []) then (Err (str "missing origin"), st)
  else if decide (destination = []) then (Err (str "missing destination"), st)
  else if decide (departureDate = []) then (Err (str "missing departure date"), st)
  else
    let '(r, w) :=
      offersEndpoint token origin destination departureDate maxPrice (world st) in
    (r, {| world := w;
           requests := requests st ++
             [OfferSearch token origin destination departureDate maxPrice] |}).

Definition arrow : gostring :=
  [ascii_of_nat 226; ascii_of_nat 134; ascii_of_nat 146].

(** One numbered line per flight, lines 326-340. *)
Fixpoint flightLines (i : nat) (fs : list FlightDestination) : list gostring :=
  match fs with
  | [] => []
  | f :: fs' =>
      let depTime := fdDepartureDate f in
      let depTime :=
        if 16 <=? length depTime then take 5 (drop 11 depTime) else depTime in
      (time.itoa (i + 1) ++ str ". " ++ fdOrigin f ++ str " " ++ arrow ++
       str " " ++ fdDestination f ++ str " at " ++ depTime ++ str ": " ++
       Price f) :: flightLines (i + 1) fs'
  end.

(** [GetFlightPricesTool.Execute]. *)
Definition Execute (args : result gostring payload) (st : State)
    : result error gostring * State :=
  match args with
  | Err err => (Err (ErrParse err), st)
  | Ok p =>
      let origin := strings.TrimSpace (ToUpper (Origin p)) in
      if decide (origin = []) then (Err ErrOriginRequired, st) else
      let destination := strings.TrimSpace (ToUpper (Destination p)) in
      if decide (destination = []) then (Err ErrDestinationRequired, st) else
      let departureDate := strings.TrimSpace (DepartureDate p) in
      if decide (departureDate = []) then (Err ErrDepartureDateRequired, st) else
      let maxPrice := MaxPrice p in
      let apiKey := Getenv (str "AMADEUS_API_KEY") in
      let apiSecret := Getenv (str "AMADEUS_API_SECRET") in
      if bool_decide (apiKey = []) || bool_decide (apiSecret = [])
      then (Err ErrCredentials, st) else
      match FetchAmadeusToken apiKey apiSecret st with
      | (Err err, st1) => (Err (ErrSearch err), st1)
      | (Ok token, st1) =>
          match FetchFlightDestinations token origin destination
                  departureDate maxPrice st1 with
          | (Err err, st2) => (Err (ErrSearch err), st2)
          | (Ok [], st2) =>
              (Ok (str "No flights found matching your criteria."), st2)
          | (Ok flights, st2) =>
              let header :=
                str "Found " ++ time.itoa (length flights) ++
                str " flight option" ++
                (if length flights =? 1 then [] else str "s") ++
                str " from " ++ origin ++ str " to " ++ destination ++
                str " on " ++ departureDate ++ str ":" in
              (Ok (Join (header :: flightLines 0 flights) nl), st2)
          end
      end
  end.

End Execute.
End flights.

(** ** Properties stated about titles *)

Module title.

(** A padding byte: one of the cutset of the title's [strings.Trim]
    (space, tab, carriage return, newline, dash, quotes). *)
Definition pad (c : ascii) : bool := strings.contains assistant.titleCutset c.

Definition no_leading_pad (t : gostring) : Prop :=
  forall c, head t = Some c -> pad c = false.

Definition no_trailing_pad (t : gostring) : Prop :=
  forall c, last t = Some c -> pad c = false.

(** The invariant the specification states for a returned title. *)
Definition invariant (t : gostring) : Prop :=
  length t <= 80 /\ (assistant.newline ∉ t) /\
  no_leading_pad t /\ no_trailing_pad t.

(** A title is blank when nothing but white space is in it. *)
Definition blank (t : gostring) : Prop := strings.TrimSpace t = [].

(** The content after the newline collapse and the trim, before the
    truncation. *)
Definition trimmed (content : gostring) : gostring :=
  strings.Trim (strings.ReplaceAll content assistant.newline (str " "))
    assistant.titleCutset.

(** The string stops inside a multi-byte sequence: its last rune is an
    encoding error although its last byte leads a sequence. *)
Definition ends_incomplete (t : gostring) : Prop :=
  utf8.DecodeLastRuneInString t = (utf8.RuneError, 1) /\
  exists c, last t = Some c /\ utf8.first (byte_of c) <> None.

End title.

(** ** Properties stated about the reply loop *)

Module reply.
Section reply.

Context {W : Type}.

(** The text that goes back to the model for a tool execution. *)
Definition text (r : result gostring gostring) : gostring :=
  match r with Ok result => result | Err err => err end.

(** [dispatched registry st calls outs st']: executing [calls] in order
    from [st] ends in [st'] and answers every call with one tool
    message, keyed to the call's identifier, whose content is the
    text of what the execution returned. *)
Inductive dispatched (registry : gmap gostring (tools.Tool W))
  : assistant.State W -> list openai.ToolCall -> list openai.MessageParam ->
    assistant.State W -> Prop :=
| dispatched_nil st : dispatched registry st [] [] st
| dispatched_cons st call calls r st1 outs st2 :
    assistant.registry_Execute registry (openai.Name call)
      (openai.Arguments call) st = (r, st1) ->
    dispatched registry st1 calls outs st2 ->
    dispatched registry st (call :: calls)
      (openai.ToolMessage (text r) (openai.ID call) :: outs) st2.

(** The request of a round of [Reply] on transcript [msgs]. *)
Definition replyParams (registry : gmap gostring (tools.Tool W))
    (msgs : list openai.MessageParam) : openai.ChatCompletionNewParams :=
  {| openai.Model := openai.ChatModelGPT4_1;
     openai.Messages := msgs;
     openai.Tools := tools.Definitions registry |}.


End reply.
End reply.

(** ** [Reply] over tools that may panic

    [Reply] has no [recover]: a panic inside a tool's [Execute] unwinds
    through [registry.Execute] and through [Reply].  The model above
    types a tool as a function that returns; here [Execute] may also
    panic, and the definitions of [Reply] are repeated with the panic
    passed on. *)

Module panics.
Section panics.

Context {W : Type}.

(** How a call ends: it returns, or the goroutine panics in the state
    that was reached. *)
Inductive outcome (A : Type) :=
| Returned (a : A)
| Panicked (st : assistant.State W).
#[global] Arguments Returned {A} a.
#[global] Arguments Panicked {A} st.

(** The [Tool] interface; [None] is a panic of [Execute]. *)
Record Tool := {
  Name : gostring;
  Description : gostring;
  Execute : gostring -> W -> option (result gostring gostring * W)
}.

Record Assistant := {
  cli : openai.ChatCompletionNewParams -> W ->
        result gostring openai.ChatCompletion * W;
  buildRegistry : model.Conversation -> gmap gostring Tool
}.

Definition Register (t : Tool) (r : gmap gostring Tool) : gmap gostring Tool :=
  <[Name t := t]> r.

Definition Definitions (r : gmap gostring Tool) : gmap gostring gostring :=
  Description <$> r.

(** [registry.Execute(ctx, name, args)], recorded in the trace. *)
Definition registry_Execute (registry : gmap gostring Tool)
    (name args : gostring) (st : assistant.State W)
    : outcome (result gostring gostring * assistant.State W) :=
  let called := assistant.trace st ++ [assistant.EvTool name args] in
  match registry !! name with
  | None =>
      Returned (Err (str "unknown tool: " ++ name),
                {| assistant.world := assistant.world st;
                   assistant.trace := called |})
  | Some tool =>
      match Execute tool args (assistant.world st) with
      | Some (r, w) =>
          Returned (r, {| assistant.world := w; assistant.trace := called |})
      | None =>
          Panicked {| assistant.world := assistant.world st;
                      assistant.trace := called |}
      end
  end.

(** The inner loop over [message.ToolCalls]. *)
Fixpoint dispatch (registry : gmap gostring Tool)
    (calls : list openai.ToolCall) (msgs : list openai.MessageParam)
    (st : assistant.State W)
    : outcome (list openai.MessageParam * assistant.State W) :=
  match calls with
  | [] => Returned (msgs, st)
  | call :: calls' =>
      match registry_Execute registry (openai.Name call)
              (openai.Arguments call) st with
      | Panicked st1 => Panicked st1
      | Returned (Err err, st1) =>
          dispatch registry calls'
            (msgs ++ [openai.ToolMessage err (openai.ID call)]) st1
      | Returned (Ok result, st1) =>
          dispatch registry calls'
            (msgs ++ [openai.ToolMessage result (openai.ID call)]) st1
      end
  end.

(** The request of a round on transcript [msgs]. *)
Definition params (registry : gmap gostring Tool)
    (msgs : list openai.MessageParam) : openai.ChatCompletionNewParams :=
  {| openai.Model := openai.ChatModelGPT4_1;
     openai.Messages := msgs;
     openai.Tools := Definitions registry |}.

(** One iteration of the loop of [Reply]. *)
Definition round (a : Assistant) (registry : gmap gostring Tool)
    (msgs : list openai.MessageParam) (st : assistant.State W)
    : outcome (assistant.Outcome * assistant.State W) :=
  let '(resp, w) := cli a (params registry msgs) (assistant.world st) in
  let st1 :=
    {| assistant.world := w;
       assistant.trace := assistant.trace st ++
         [assistant.EvCompletion (params registry msgs)] |} in
  match resp with
  | Err err => Returned (assistant.Return (Err (assistant.ErrCompletion err)), st1)
  | Ok resp =>
      match openai.Choices resp with
      | [] => Returned (assistant.Return (Err assistant.ErrNoChoices), st1)
      | message :: _ =>
          if 0 <? length (openai.ToolCalls message) then
            match dispatch registry (openai.ToolCalls message)
                    (msgs ++ [openai.ToParam message]) st1 with
            | Panicked st2 => Panicked st2
            | Returned (msgs', st2) => Returned (assistant.Continue msgs', st2)
            end
          else Returned (assistant.Return (Ok (openai.Content message)), st1)
      end
  end.

(** [for i := 0; i < 15; i++ { ... }], with [n] iterations left. *)
Fixpoint loop (n : nat) (a : Assistant) (registry : gmap gostring Tool)
    (msgs : list openai.MessageParam) (st : assistant.State W)
    : outcome (result assistant.error gostring * assistant.State W) :=
  match n with
  | 0 => Returned (Err assistant.ErrTooManyToolCalls, st)
  | S n' =>
      match round a registry msgs st with
      | Panicked st' => Panicked st'
      | Returned (assistant.Continue msgs', st') => loop n' a registry msgs' st'
      | Returned (assistant.Return r, st') => Returned (r, st')
      end
  end.

(** The transcript [Reply] starts from. *)
Definition seed (conv : model.Conversation) : list openai.MessageParam :=
  openai.SystemMessage assistant.replyPrompt
    :: assistant.replay (model.Messages conv).

(** [Assistant.Reply]. *)
Definition Reply (a : Assistant) (conv : model.Conversation)
    (st : assistant.State W)
    : outcome (result assistant.error gostring * assistant.State W) :=
  match model.Messages conv with
  | [] => Returned (Err assistant.ErrNoMessages, st)
  | _ :: _ =>
      loop assistant.maxRounds a (buildRegistry a conv) (seed conv) st
  end.

(** No tool of the registry panics. *)
Definition returns (registry : gmap gostring Tool) : Prop :=
  forall name tool args w,
    registry !! name = Some tool -> Execute tool args w <> None.

(** On each of the next [n] rounds of the run that starts from [msgs]
    and [st], the completion service returns a first choice that
    carries a tool call. *)
Fixpoint tool_calls_on_every_round (n : nat) (a : Assistant)
    (registry : gmap gostring Tool) (msgs : list openai.MessageParam)
    (st : assistant.State W) : Prop :=
  match n with
  | 0 => True
  | S n' =>
      exists message rest w,
        cli a (params registry msgs) (assistant.world st)
          = (Ok {| openai.Choices := message :: rest |}, w) /\
        openai.ToolCalls message <> [] /\
        match dispatch registry (openai.ToolCalls message)
                (msgs ++ [openai.ToParam message])
                {| assistant.world := w;
                   assistant.trace := assistant.trace st ++
                     [assistant.EvCompletion (params registry msgs)] |} with
        | Returned (msgs', st') => tool_calls_on_every_round n' a registry msgs' st'
        | Panicked _ => True
        end
  end.

(** A tool that returns, and an assistant all of whose tools return. *)
Definition of_tool (t : tools.Tool W) : Tool :=
  {| Name := tools.Name t;
     Description := tools.Description t;
     Execute := fun args w => Some (tools.Execute t args w) |}.

Definition of_assistant (a : assistant.Assistant W) : Assistant :=
  {| cli := assistant.cli a;
     buildRegistry := fun conv => of_tool <$> assistant.buildRegistry a conv |}.

(** [GetHolidaysTool] as a tool of the registry: [Execute_] is the body
    of either revision, [LoadCalendar] what the feed holds when it is
    fetched, [Unmarshal] the decoding of the arguments. *)
Definition GetHolidaysTool
    (Execute_ : result gostring (list ics.VEvent) ->
                result gostring holidays.payload -> holidays.outcome)
    (LoadCalendar : W -> result gostring (list ics.VEvent) * W)
    (Unmarshal : gostring -> result gostring holidays.payload) : Tool :=
  {| Name := str "get_holidays";
     Description :=
       str "Gets local bank and public holidays. Each line is a single holiday in the format 'YYYY-MM-DD: Holiday Name'.";
     Execute := fun args w =>
       let '(loaded, w') := LoadCalendar w in
       match Execute_ loaded (Unmarshal args) with
       | holidays.Returned (Ok listing) => Some (Ok listing, w')
       | holidays.Returned (Err err) => Some (Err (holidays.Error err), w')
       | holidays.Panicked => None
       end |}.

End panics.
Arguments Tool : clear implicits.
Arguments Assistant : clear implicits.
End panics.

(** ** Properties stated about the holiday listing *)

Module listing.

Import holidays.

(** [t] is not after [u]. *)
Definition le (t u : time.Time) : Prop := time.Before u t = false.

(** The line the sorted revision prints for an item. *)
Definition render (item : calendar_sorted.datedEvent) : gostring :=
  line (calendar_sorted.date item)
    (match ics.Summary (calendar_sorted.evt item) with
     | Some value => value
     | None => str "No summary"
     end).

(** The items the loop of the sorted revision keeps, when [n] lines
    have been collected already. *)
Fixpoint selected (p : payload) (items : list calendar_sorted.datedEvent)
    (n : nat) : list calendar_sorted.datedEvent :=
  match items with
  | [] => []
  | item :: items' =>
      if (0 <? MaxCount p)%Z && (MaxCount p <=? Z.of_nat n)%Z then []
      else if afterBound p (calendar_sorted.date item) then selected p items' n
      else if beforeBound p (calendar_sorted.date item) then selected p items' n
      else item :: selected p items' (S n)
  end.

(** The dates are in ascending order. *)
Definition ascending (items : list calendar_sorted.datedEvent) : Prop :=
  StronglySorted (fun a b => le (calendar_sorted.date a) (calendar_sorted.date b))
    items.

(** The sorted prefix of the insertion sort, last element first, has
    descending dates. *)
Definition descending (acc : list calendar_sorted.datedEvent) : Prop :=
  StronglySorted (fun a b => calendar_sorted.less a b = false) acc.

(** Events that fall on the same date are the same event. *)
Definition distinct_dates (items : list calendar_sorted.datedEvent) : Prop :=
  forall x y, x ∈ items -> y ∈ items ->
    calendar_sorted.date x = calendar_sorted.date y -> x = y.

(** No bound and no limit. *)
Definition everything : payload :=
  {| BeforeDate := time.zero; AfterDate := time.zero; MaxCount := 0 |}.

End listing.

(** ** The forecast tool ([internal/tools/weather.go]) *)

Module syntax.

(** Regular expressions with alternation, optional parts and numbered
    capturing groups, over byte classes, for the forecast pattern. *)
Inductive re :=
| Eps
| Cls (cls : ascii -> bool)
| Rep (cls : ascii -> bool)
| Cat (r1 r2 : re)
| Alt (r1 r2 : re)
| Opt (r : re)
| Cap (i : nat) (r : re).

(** Greedy [cls+] after its first byte: one more byte first, the
    continuation here when that fails. *)
Fixpoint rep {A : Type} (cls : ascii -> bool) (k : gostring -> option A)
    (s : gostring) : option A :=
  match s with
  | c :: s' =>
      if cls c then
        match rep cls k s' with
        | Some x => Some x
        | None => k s
        end
      else k s
  | [] => k s
  end.

(** Backtracking match of [r] at the start of [s], in the preference
    order of Go's leftmost-first semantics: the left alternative before
    the right one, the optional part before its omission, longer
    repetitions before shorter ones.  [caps] holds the groups closed so
    far, the last one first. *)
Fixpoint run {A : Type} (r : re) (s : gostring) (caps : list (nat * gostring))
    (k : gostring -> list (nat * gostring) -> option A) : option A :=
  match r with
  | Eps => k s caps
  | Cls cls =>
      match s with
      | c :: s' => if cls c then k s' caps else None
      | [] => None
      end
  | Rep cls =>
      match s with
      | c :: s' => if cls c then rep cls (fun s'' => k s'' caps) s' else None
      | [] => None
      end
  | Cat r1 r2 => run r1 s caps (fun s' caps' => run r2 s' caps' k)
  | Alt r1 r2 =>
      match run r1 s caps k with
      | Some x => Some x
      | None => run r2 s caps k
      end
  | Opt r1 =>
      match run r1 s caps k with
      | Some x => Some x
      | None => k s caps
      end
  | Cap i r1 =>
      run r1 s caps
        (fun s' caps' => k s' ((i, take (length s - length s') s) :: caps'))
  end.

(** The text of group [i]; the empty string when the group took no part. *)
Fixpoint group (i : nat) (caps : list (nat * gostring)) : gostring :=
  match caps with
  | [] => []
  | (j, g) :: caps' => if i =? j then g else group i caps'
  end.

(** [re.FindStringSubmatch(s)] for a pattern with [n] groups: the
    leftmost match as the matched text followed by the [n] groups, the
    empty slice when there is no match. *)
Fixpoint FindStringSubmatch (r : re) (n : nat) (s : gostring) : list gostring :=
  match run r s [] (fun s' caps => Some (s', caps)) with
  | Some (rest, caps) =>
      take (length s - length rest) s :: map (fun i => group i caps) (seq 1 n)
  | None =>
      match s with
      | [] => []
      | _ :: s' => FindStringSubmatch r n s'
      end
  end.

(** A letter under [(?i)]. *)
Definition letter (lower upper : ascii) : re := Cls (regexp.fold lower upper).

(** The letter s under [(?i)]: also the long s, U+017F, bytes C5 BF,
    which Unicode simple folding puts in the same class. *)
Definition letter_s : re :=
  Alt (Cls (regexp.fold "s" "S"))
      (Cat (Cls (Ascii.eqb (ascii_of_nat 197))) (Cls (Ascii.eqb (ascii_of_nat 191)))).

End syntax.

Module strconv.

Definition digitValue (c : ascii) : option Z :=
  let n := nat_of_ascii c in
  if (48 <=? n) && (n <=? 57) then Some (Z.of_nat (n - 48)) else None.

(** The value of a string of decimal digits, [None] on any other byte. *)
Fixpoint digits (acc : Z) (s : gostring) : option Z :=
  match s with
  | [] => Some acc
  | c :: s' =>
      match digitValue c with
      | Some d => digits (acc * 10 + d) s'
      | None => None
      end
  end.

(** [strconv.Atoi] on a 64-bit platform: an optional sign and at least
    one decimal digit, within the range of [int]; [None] is the
    syntax or range error. *)
Definition Atoi (s : gostring) : option Z :=
  let '(negative, body) :=
    match s with
    | "-"%char :: s' => (true, s')
    | "+"%char :: s' => (false, s')
    | _ => (false, s)
    end in
  match body with
  | [] => None
  | _ =>
      match digits 0 body with
      | None => None
      | Some v =>
          let n := if negative then (- v)%Z else v in
          if ((- 2 ^ 63 <=? n) && (n <=? 2 ^ 63 - 1))%Z then Some n else None
      end
  end.

End strconv.

Module forecast.

(** [(?i)(?:forecast\s+(?:for\s+)?)?in\s+([^?.!]+)|(?i)([^?.!]+)\s+forecast] *)
Definition word_forecast : syntax.re :=
  syntax.Cat (syntax.letter "f" "F") (syntax.Cat (syntax.letter "o" "O")
  (syntax.Cat (syntax.letter "r" "R") (syntax.Cat (syntax.letter "e" "E")
  (syntax.Cat (syntax.letter "c" "C") (syntax.Cat (syntax.letter "a" "A")
  (syntax.Cat syntax.letter_s (syntax.letter "t" "T"))))))).

Definition word_for : syntax.re :=
  syntax.Cat (syntax.letter "f" "F")
    (syntax.Cat (syntax.letter "o" "O") (syntax.letter "r" "R")).

Definition word_in : syntax.re :=
  syntax.Cat (syntax.letter "i" "I") (syntax.letter "n" "N").

Definition forecastFor : syntax.re :=
  syntax.Alt
    (syntax.Cat
       (syntax.Opt
          (syntax.Cat word_forecast
             (syntax.Cat (syntax.Rep regexp.space)
                (syntax.Opt (syntax.Cat word_for (syntax.Rep regexp.space))))))
       (syntax.Cat word_in
          (syntax.Cat (syntax.Rep regexp.space)
             (syntax.Cap 1 (syntax.Rep regexp.notEnd)))))
    (syntax.Cat (syntax.Cap 2 (syntax.Rep regexp.notEnd))
       (syntax.Cat (syntax.Rep regexp.space) word_forecast)).

Record payload := { Location : gostring; Days : Z }.

Inductive error :=
| ErrParse (cause : gostring)
| ErrLocationRequired
| ErrLookup (cause : gostring).

Definition Error (e : error) : gostring :=
  match e with
  | ErrParse cause => str "failed to parse tool call arguments: " ++ cause
  | ErrLocationRequired =>
      str "forecast lookup failed: please provide a location (e.g., '3-day forecast for Barcelona')"
  | ErrLookup cause => str "forecast lookup failed: " ++ cause
  end.

(** Lines 363-378: from the last message to the first, the first user
    message that yields a candidate which is not blank decides. *)
Fixpoint scan (backwards : list model.Message) : gostring :=
  match backwards with
  | [] => []
  | m :: older =>
      match model.Role_ m with
      | model.RoleUser =>
          match syntax.FindStringSubmatch forecastFor 2 (model.Content m) with
          | _ :: g1 :: rest =>
              let cand := strings.TrimSpace g1 in
              let cand :=
                if decide (cand = []) then
                  match rest with
                  | g2 :: _ => strings.TrimSpace g2
                  | [] => cand
                  end
                else cand in
              if decide (cand = []) then scan older else cand
          | _ => scan older
          end
      | _ => scan older
      end
  end.

Section Execute.

Context {W float : Type}.
Context (Getenv : gostring -> gostring).
Context (fmt_f0 : float -> gostring).

Record ForecastDay := {
  Date : gostring;
  Condition : gostring;
  MaxC : float;
  MinC : float;
  ChanceOfRain : nat
}.

(** The provider behind [FetchForecast], asked with key, location and
    number of days. *)
Context (provider : gostring -> gostring -> Z -> W ->
                    result gostring (list ForecastDay) * W).

(** The lookups sent, as (key, location, days). *)
Record State := { world : W; lookups : list (gostring * gostring * Z) }.

Definition resolveLocation (conv : model.Conversation) (p : payload)
    : result error gostring :=
  let resolvedLocation := strings.TrimSpace (Location p) in
  let resolvedLocation :=
    if decide (resolvedLocation = [])
    then scan (rev (model.Messages conv)) else resolvedLocation in
  let resolvedLocation :=
    if decide (resolvedLocation = [])
    then Getenv (str "WEATHER_DEFAULT_LOCATION") else resolvedLocation in
  if decide (resolvedLocation = []) then Err ErrLocationRequired
  else Ok resolvedLocation.

(** Lines 387-403: the number of days, from the argument, the
    environment or the default of three, brought into 1..7. *)
Definition resolveDays (p : payload) : Z :=
  let days := Days p in
  let days :=
    if (days <=? 0)%Z then
      let days :=
        let v := strings.TrimSpace (Getenv (str "WEATHER_FORECAST_DAYS")) in
        if decide (v = []) then days
        else match strconv.Atoi v with Some n => n | None => days end in
      if (days <=? 0)%Z then 3%Z else days
    else days in
  let days := if (days <? 1)%Z then 1%Z else days in
  if (7 <? days)%Z then 7%Z else days.

(** [FetchForecast]: the guards, the default of one day, the request. *)
Definition FetchForecast (apiKey location : gostring) (days : Z) (st : State)
    : result gostring (list ForecastDay) * State :=
  if decide (apiKey = []) then (Err (str "missing WEATHER_API_KEY"), st)
  else if decide (location = []) then (Err (str "missing location"), st)
  else
    let days := if (days <=? 0)%Z then 1%Z else days in
    let '(r, w) := provider apiKey location days (world st) in
    (r, {| world := w; lookups := lookups st ++ [(apiKey, location, days)] |}).

Definition forecastLine (d : ForecastDay) : gostring :=
  Date d ++ str ": " ++ Condition d ++ str ", " ++ fmt_f0 (MinC d) ++
  assistant.en_dash ++ fmt_f0 (MaxC d) ++ weather.degC ++ str ", rain " ++
  time.itoa (ChanceOfRain d) ++ str "%".

(** [GetWeatherForecastTool.Execute]. *)
Definition Execute (conv : model.Conversation) (args : result gostring payload)
    (st : State) : result error gostring * State :=
  match args with
  | Err err => (Err (ErrParse err), st)
  | Ok p =>
      match resolveLocation conv p with
      | Err e => (Err e, st)
      | Ok resolvedLocation =>
          let days := resolveDays p in
          let apiKey := Getenv (str "WEATHER_API_KEY") in
          match FetchForecast apiKey resolvedLocation days st with
          | (Err err, st') => (Err (ErrLookup err), st')
          | (Ok fds, st') =>
              let header :=
                resolvedLocation ++ str " forecast (" ++ time.itoa (length fds) ++
                str " day" ++ (if length fds =? 1 then [] else str "s") ++ str "):" in
              (Ok (Join (header :: map forecastLine fds) nl), st')
          end
      end
  end.

End Execute.
End forecast.

(** ** The evaluation runner ([internal/chat/assistant/eval]) *)

Module eval.

Record Input := { Message : gostring }.

Record Expected := {
  TitleKeywords : list gostring;
  TitleMaxLen : Z;
  TitleMinWords : Z;
  TitleMaxWords : Z;
  ShouldAvoid : list gostring
}.

Record Metadata := {
  Category : gostring;
  Difficulty : gostring;
  Tags : list gostring
}.

Record TestCase := {
  ID : gostring;
  Input_ : Input;
  Expected_ : Expected;
  Metadata_ : Metadata;
  Description : gostring
}.

(** [ActualOutput], without the reply and tool calls the runner never
    fills in; [Error] is nil or the error text. *)
Record ActualOutput := { Title : gostring; Error : option gostring }.

(** The conversation [runTestCase] builds for a test case. *)
Definition conversationOf (testCase : eval.TestCase) : model.Conversation :=
  {| model.Messages :=
       [{| model.Role_ := model.RoleUser;
           model.Content := eval.Message (eval.Input_ testCase) |}] |}.

Section Runner.

(** The world of the assistant, the world of the evaluators (the
    judge model of [LLMEvaluator] is a service of its own), the type
    of [float64] with the four operations the runner and the composite
    evaluator use on it, and the type of the metrics maps. *)
Context {W V float metrics : Type}.
Context (fzero : float) (fadd fdiv : float -> float -> float).
Context (float_of_len : nat -> float).
Context (at_least_70_percent : float -> bool).
Context (no_metrics : metrics).

Record EvalResult := {
  TestCaseID : gostring;
  Passed : bool;
  Score : float;
  Details : gostring;
  Metrics : metrics;
  ActualValue : gostring
}.

Context (sub_results : list EvalResult -> metrics).

(** The [Evaluator] interface; an evaluation may use the evaluator's
    world. *)
Record Evaluator := {
  Name : gostring;
  Evaluate : TestCase -> ActualOutput -> V -> EvalResult * V
}.

(** [TestResult] and [EvalReport], without their wall-clock fields. *)
Record TestResult := {
  TestCase_ : TestCase;
  Actual : ActualOutput;
  EvalResults : list EvalResult;
  OverallPass : bool
}.

Record EvalReport := {
  TotalTests : nat;
  PassedTests : nat;
  FailedTests : nat;
  AverageScore : float;
  TestResults : list TestResult
}.

(** The loop "Run all evaluators" of [runTestCase] and of the
    composite evaluator: every evaluator, in order, on the same
    output. *)
Fixpoint evaluateAll (evaluators : list Evaluator) (testCase : TestCase)
    (actual : ActualOutput) (v : V) : list EvalResult * V :=
  match evaluators with
  | [] => ([], v)
  | evaluator :: rest =>
      let '(result, v) := Evaluate evaluator testCase actual v in
      let '(results, v) := evaluateAll rest testCase actual v in
      (result :: results, v)
  end.


(** [Runner.runTestCase]: a conversation of the one user message, its
    title, and every evaluator on that title. *)
Definition runTestCase (a : assistant.Assistant W) (evaluators : list Evaluator)
    (testCase : TestCase) (st : assistant.State W) (v : V)
    : result gostring TestResult * assistant.State W * V :=
  let conv :=
    {| model.Messages :=
         [{| model.Role_ := model.RoleUser;
             model.Content := Message (Input_ testCase) |}] |} in
  match assistant.Title a conv st with
  | (Err err, st') =>
      (Err (str "title generation failed: " ++ assistant.Error err), st', v)
  | (Ok title, st') =>
      let actual := {| Title := title; Error := None |} in
      let '(evalResults, v') := evaluateAll evaluators testCase actual v in
      let overallPass := forallb Passed evalResults in
      (Ok {| TestCase_ := testCase; Actual := actual;
             EvalResults := evalResults; OverallPass := overallPass |}, st', v')
  end.

(** The body of the loop of [Runner.Run]: the result of a test case,
    or the failed result that stands for an execution error. *)
Definition resultOf (a : assistant.Assistant W) (evaluators : list Evaluator)
    (testCase : TestCase) (st : assistant.State W) (v : V)
    : TestResult * assistant.State W * V :=
  match runTestCase a evaluators testCase st v with
  | (Ok result, st', v') => (result, st', v')
  | (Err err, st', v') =>
      ({| TestCase_ := testCase;
          Actual := {| Title := []; Error := Some err |};
          EvalResults :=
            [{| TestCaseID := ID testCase; Passed := false; Score := fzero;
                Details := str "Execution failed: " ++ err;
                Metrics := no_metrics; ActualValue := [] |}];
          OverallPass := false |}, st', v')
  end.

(** The loop of [Runner.Run] over the test cases. *)
Fixpoint runAll (a : assistant.Assistant W) (evaluators : list Evaluator)
    (testCases : list TestCase) (report : EvalReport) (st : assistant.State W)
    (v : V) : EvalReport * assistant.State W * V :=
  match testCases with
  | [] => (report, st, v)
  | testCase :: rest =>
      let '(result, st', v') := resultOf a evaluators testCase st v in
      let report :=
        {| TotalTests := TotalTests report;
           PassedTests :=
             if OverallPass result then S (PassedTests report)
             else PassedTests report;
           FailedTests :=
             if OverallPass result then FailedTests report
             else S (FailedTests report);
           AverageScore := AverageScore report;
           TestResults := TestResults report ++ [result] |} in
      runAll a evaluators rest report st' v'
  end.

(** The average of the per-test averages, lines 78-92. *)
Definition averageScore (results : list TestResult) : float :=
  let totalScore :=
    fold_left
      (fun total result =>
         let testScore :=
           fold_left (fun acc r => fadd acc (Score r)) (EvalResults result) fzero in
         let testScore :=
           if 0 <? length (EvalResults result)
           then fdiv testScore (float_of_len (length (EvalResults result)))
           else testScore in
         fadd total testScore)
      results fzero in
  if 0 <? length results
  then fdiv totalScore (float_of_len (length results)) else fzero.

(** [Runner.Run]; its error is always nil. *)
Definition Run (a : assistant.Assistant W) (evaluators : list Evaluator)
    (testCases : list TestCase) (st : assistant.State W) (v : V)
    : EvalReport * assistant.State W * V :=
  let report :=
    {| TotalTests := length testCases; PassedTests := 0; FailedTests := 0;
       AverageScore := fzero; TestResults := [] |} in
  let '(report, st', v') := runAll a evaluators testCases report st v in
  ({| TotalTests := TotalTests report;
      PassedTests := PassedTests report;
      FailedTests := FailedTests report;
      AverageScore := averageScore (TestResults report);
      TestResults := TestResults report |}, st', v').

End Runner.
End eval.

(** ** The rule-based evaluator ([RuleEvaluator], [unnamed/part_009])

    Scores are [float64]: the primitive binary64 floats, with the same
    rounding of the decimal constants and of every subtraction and
    division. *)

Module rules.
Import PrimFloat.
#[local] Set Warnings "-inexact-float".

(** [float64(n)] of a Go [int] that is not negative. *)
Definition float64 (n : nat) : float := of_uint63 (Uint63.of_Z (Z.of_nat n)).

Definition perfect : float := 1.0%float.
Definition zero : float := 0%float.

(** The pass threshold, [score >= 0.7]. *)
Definition passes (score : float) : bool := (0.7 <=? score)%float.

(** The entries of [issues], before [fmt.Sprintf] renders them. *)
Inductive Issue :=
| TooLong (titleLen : nat) (maxLen : Z)
| TooFewWords (wordCount : nat) (minWords : Z)
| TooManyWords (wordCount : nat) (maxWords : Z)
| NoKeywords (total : nat)
| LowKeywordRate (rate : float)
| Newlines
| AvoidedPatterns (found : list gostring)
| Emojis
| ExcessivePunctuation
| EmptyTitle.

(** The [metrics] map: the two entries that are always set and the
    three of the keyword check. *)
Record Metrics := {
  title_length : nat;
  word_count : nat;
  keyword_match : option (float * nat * nat)
}.

(** The ASCII path of [strings.ToLower]. *)
Definition lowerByte (c : ascii) : ascii :=
  let n := nat_of_ascii c in
  if (65 <=? n) && (n <=? 90) then ascii_of_nat (n + 32) else c.

(** The character class of [emojiPattern]. *)
Definition emoji (r : N) : bool :=
  (((128512 <=? r) && (r <=? 128591))        (* 1F600-1F64F *)
   || ((127744 <=? r) && (r <=? 128511))     (* 1F300-1F5FF *)
   || ((128640 <=? r) && (r <=? 128767))     (* 1F680-1F6FF *)
   || ((9728 <=? r) && (r <=? 9983))         (* 2600-26FF *)
   || ((9984 <=? r) && (r <=? 10175)))%N.    (* 2700-27BF *)

(** [emojiPattern.MatchString]: some rune of the string, decoded from
    the left, is in the class. *)
Fixpoint MatchString_fuel (fuel : nat) (s : gostring) : bool :=
  match fuel with
  | 0 => false
  | S fuel' =>
      match s with
      | [] => false
      | _ :: _ =>
          let '(r, size) := utf8.DecodeRuneInString s in
          emoji r || MatchString_fuel fuel' (drop size s)
      end
  end.

Definition MatchString (s : gostring) : bool := MatchString_fuel (length s) s.

Section Evaluate.

(** [strings.Map(unicode.ToLower, s)], the path [strings.ToLower] takes
    on a string with a non-ASCII byte. *)
Context (mapToLower : gostring -> gostring).

(** [fmt.Sprintf] of an issue. *)
Context (Sprintf : Issue -> gostring).

Definition ToLower (s : gostring) : gostring :=
  if flights.isASCII s then map lowerByte s else mapToLower s.

(** The conditions of the checks, as the source writes them. *)
Definition exceedsMaxLen (expected : eval.Expected) (title : gostring) : bool :=
  ((0 <? eval.TitleMaxLen expected)
   && (eval.TitleMaxLen expected <? Z.of_nat (utf8.RuneCountInString title)))%Z.

Definition tooFewWords (expected : eval.Expected) (title : gostring) : bool :=
  ((0 <? eval.TitleMinWords expected)
   && (Z.of_nat (length (Fields title)) <? eval.TitleMinWords expected))%Z.

Definition tooManyWords (expected : eval.Expected) (title : gostring) : bool :=
  ((0 <? eval.TitleMaxWords expected)
   && (eval.TitleMaxWords expected <? Z.of_nat (length (Fields title))))%Z.

(** The loop of check 3: the keywords found in the lowered title. *)
Definition foundKeywords (expected : eval.Expected) (title : gostring) : nat :=
  length (List.filter (fun keyword => Contains (ToLower title) (ToLower keyword))
            (eval.TitleKeywords expected)).

Definition keywordMatchRate (expected : eval.Expected) (title : gostring) : float :=
  (float64 (foundKeywords expected title)
   / float64 (length (eval.TitleKeywords expected)))%float.

(** The loop of check 5. *)
Definition foundAvoid (expected : eval.Expected) (title : gostring) : list gostring :=
  List.filter (fun avoid => Contains (ToLower title) (ToLower avoid))
    (eval.ShouldAvoid expected).

Definition punctCount (title : gostring) : nat :=
  Count title (str "!") + Count title (str "?") + Count title (str "...").

(** The body of [Evaluate] up to the clamp of the score: the score, the
    issues and the metrics. *)
Definition checks (testCase : eval.TestCase) (actual : eval.ActualOutput)
    : float * list Issue * Metrics :=
  let title := eval.Title actual in
  let expected := eval.Expected_ testCase in
  let score := perfect in
  let issues : list Issue := [] in
  (* Check 1: title length *)
  let titleLen := utf8.RuneCountInString title in
  let '(score, issues) :=
    if exceedsMaxLen expected title
    then ((score - 0.4)%float, issues ++ [TooLong titleLen (eval.TitleMaxLen expected)])
    else (score, issues) in
  (* Check 2: word count *)
  let wordCount := length (Fields title) in
  let '(score, issues) :=
    if tooFewWords expected title
    then ((score - 0.3)%float,
          issues ++ [TooFewWords wordCount (eval.TitleMinWords expected)])
    else (score, issues) in
  let '(score, issues) :=
    if tooManyWords expected title
    then ((score - 0.3)%float,
          issues ++ [TooManyWords wordCount (eval.TitleMaxWords expected)])
    else (score, issues) in
  (* Check 3: keyword matching *)
  let '(score, issues, keywords) :=
    match eval.TitleKeywords expected with
    | [] => (score, issues, None)
    | _ :: _ =>
        let rate := keywordMatchRate expected title in
        let '(score, issues) :=
          if (rate =? 0)%float
          then ((score - 0.5)%float,
                issues ++ [NoKeywords (length (eval.TitleKeywords expected))])
          else if (rate <? 0.5)%float
          then ((score - 0.3)%float, issues ++ [LowKeywordRate rate])
          else if (rate <? 1.0)%float
          then ((score - 0.1)%float, issues)
          else (score, issues) in
        (score, issues,
         Some (rate, foundKeywords expected title,
               length (eval.TitleKeywords expected)))
    end in
  (* Check 4: no newlines *)
  let '(score, issues) :=
    if Contains title nl then (zero, issues ++ [Newlines]) else (score, issues) in
  (* Check 5: avoided patterns *)
  let '(score, issues) :=
    match eval.ShouldAvoid expected with
    | [] => (score, issues)
    | _ :: _ =>
        match foundAvoid expected title with
        | [] => (score, issues)
        | _ :: _ => (zero, issues ++ [AvoidedPatterns (foundAvoid expected title)])
        end
    end in
  (* Check 6: emojis and punctuation *)
  let '(score, issues) :=
    if MatchString title
    then ((score - 0.1)%float, issues ++ [Emojis]) else (score, issues) in
  let '(score, issues) :=
    if 1 <? punctCount title
    then ((score - 0.1)%float, issues ++ [ExcessivePunctuation])
    else (score, issues) in
  (* Check 7: empty title *)
  let '(score, issues) :=
    if decide (TrimSpace title = [])
    then (zero, issues ++ [EmptyTitle]) else (score, issues) in
  (score, issues,
   {| title_length := titleLen; word_count := wordCount;
      keyword_match := keywords |}).

(** [RuleEvaluator.Evaluate]. *)
Definition Evaluate (testCase : eval.TestCase) (actual : eval.ActualOutput)
    : @eval.EvalResult float Metrics :=
  let '(score, issues, metrics) := checks testCase actual in
  let score := if (score <? 0)%float then zero else score in
  let passed := passes score in
  let details :=
    match issues with
    | [] => str "Title meets all criteria"
    | _ :: _ => Join (map Sprintf issues) (str "; ")
    end in
  {| eval.TestCaseID := eval.ID testCase;
     eval.Passed := passed;
     eval.Score := score;
     eval.Details := details;
     eval.Metrics := metrics;
     eval.ActualValue := eval.Title actual |}.

(** The evaluator as the runner sees it; it uses no service. *)
Definition RuleEvaluator {V : Type} : @eval.Evaluator V float Metrics :=
  {| eval.Name := str "rule_based";
     eval.Evaluate := fun testCase actual v => (Evaluate testCase actual, v) |}.

(** The deductions that are not critical, counted in tenths. *)
Definition keywordDeduction (expected : eval.Expected) (title : gostring) : nat :=
  match eval.TitleKeywords expected with
  | [] => 0
  | _ :: _ =>
      let rate := keywordMatchRate expected title in
      if (rate =? 0)%float then 5
      else if (rate <? 0.5)%float then 3
      else if (rate <? 1.0)%float then 1
      else 0
  end.

Definition deductions (expected : eval.Expected) (title : gostring) : nat :=
  (if exceedsMaxLen expected title then 4 else 0)
  + (if tooFewWords expected title then 3 else 0)
  + (if tooManyWords expected title then 3 else 0)
  + keywordDeduction expected title
  + (if MatchString title then 1 else 0)
  + (if 1 <? punctCount title then 1 else 0).

(** The three critical failures. *)
Definition critical (expected : eval.Expected) (title : gostring) : Prop :=
  Contains title nl = true \/ foundAvoid expected title <> [] \/ TrimSpace title = [].

End Evaluate.
End rules.

(** ** More of the registry, and properties of transcripts *)

Module registry.
Section registry.

Context {W : Type}.

(** [Registry.List]: the registered names; the range over the Go map
    gives them in no particular order. *)
Definition List (r : gmap gostring (tools.Tool W)) : list gostring :=
  (map_to_list r).*1.

(** The registries the code can build: [NewRegistry] followed by calls
    of [Register]. *)
Inductive built : gmap gostring (tools.Tool W) -> Prop :=
| built_new : built tools.NewRegistry
| built_register t r : built r -> built (tools.Register t r).

End registry.
End registry.

(** ** The instrumented registry ([unnamed/part_004]) *)

Module instrumented.

(** What [Registry.Execute] reports to the tracer and to the meters,
    in order.  A status is [codes.Ok] or [codes.Error] with its
    description. *)
Inductive Signal :=
| SpanStart (spanName toolName : gostring)
| SpanRecordError (err : gostring)
| SpanSetStatus (ok : bool) (description : gostring)
| SpanResultLength (n : nat)
| SpanEnd
| ErrorCount (toolName errorType : gostring)
| ExecutionCount (toolName : gostring)
| DurationRecord (toolName : gostring) (ms : Z).

(** The three instruments [init] creates; one whose creation failed is
    nil ([false]) and records nothing. *)
Record Instruments := {
  executionCounter : bool;
  durationHistogram : bool;
  errorCounter : bool
}.

Definition is_execution_count (s : Signal) : bool :=
  match s with ExecutionCount _ => true | _ => false end.

Definition is_error_count (s : Signal) : bool :=
  match s with ErrorCount _ _ => true | _ => false end.

Definition is_duration (s : Signal) : bool :=
  match s with DurationRecord _ _ => true | _ => false end.

Section Execute.

(** The world of the tools, and the milliseconds its clock shows
    between two of its states. *)
Context {W : Type} (elapsed : W -> W -> Z).
Context (m : Instruments).

Definition when (instrument : bool) (s : Signal) : list Signal :=
  if instrument then [s] else [].

(** [Registry.Execute] with its span and metrics; the deferred
    [span.End] comes last. *)
Definition Execute (r : gmap gostring (tools.Tool W)) (name args : gostring)
    (w : W) (signals : list Signal)
    : result gostring gostring * W * list Signal :=
  let signals := signals ++ [SpanStart (str "Tool." ++ name) name] in
  match r !! name with
  | None =>
      let err := str "unknown tool: " ++ name in
      let signals :=
        signals ++ [SpanRecordError err; SpanSetStatus false (str "tool not found")]
          ++ when (errorCounter m) (ErrorCount name (str "not_found")) in
      (Err err, w, signals ++ [SpanEnd])
  | Some tool =>
      let '(result, w') := tools.Execute tool args w in
      let duration := elapsed w w' in
      let signals :=
        match result with
        | Err err =>
            signals ++ [SpanRecordError err;
                        SpanSetStatus false (str "tool execution failed")]
              ++ when (errorCounter m) (ErrorCount name (str "execution_failed"))
        | Ok result =>
            signals ++ [SpanResultLength (length result);
                        SpanSetStatus true (str "success")]
        end in
      let signals := signals ++ when (executionCounter m) (ExecutionCount name) in
      let signals :=
        signals ++ when (durationHistogram m) (DurationRecord name duration) in
      (result, w', signals ++ [SpanEnd])
  end.

End Execute.
End instrumented.

Module transcript.

(** The requests sent to the completion service, in order. *)
Fixpoint requests (tr : list assistant.Event)
    : list openai.ChatCompletionNewParams :=
  match tr with
  | [] => []
  | assistant.EvCompletion params :: tr' => params :: requests tr'
  | assistant.EvTool _ _ :: tr' => requests tr'
  end.

(** The tool executions, in order, as (name, arguments). *)
Fixpoint executions (tr : list assistant.Event) : list (gostring * gostring) :=
  match tr with
  | [] => []
  | assistant.EvCompletion _ :: tr' => executions tr'
  | assistant.EvTool name args :: tr' => (name, args) :: executions tr'
  end.

(** The executions a list of tool calls asks for. *)
Definition tool_events (calls : list openai.ToolCall) : list assistant.Event :=
  map (fun c => assistant.EvTool (openai.Name c) (openai.Arguments c)) calls.

(** [out] is a tool message keyed to [call]. *)
Definition answers (call : openai.ToolCall) (out : openai.MessageParam) : Prop :=
  exists content, out = openai.ToolMessage content (openai.ID call).

(** A transcript in which every tool-call message of the model is
    followed by one tool message per call, in the order of the calls,
    and no tool message stands anywhere else. *)
Inductive answered : list openai.MessageParam -> Prop :=
| answered_nil : answered []
| answered_system content rest :
    answered rest -> answered (openai.SystemMessage content :: rest)
| answered_user content rest :
    answered rest -> answered (openai.UserMessage content :: rest)
| answered_assistant content rest :
    answered rest -> answered (openai.AssistantMessage content :: rest)
| answered_calls message outs rest :
    Forall2 answers (openai.ToolCalls message) outs ->
    answered rest ->
    answered (openai.ToParam message :: outs ++ rest).

(** What [replay] makes of one persisted message. *)
Definition replayed (m : model.Message) : option openai.MessageParam :=
  match model.Role_ m with
  | model.RoleUser => Some (openai.UserMessage (model.Content m))
  | model.RoleAssistant => Some (openai.AssistantMessage (model.Content m))
  | model.RoleOther => None
  end.

(** The transcript [Reply] starts from. *)
Definition seed (conv : model.Conversation) : list openai.MessageParam :=
  openai.SystemMessage assistant.replyPrompt ::
  assistant.replay (model.Messages conv).

End transcript.

(** ** Which holidays are listed *)

Module selection.

Import holidays.

(** The date passes both bounds; a bound left at the zero time does
    not filter. *)
Definition inBounds (p : payload) (item : calendar_sorted.datedEvent) : bool :=
  negb (afterBound p (calendar_sorted.date item)) &&
  negb (beforeBound p (calendar_sorted.date item)).

(** The first [max_count] items when a positive [max_count] is given,
    all of them otherwise. *)
Definition limit (p : payload) (items : list calendar_sorted.datedEvent)
    : list calendar_sorted.datedEvent :=
  if (0 <? MaxCount p)%Z then take (Z.to_nat (MaxCount p)) items else items.

(** The event has a SUMMARY whenever it has an all-day start. *)
Definition summarised (ev : ics.VEvent) : Prop :=
  ics.GetAllDayStartAt ev = None \/ ics.Summary ev <> None.

End selection.

(** ** What a pattern captures *)

Module captures.

(** The classes of the capturing groups of a pattern, in order. *)
Fixpoint group_classes (p : list regexp.item) : list (ascii -> bool) :=
  match p with
  | [] => []
  | regexp.Group cls :: p' => cls :: group_classes p'
  | _ :: p' => group_classes p'
  end.

(** Every byte of the string is in the class. *)
Definition within (cls : ascii -> bool) (s : gostring) : Prop :=
  Forall (fun c => cls c = true) s.

(** The user message does not match the weather pattern. *)
Definition unmatched (m : model.Message) : Prop :=
  model.Role_ m = model.RoleUser ->
  regexp.FindStringSubmatch weather.weatherIn (model.Content m) = [].

End captures.

(** ** Concrete inputs *)

Module fixtures.

(** A completion service that answers every request with one choice of
    the given content and no tool call. *)
Definition answering (content : gostring) : assistant.Assistant unit :=
  {| assistant.cli := fun _ w =>
       (Ok {| openai.Choices :=
                [{| openai.Content := content; openai.ToolCalls := [] |}] |}, w);
     assistant.buildRegistry := fun _ => ∅ |}.

(** A tool that does nothing and succeeds. *)
Definition noop : tools.Tool unit :=
  {| tools.Name := str "noop";
     tools.Description := str "does nothing";
     tools.Execute := fun _ w => (Ok (str "ok"), w) |}.

(** A tool that always fails. *)
Definition failing : tools.Tool unit :=
  {| tools.Name := str "broken";
     tools.Description := str "always fails";
     tools.Execute := fun _ w => (Err (str "provider unavailable"), w) |}.

Definition callTo (id name : string) : openai.ToolCall :=
  {| openai.ID := str id; openai.Name := str name; openai.Arguments := str "{}" |}.

(** A completion service that requests the failing tool, the no-op
    tool and an unregistered one, on every round. *)
Definition looping : assistant.Assistant unit :=
  {| assistant.cli := fun _ w =>
       (Ok {| openai.Choices :=
                [{| openai.Content := [];
                    openai.ToolCalls :=
                      [callTo "call_1" "broken"; callTo "call_2" "noop";
                       callTo "call_3" "missing"] |}] |}, w);
     assistant.buildRegistry := fun _ =>
       tools.Register failing (tools.Register noop tools.NewRegistry) |}.

Definition user (content : string) : model.Message :=
  {| model.Role_ := model.RoleUser; model.Content := str content |}.

Definition conv1 : model.Conversation :=
  {| model.Messages := [user "What is the weather like in Barcelona?"] |}.

Definition emptyConv : model.Conversation := {| model.Messages := [] |}.

Definition st0 : assistant.State unit :=
  {| assistant.world := tt; assistant.trace := [] |}.

(** 79 letters, a space, and one more letter: 81 bytes. *)
Definition spaceAt80 : gostring := repeat "a"%char 79 ++ str " b".

(** Two double quotes, the empty quoted string. *)
Definition quotesOnly : gostring := ["034"; "034"]%char.

Definition e_acute : gostring := [ascii_of_nat 195; ascii_of_nat 169].

(** "a", then forty times e-acute (two bytes each): 81 bytes, the last
    character on bytes 79 and 80. *)
Definition straddling : gostring :=
  "a"%char :: concat (repeat e_acute 40).

(** Two holidays, and one event whose SUMMARY is missing. *)
Definition christmas : ics.VEvent :=
  {| ics.GetAllDayStartAt := Some (time.Date 2025 12 25);
     ics.Summary := Some (str "Christmas Day") |}.

Definition newYear : ics.VEvent :=
  {| ics.GetAllDayStartAt := Some (time.Date 2025 1 1);
     ics.Summary := Some (str "New Year") |}.

Definition unnamed : ics.VEvent :=
  {| ics.GetAllDayStartAt := Some (time.Date 2025 5 1);
     ics.Summary := None |}.

(** Two holidays on the same day. *)
Definition stStephen : ics.VEvent :=
  {| ics.GetAllDayStartAt := Some (time.Date 2025 12 26);
     ics.Summary := Some (str "St Stephen") |}.

Definition boxingDay : ics.VEvent :=
  {| ics.GetAllDayStartAt := Some (time.Date 2025 12 26);
     ics.Summary := Some (str "Boxing Day") |}.

(** The conversation of the weather scenario, and an environment that
    configures a default location and an API key. *)
Definition parisConv : model.Conversation :=
  {| model.Messages := [user "weather in Paris please"] |}.

Definition weatherEnv (name : gostring) : gostring :=
  if decide (name = str "WEATHER_DEFAULT_LOCATION") then str "Barcelona"
  else if decide (name = str "WEATHER_API_KEY") then str "secret"
  else [].

Definition sunny (apiKey location : gostring) (w : unit)
    : result gostring (@weather.CurrentWeather nat) * unit :=
  (Ok {| weather.cwLocation := location; weather.Condition := str "Sunny";
         weather.TempC := 25; weather.FeelsLikeC := 26; weather.WindKph := 10;
         weather.Humidity := 40 |}, w).

Definition weatherSt0 : @weather.State unit :=
  {| weather.world := tt; weather.lookups := [] |}.

(** Flight searches: an environment without credentials, and payloads
    with three non-empty fields. *)
Definition noEnv (name : gostring) : gostring := [].

Definition bcnMad : flights.payload :=
  {| flights.Origin := str "bcn"; flights.Destination := str "MAD";
     flights.DepartureDate := str "2025-10-18"; flights.MaxPrice := 0 |}.

Definition blankOrigin : flights.payload :=
  {| flights.Origin := str " "; flights.Destination := str "MAD";
     flights.DepartureDate := str "2025-10-18"; flights.MaxPrice := 0 |}.

Definition tokenOk (apiKey apiSecret : gostring) (w : unit)
    : result gostring gostring * unit := (Ok (str "token"), w).

Definition noOffers (token origin destination departureDate : gostring)
    (maxPrice : Z) (w : unit)
    : result gostring (list flights.FlightDestination) * unit := (Ok [], w).

Definition flightsSt0 : @flights.State unit :=
  {| flights.world := tt; flights.requests := [] |}.

(** A feed of three holidays out of order, one of them without
    SUMMARY, and arguments that ask for the first two of 2025. *)
Definition feed3 : list ics.VEvent := [christmas; unnamed; newYear].

Definition firstTwoOf2025 : holidays.payload :=
  {| holidays.BeforeDate := time.Date 2025 12 31;
     holidays.AfterDate := time.Date 2025 1 1;
     holidays.MaxCount := 2 |}.

(** The forecast tool: an environment with a default of five days. *)
Definition forecastEnv (name : gostring) : gostring :=
  if decide (name = str "WEATHER_FORECAST_DAYS") then str " 5 "
  else if decide (name = str "WEATHER_API_KEY") then str "secret"
  else [].

Definition noForecast (apiKey location : gostring) (days : Z) (w : unit)
    : result gostring (list (@forecast.ForecastDay nat)) * unit := (Ok [], w).

Definition forecastSt0 : @forecast.State unit :=
  {| forecast.world := tt; forecast.lookups := [] |}.

(** The evaluation runner, with scores counted in percent and a judge
    that counts its calls. *)
Definition shortTitle : @eval.Evaluator nat nat unit :=
  {| eval.Name := str "short";
     eval.Evaluate := fun testCase actual calls =>
       ({| eval.TestCaseID := eval.ID testCase;
           eval.Passed := length (eval.Title actual) <=? 20;
           eval.Score := if length (eval.Title actual) <=? 20 then 100 else 0;
           eval.Details := str "length";
           eval.Metrics := tt;
           eval.ActualValue := eval.Title actual |}, S calls) |}.

Definition testCaseOf (id message : string) : eval.TestCase :=
  {| eval.ID := str id;
     eval.Input_ := {| eval.Message := str message |};
     eval.Expected_ :=
       {| eval.TitleKeywords := []; eval.TitleMaxLen := 80;
          eval.TitleMinWords := 2; eval.TitleMaxWords := 6;
          eval.ShouldAvoid := [] |};
     eval.Metadata_ :=
       {| eval.Category := str "weather"; eval.Difficulty := str "easy";
          eval.Tags := [] |};
     eval.Description := str "weather question" |}.

Definition twoCases : list eval.TestCase :=
  [testCaseOf "t1" "What is the weather like in Barcelona?";
   testCaseOf "t2" "Hi"].

(** All three instruments created. *)
Definition allInstruments : instrumented.Instruments :=
  {| instrumented.executionCounter := true;
     instrumented.durationHistogram := true;
     instrumented.errorCounter := true |}.

(** The fake of the specification: a completion service that asks for
    [get_holidays] on its first 20 requests and answers afterwards;
    its world is the number of requests it has served. *)
Definition asksHolidays (tool : panics.Tool nat) : panics.Assistant nat :=
  {| panics.cli := fun _ served =>
       if served <? 20 then
         (Ok {| openai.Choices :=
                  [{| openai.Content := [];
                      openai.ToolCalls :=
                        [{| openai.ID := str "call_1";
                            openai.Name := str "get_holidays";
                            openai.Arguments := str "{}" |}] |}] |}, S served)
       else
         (Ok {| openai.Choices :=
                  [{| openai.Content := str "No more holidays this year.";
                      openai.ToolCalls := [] |}] |}, S served);
     panics.buildRegistry := fun _ => panics.Register tool ∅ |}.

(** The holiday tool of [internal/tools/calendar.go] and the one of
    the sorted revision, on a feed whose one event has no SUMMARY. *)
Definition holidays_calendar_go : panics.Tool nat :=
  panics.GetHolidaysTool holidays.calendar_go.Execute
    (fun w => (Ok [fixtures.unnamed], w)) (fun _ => Ok listing.everything).

Definition holidays_sorted : panics.Tool nat :=
  panics.GetHolidaysTool
    (holidays.calendar_sorted.Execute holidays.calendar_sorted.insertionSort)
    (fun w => (Ok [fixtures.unnamed], w)) (fun _ => Ok listing.everything).

Definition served0 : assistant.State nat :=
  {| assistant.world := 0; assistant.trace := [] |}.

(** A completion service that is down when the last message of the
    request is the user message "Hi", and answers every other request. *)
Definition moody : assistant.Assistant unit :=
  {| assistant.cli := fun params w =>
       let answer :=
         (Ok {| openai.Choices :=
                  [{| openai.Content := str "Weather in Barcelona";
                      openai.ToolCalls := [] |}] |}, w) in
       match last (openai.Messages params) with
       | Some (openai.UserMessage content) =>
           if decide (content = str "Hi")
           then (Err (str "service unavailable"), w) else answer
       | _ => answer
       end;
     assistant.buildRegistry := fun _ => ∅ |}.

End fixtures.

(** * Theorems *)

(** ** Strings *)

Example TrimSpace_ascii :
  TrimSpace (str "  weather in Paris  ") = str "weather in Paris".
Proof. reflexivity. Qed.

(** A no-break space (C2 A0) on either side is trimmed as well. *)
Example TrimSpace_nbsp :
  TrimSpace ([ascii_of_nat 194; ascii_of_nat 160] ++ str "ok " ++
             [ascii_of_nat 194; ascii_of_nat 160]) = str "ok".
Proof. vm_compute. reflexivity. Qed.

Example TrimSpace_blank : TrimSpace (str "   ") = [].
Proof. reflexivity. Qed.

(** The decoder on a three-byte and a four-byte character, an overlong
    form, a surrogate and a sequence cut short. *)
Example DecodeRune_samples :
  utf8.DecodeRuneInString [ascii_of_nat 226; ascii_of_nat 130; ascii_of_nat 172]
    = (8364%N, 3) /\
  utf8.DecodeRuneInString
    [ascii_of_nat 240; ascii_of_nat 159; ascii_of_nat 152; ascii_of_nat 128]
    = (128512%N, 4) /\
  utf8.DecodeRuneInString [ascii_of_nat 192; ascii_of_nat 128] = (utf8.RuneError, 1) /\
  utf8.DecodeRuneInString [ascii_of_nat 237; ascii_of_nat 160; ascii_of_nat 128]
    = (utf8.RuneError, 1) /\
  utf8.DecodeRuneInString [ascii_of_nat 226; ascii_of_nat 130] = (utf8.RuneError, 1).
Proof. repeat split; vm_compute; reflexivity. Qed.

Example DecodeLastRune_samples :
  utf8.DecodeLastRuneInString
    (str "a" ++ [ascii_of_nat 226; ascii_of_nat 130; ascii_of_nat 172])
    = (8364%N, 3) /\
  utf8.DecodeLastRuneInString (str "ab") = (98%N, 1) /\
  utf8.DecodeLastRuneInString [ascii_of_nat 226; ascii_of_nat 130]
    = (utf8.RuneError, 1) /\
  utf8.DecodeLastRuneInString (str "a" ++ [ascii_of_nat 128]) = (utf8.RuneError, 1).
Proof. repeat split; vm_compute; reflexivity. Qed.

(** An ideographic space (E3 80 80) is white space; a vertical tab is
    white space for [TrimSpace] but not in the cutset of the title. *)
Example TrimSpace_unicode :
  TrimSpace (str "x" ++ [ascii_of_nat 227; ascii_of_nat 128; ascii_of_nat 128])
    = str "x" /\
  TrimSpace ("011"%char :: str "x") = str "x" /\
  strings.contains assistant.titleCutset "011"%char = false.
Proof. repeat split; vm_compute; reflexivity. Qed.

Section string_lemmas.

Implicit Types (s cutset : gostring) (c : ascii).

Lemma ReplaceAll_removes s old new :
  old ∉ new -> old ∉ strings.ReplaceAll s old new.
Proof.
  intros Hnew. induction s as [|c s IH]; simpl.
  - apply not_elem_of_nil.
  - destruct (Ascii.eqb c old) eqn:E.
    + rewrite elem_of_app. tauto.
    + rewrite elem_of_cons. intros [->|H]; [|tauto].
      rewrite Ascii.eqb_refl in E. discriminate.
Qed.

Lemma trimLeftASCII_suffix s cutset : suffix (strings.trimLeftASCII s cutset) s.
Proof.
  induction s as [|c s IH]; simpl; [done|].
  destruct (strings.contains cutset c); [|done].
  by apply suffix_cons_r.
Qed.

Lemma trimLeftASCII_head s cutset c :
  head (strings.trimLeftASCII s cutset) = Some c ->
  strings.contains cutset c = false.
Proof.
  induction s as [|c' s IH]; simpl; [done|].
  destruct (strings.contains cutset c') eqn:E; [done|].
  simpl. by intros [= <-].
Qed.

Lemma last_rev {A} (l : list A) : last (rev l) = head l.
Proof.
  destruct l as [|x l]; [done|]. simpl. by rewrite last_snoc.
Qed.

Lemma head_rev {A} (l : list A) : head (rev l) = last l.
Proof. by rewrite <- last_rev, rev_involutive. Qed.

Lemma trimRightASCII_prefix s cutset : prefix (strings.trimRightASCII s cutset) s.
Proof.
  unfold strings.trimRightASCII.
  destruct (trimLeftASCII_suffix (rev s) cutset) as [k Hk].
  exists (rev k). apply (f_equal (@rev _)) in Hk.
  by rewrite rev_involutive, rev_app_distr in Hk.
Qed.

Lemma trimRightASCII_last s cutset c :
  last (strings.trimRightASCII s cutset) = Some c ->
  strings.contains cutset c = false.
Proof.
  unfold strings.trimRightASCII. rewrite last_rev. apply trimLeftASCII_head.
Qed.

Lemma suffix_last {A} (l k : list A) x :
  suffix l k -> last l = Some x -> last k = Some x.
Proof.
  intros [k' ->] H. destruct l as [|y l]; [done|].
  by rewrite last_app, H.
Qed.

Lemma suffix_last_nonempty {A} (l k : list A) :
  suffix l k -> l <> [] -> last l = last k.
Proof.
  intros [k' ->] H. destruct l as [|y l]; [done|].
  rewrite last_app. by destruct (last (y :: l)) eqn:E; [|apply last_None in E].
Qed.

Lemma Trim_head s cutset c :
  head (strings.Trim s cutset) = Some c -> strings.contains cutset c = false.
Proof. apply trimLeftASCII_head. Qed.

Lemma Trim_last s cutset c :
  last (strings.Trim s cutset) = Some c -> strings.contains cutset c = false.
Proof.
  unfold strings.Trim. intros H.
  apply (trimRightASCII_last s cutset).
  eapply suffix_last; [apply trimLeftASCII_suffix|done].
Qed.

Lemma Trim_elem s cutset c : c ∈ strings.Trim s cutset -> c ∈ s.
Proof.
  unfold strings.Trim. intros H.
  destruct (trimLeftASCII_suffix (strings.trimRightASCII s cutset) cutset) as [k Hk].
  destruct (trimRightASCII_prefix s cutset) as [k' Hk'].
  rewrite Hk', Hk. rewrite !elem_of_app. tauto.
Qed.

End string_lemmas.

(** ** [Assistant.Title] *)

Section title_lemmas.

Lemma postprocess_trimmed content :
  assistant.postprocess content =
  if 80 <? length (title.trimmed content)
  then take 80 (title.trimmed content) else title.trimmed content.
Proof. reflexivity. Qed.

Lemma postprocess_length content : length (assistant.postprocess content) <= 80.
Proof.
  rewrite postprocess_trimmed.
  destruct (80 <? length (title.trimmed content)) eqn:E.
  - rewrite length_take. lia.
  - apply Nat.ltb_ge in E. lia.
Qed.

Lemma trimmed_no_newline content : assistant.newline ∉ title.trimmed content.
Proof.
  intros H. apply Trim_elem in H. revert H.
  apply ReplaceAll_removes. vm_compute. by intros ?%list_elem_of_singleton.
Qed.

Lemma postprocess_no_newline content :
  assistant.newline ∉ assistant.postprocess content.
Proof.
  rewrite postprocess_trimmed.
  destruct (80 <? length (title.trimmed content)).
  - intros H. apply (trimmed_no_newline content).
    by apply (subseteq_take 80 (title.trimmed content)).
  - apply trimmed_no_newline.
Qed.

Lemma postprocess_no_leading_pad content :
  title.no_leading_pad (assistant.postprocess content).
Proof.
  intros c. rewrite postprocess_trimmed.
  destruct (80 <? length (title.trimmed content)).
  - destruct (title.trimmed content) as [|c' t] eqn:E; [done|].
    simpl. intros [= <-]. unfold title.trimmed in E.
    eapply Trim_head. by rewrite E.
  - apply Trim_head.
Qed.

Lemma postprocess_no_trailing_pad content :
  length (title.trimmed content) <= 80 ->
  title.no_trailing_pad (assistant.postprocess content).
Proof.
  intros Hlen c. rewrite postprocess_trimmed.
  destruct (80 <? length (title.trimmed content)) eqn:E.
  - apply Nat.ltb_lt in E. lia.
  - apply Trim_last.
Qed.

(** What [Title] returns on a conversation with a first message, by
    the answer of the completion service. *)
Lemma Title_nonempty {W} (a : assistant.Assistant W) conv st m0 ms :
  model.Messages conv = m0 :: ms ->
  let params := assistant.titleParams (model.Content m0) in
    let '(resp, w) := assistant.cli a params (assistant.world st) in
    let st1 := {| assistant.world := w;
                  assistant.trace := assistant.trace st ++ [assistant.EvCompletion params] |} in
    assistant.Title a conv st =
    match resp with
    | Err err => (Err (assistant.ErrCompletion err), st1)
    | Ok resp =>
        match openai.Choices resp with
        | [] => (Err assistant.ErrEmptyResponse, st1)
        | choice :: _ =>
            if decide (title.blank (openai.Content choice))
            then (Err assistant.ErrEmptyResponse, st1)
            else (Ok (assistant.postprocess (openai.Content choice)), st1)
        end
    end.
Proof.
  intros Hm. unfold assistant.Title, assistant.Completions_New. rewrite Hm.
  simpl. destruct (assistant.cli a _ _) as [resp w] eqn:E.
  destruct resp as [resp|err]; [|reflexivity].
  destruct (openai.Choices resp) as [|choice ?]; [reflexivity|].
  unfold title.blank. by destruct (decide _).
Qed.

(** A returned title is the sentinel or a post-processed content. *)
Lemma Title_Ok_inv {W} (a : assistant.Assistant W) conv st t st' :
  assistant.Title a conv st = (Ok t, st') ->
  (model.Messages conv = [] /\ t = str "An empty conversation" /\ st' = st) \/
  (model.Messages conv <> [] /\
   exists content, ~ title.blank content /\ t = assistant.postprocess content).
Proof.
  destruct (model.Messages conv) as [|m0 ms] eqn:Hm.
  - unfold assistant.Title. rewrite Hm. intros [= <- <-]. by left.
  - pose proof (Title_nonempty a conv st m0 ms Hm) as H. simpl in H.
    destruct (assistant.cli a _ _) as [resp w].
    rewrite H. clear H. intros Heq. right. split; [done|].
    destruct resp as [resp|err]; [|done].
    destruct (openai.Choices resp) as [|choice ?]; [done|].
    destruct (decide _) as [|Hnb]; [done|].
    injection Heq as <- <-. eauto.
Qed.

End title_lemmas.

(** C8. On a conversation without messages [Title] returns the sentinel
    "An empty conversation" and no error, and the state is the one it
    was given: no completion call was issued. *)
Theorem Title_empty_conversation {W} (a : assistant.Assistant W) conv st :
  model.Messages conv = [] ->
  assistant.Title a conv st = (Ok (str "An empty conversation"), st).
Proof. intros H. unfold assistant.Title. by rewrite H. Qed.

Lemma Title_empty_conversation_witness :
  assistant.Title (fixtures.answering (str "Weather in Barcelona"))
    fixtures.emptyConv fixtures.st0
  = (Ok (str "An empty conversation"), fixtures.st0).
Proof. apply Title_empty_conversation. reflexivity. Defined.

(** What the post-processing does guarantee for every returned title:
    at most 80 bytes, no newline, no leading padding, and no trailing
    padding as long as nothing had to be cut. *)
Lemma Title_guarantees {W} (a : assistant.Assistant W) conv st t st' :
  assistant.Title a conv st = (Ok t, st') ->
  length t <= 80 /\ (assistant.newline ∉ t) /\ title.no_leading_pad t.
Proof.
  intros [(_ & -> & _)|(_ & content & _ & ->)]%Title_Ok_inv.
  - vm_compute. split; [lia|]. split; [|by intros c [= <-]].
    intros H. repeat (apply elem_of_cons in H as [H|H]; [discriminate|]).
    by apply elem_of_nil in H.
  - auto using postprocess_length, postprocess_no_newline,
      postprocess_no_leading_pad.
Qed.

Lemma Title_guarantees_witness :
  let t := str "Weather in Barcelona" in
  length t <= 80 /\ (assistant.newline ∉ t) /\ title.no_leading_pad t.
Proof.
  apply (Title_guarantees (fixtures.answering (str " Weather in Barcelona" ++ nl)) fixtures.conv1 fixtures.st0 _ _ eq_refl).
Defined.

(** Without truncation the title has no trailing padding either. *)
Lemma Title_untruncated_no_trailing_pad content :
  length (title.trimmed content) <= 80 ->
  title.invariant (assistant.postprocess content).
Proof.
  intros H. repeat split.
  - apply postprocess_length.
  - apply postprocess_no_newline.
  - apply postprocess_no_leading_pad.
  - by apply postprocess_no_trailing_pad.
Qed.

Lemma Title_untruncated_witness :
  title.invariant (assistant.postprocess (str "  'Weather in Barcelona'  ")).
Proof. apply Title_untruncated_no_trailing_pad. vm_compute. lia. Defined.

(** C3. The stated invariant fails when the cut falls after a space:
    for the answer of 79 letters, a space and a letter, [Title] returns
    the first 80 bytes, which end in that space. *)
Theorem Title_truncation_leaves_trailing_space :
  exists st',
    assistant.Title (fixtures.answering fixtures.spaceAt80)
      fixtures.conv1 fixtures.st0
    = (Ok (repeat "a"%char 79 ++ str " "), st') /\
    last (repeat "a"%char 79 ++ str " ") = Some " "%char /\
    title.pad " "%char = true /\
    ~ title.invariant (repeat "a"%char 79 ++ str " ").
Proof.
  eexists. split; [vm_compute; reflexivity|].
  split; [reflexivity|]. split; [reflexivity|].
  intros (_ & _ & _ & H). specialize (H " "%char eq_refl). discriminate.
Qed.

(** A vertical tab is not in the cutset: it stays at the front of the
    title, although [strings.TrimSpace] takes it for white space. *)
Example Title_keeps_leading_vertical_tab :
  fst (assistant.Title (fixtures.answering ("011"%char :: str "Weather"))
         fixtures.conv1 fixtures.st0)
    = Ok ("011"%char :: str "Weather") /\
  strings.TrimSpace ("011"%char :: str "Weather") = str "Weather".
Proof. split; vm_compute; reflexivity. Qed.

(** Part of C7 that holds: once the completion call has answered, the
    "empty response" error is returned exactly when there is no choice
    or the first choice's content is blank. *)
Lemma Title_empty_response_iff {W} (a : assistant.Assistant W) conv st m0 ms resp w :
  model.Messages conv = m0 :: ms ->
  assistant.cli a (assistant.titleParams (model.Content m0)) (assistant.world st)
    = (Ok resp, w) ->
  fst (assistant.Title a conv st) = Err assistant.ErrEmptyResponse <->
  (openai.Choices resp = [] \/
   exists choice rest, openai.Choices resp = choice :: rest /\
                       title.blank (openai.Content choice)).
Proof.
  intros Hm Hcli. pose proof (Title_nonempty a conv st m0 ms Hm) as H.
  simpl in H. rewrite Hcli in H. rewrite H. clear H.
  destruct (openai.Choices resp) as [|choice rest]; simpl.
  - split; auto.
  - destruct (decide _) as [Hb|Hnb]; simpl.
    + split; [|done]. intros _. right. eauto.
    + split; [done|]. intros [?|(? & ? & [= <- _] & ?)]; done.
Qed.

Lemma Title_empty_response_iff_witness :
  fst (assistant.Title (fixtures.answering (str "   ")) fixtures.conv1 fixtures.st0)
    = Err assistant.ErrEmptyResponse <->
  ([{| openai.Content := str "   "; openai.ToolCalls := [] |}] = [] \/
   exists choice rest,
     [{| openai.Content := str "   "; openai.ToolCalls := [] |}] = choice :: rest /\
     title.blank (openai.Content choice)).
Proof.
  apply (Title_empty_response_iff (fixtures.answering (str "   "))
           fixtures.conv1 fixtures.st0 _ _ _ tt eq_refl eq_refl).
Defined.

(** C7. [Title] does return a blank title without an error: for the
    answer made of two double quotes the emptiness check passes (the
    content is not white space), the trim removes both quotes, and the
    empty title is returned with a nil error. *)
Theorem Title_returns_blank_title :
  ~ title.blank fixtures.quotesOnly /\
  exists st',
    assistant.Title (fixtures.answering fixtures.quotesOnly)
      fixtures.conv1 fixtures.st0 = (Ok [], st') /\
    title.blank [].
Proof.
  split; [by vm_compute|]. eexists. split; [vm_compute; reflexivity|].
  reflexivity.
Qed.

(** C9. The limit of 80 is on bytes: every returned title has at most
    80 bytes; and for the valid UTF-8 answer "a" followed by forty
    two-byte letters, whose trimmed form has 81 bytes with the last
    letter on bytes 79 and 80, the returned title is the first 80
    bytes: it is no longer valid UTF-8, ends inside that letter, and
    counts 41 runes. *)
Theorem Title_truncates_bytes :
  (forall W (a : assistant.Assistant W) conv st t st',
     assistant.Title a conv st = (Ok t, st') -> length t <= 80) /\
  (let content := fixtures.straddling in
   utf8.ValidString content = true /\
   length (title.trimmed content) = 81 /\
   utf8.DecodeRuneInString (drop 79 (title.trimmed content)) = (233%N, 2) /\
   exists t st',
     assistant.Title (fixtures.answering content) fixtures.conv1 fixtures.st0
       = (Ok t, st') /\
     t = take 80 content /\ length t = 80 /\
     utf8.ValidString t = false /\
     title.ends_incomplete t /\
     utf8.RuneCountInString t = 41 /\ utf8.RuneCountInString t < 80).
Proof.
  split.
  - intros W a conv st t st' H. by apply Title_guarantees in H as [? _].
  - split; [by vm_compute|]. split; [by vm_compute|]. split; [by vm_compute|].
    eexists _, _. split; [vm_compute; reflexivity|].
    split; [by vm_compute|]. split; [by vm_compute|]. split; [by vm_compute|].
    split.
    + split; [by vm_compute|]. eexists. split; [vm_compute; reflexivity|].
      by vm_compute.
    + split; [by vm_compute|]. vm_compute. lia.
Qed.

Lemma Title_truncates_bytes_witness :
  length (str "Weather in Barcelona") <= 80.
Proof.
  apply (proj1 Title_truncates_bytes unit
           (fixtures.answering (str "Weather in Barcelona"))
           fixtures.conv1 fixtures.st0 _ _ eq_refl).
Defined.

(** ** [Assistant.Reply] *)

Section reply_lemmas.

Context {W : Type}.
Implicit Types (a : assistant.Assistant W) (st : assistant.State W).
Implicit Types (registry : gmap gostring (tools.Tool W)).

Lemma completions_snoc_completion st (w : W) params :
  assistant.completions
    {| assistant.world := w;
       assistant.trace := assistant.trace st ++ [assistant.EvCompletion params] |}
  = S (assistant.completions st).
Proof.
  cbv [assistant.completions]. simpl.
  rewrite List.filter_app, length_app. simpl. lia.
Qed.

Lemma registry_Execute_completions registry name args st r st1 :
  assistant.registry_Execute registry name args st = (r, st1) ->
  assistant.completions st1 = assistant.completions st.
Proof.
  unfold assistant.registry_Execute.
  destruct (tools.Registry_Execute _ _ _ _) as [r' w]. intros [= _ <-].
  cbv [assistant.completions]. simpl.
  rewrite List.filter_app, length_app. simpl. lia.
Qed.

(** The inner loop runs the calls in order and answers each of them. *)
Lemma dispatch_dispatched registry calls msgs st :
  exists outs st2,
    assistant.dispatch registry calls msgs st = (msgs ++ outs, st2) /\
    reply.dispatched registry st calls outs st2.
Proof.
  revert msgs st. induction calls as [|call calls IH]; intros msgs st; simpl.
  - exists [], st. rewrite app_nil_r. split; [done|constructor].
  - destruct (assistant.registry_Execute _ _ _ st) as [r st1] eqn:E.
    destruct r as [result|err].
    + destruct (IH (msgs ++ [openai.ToolMessage result (openai.ID call)]) st1)
        as (outs & st2 & -> & Hd).
      exists (openai.ToolMessage result (openai.ID call) :: outs), st2.
      rewrite <- app_assoc. split; [done|].
      by apply (reply.dispatched_cons _ _ _ _ (Ok result) st1).
    + destruct (IH (msgs ++ [openai.ToolMessage err (openai.ID call)]) st1)
        as (outs & st2 & -> & Hd).
      exists (openai.ToolMessage err (openai.ID call) :: outs), st2.
      rewrite <- app_assoc. split; [done|].
      by apply (reply.dispatched_cons _ _ _ _ (Err err) st1).
Qed.

Lemma dispatched_completions registry st calls outs st' :
  reply.dispatched registry st calls outs st' ->
  assistant.completions st' = assistant.completions st.
Proof.
  induction 1 as [|st call calls r st1 outs st2 Hex _ IH]; [done|].
  rewrite IH. eauto using registry_Execute_completions.
Qed.




End reply_lemmas.



(** The transcript after one round with a failing, a succeeding and an
    unknown tool: the three answers in request order, the failures as
    their error text. *)
Example round_with_failures :
  let registry := assistant.buildRegistry fixtures.looping fixtures.conv1 in
  exists message st2,
    assistant.round fixtures.looping registry [] fixtures.st0
    = (assistant.Continue
         [openai.ToParam message;
          openai.ToolMessage (str "provider unavailable") (str "call_1");
          openai.ToolMessage (str "ok") (str "call_2");
          openai.ToolMessage (str "unknown tool: missing") (str "call_3")],
       st2) /\
    assistant.completions st2 = 1.
Proof.
  eexists _, _. split; [vm_compute; reflexivity|]. vm_compute. reflexivity.
Qed.

(** ** The holiday tool *)

Section time_lemmas.

Implicit Types (t u v : time.Time).

Lemma Before_spec t u :
  time.Before t u = true <->
  (time.year t < time.year u \/
   (time.year t = time.year u /\
    (time.month t < time.month u \/
     (time.month t = time.month u /\
      (time.day t < time.day u \/
       (time.day t = time.day u /\ time.nsec t < time.nsec u)))))).
Proof.
  unfold time.Before, time.compare.
  destruct (Nat.compare_spec (time.year t) (time.year u));
  destruct (Nat.compare_spec (time.month t) (time.month u));
  destruct (Nat.compare_spec (time.day t) (time.day u));
  destruct (Nat.compare_spec (time.nsec t) (time.nsec u));
  split; intros; try discriminate; try reflexivity; lia.
Qed.

Lemma le_spec t u :
  listing.le t u <-> ~ (time.Before u t = true).
Proof. unfold listing.le. by destruct (time.Before u t). Qed.

Lemma le_trans t u v : listing.le t u -> listing.le u v -> listing.le t v.
Proof. rewrite !le_spec, !Before_spec. lia. Qed.

Lemma le_antisym t u : listing.le t u -> listing.le u t -> t = u.
Proof.
  rewrite !le_spec, !Before_spec. intros H1 H2.
  destruct t as [y m d n], u as [y' m' d' n']. simpl in *.
  f_equal; lia.
Qed.

Lemma le_total t u : listing.le t u \/ listing.le u t.
Proof. rewrite !le_spec, !Before_spec. lia. Qed.

End time_lemmas.

Section sorted_revision.

Import holidays.
Implicit Types (x y : calendar_sorted.datedEvent).
Implicit Types (l acc items : list calendar_sorted.datedEvent).

Lemma less_false x y :
  calendar_sorted.less x y = false <->
  listing.le (calendar_sorted.date y) (calendar_sorted.date x).
Proof. reflexivity. Qed.

Lemma less_true x y :
  calendar_sorted.less x y = true ->
  listing.le (calendar_sorted.date x) (calendar_sorted.date y).
Proof.
  unfold calendar_sorted.less. rewrite le_spec, !Before_spec. lia.
Qed.

Lemma insert_Permutation x acc : calendar_sorted.insert x acc ≡ₚ x :: acc.
Proof.
  induction acc as [|y acc IH]; simpl; [done|].
  destruct (calendar_sorted.less x y); [|done].
  rewrite IH. apply Permutation_swap.
Qed.

Lemma insert_descending x acc :
  listing.descending acc -> listing.descending (calendar_sorted.insert x acc).
Proof.
  unfold listing.descending. induction acc as [|y acc IH]; simpl; intros Hs.
  - repeat constructor.
  - apply StronglySorted_cons in Hs as [Hy Hs].
    destruct (calendar_sorted.less x y) eqn:E.
    + apply StronglySorted_cons. split; [|by apply IH].
      rewrite Forall_forall in Hy |- *. intros z Hz.
      rewrite insert_Permutation in Hz.
      apply elem_of_cons in Hz as [->|Hz]; [|by apply Hy].
      apply less_true in E. by apply less_false.
    + apply StronglySorted_cons. split; [|by apply StronglySorted_cons].
      apply Forall_cons. split; [done|].
      rewrite Forall_forall in Hy |- *. intros z Hz.
      apply less_false. eapply le_trans; [by apply less_false, Hy|].
      by apply less_false.
Qed.

Lemma fold_insert_spec l acc :
  listing.descending acc ->
  listing.descending (fold_left (fun acc x => calendar_sorted.insert x acc) l acc) /\
  fold_left (fun acc x => calendar_sorted.insert x acc) l acc ≡ₚ l ++ acc.
Proof.
  revert acc. induction l as [|x l IH]; intros acc Hacc; simpl; [done|].
  destruct (IH (calendar_sorted.insert x acc) (insert_descending x acc Hacc))
    as [Hd Hp].
  split; [done|]. rewrite Hp, insert_Permutation.
  by rewrite Permutation_middle.
Qed.

Lemma StronglySorted_rev {A} (R : relation A) (l : list A) :
  StronglySorted R l -> StronglySorted (flip R) (rev l).
Proof.
  induction 1 as [|x l Hs IH Hx]; simpl; [constructor|].
  apply StronglySorted_app. split; [|split; [done|repeat constructor]].
  intros x1 x2 Hx1 ->%list_elem_of_singleton.
  rewrite Forall_forall in Hx. apply Hx.
  by rewrite list_elem_of_In, in_rev, <- list_elem_of_In.
Qed.

(** The insertion sort meets the contract of [sort.Slice]. *)
Lemma insertionSort_sorts : calendar_sorted.sorts calendar_sorted.insertionSort.
Proof.
  intros l. unfold calendar_sorted.insertionSort.
  destruct (fold_insert_spec l []) as [Hd Hp]; [constructor|].
  split.
  - rewrite <- Permutation_rev, Hp. by rewrite app_nil_r.
  - by apply StronglySorted_rev in Hd.
Qed.

Lemma dated_Permutation (events events' : list ics.VEvent) :
  events ≡ₚ events' -> calendar_sorted.dated events ≡ₚ calendar_sorted.dated events'.
Proof.
  induction 1 as [|ev ?? _ IH|ev ev' ?|??? _ IH1 _ IH2]; simpl.
  - done.
  - destruct (ics.GetAllDayStartAt ev); [by rewrite IH|done].
  - destruct (ics.GetAllDayStartAt ev), (ics.GetAllDayStartAt ev');
      try done. apply Permutation_swap.
  - by rewrite IH1.
Qed.

(** The loop keeps the selected items, one line each. *)
Lemma collect_selected p items holidays :
  calendar_sorted.collect p items holidays =
  holidays ++ map listing.render (listing.selected p items (length holidays)).
Proof.
  revert holidays. induction items as [|item items IH]; intros holidays; simpl.
  - by rewrite app_nil_r.
  - unfold maxReached.
    destruct ((0 <? MaxCount p)%Z && _); [by rewrite app_nil_r|].
    destruct (afterBound p _); [apply IH|].
    destruct (beforeBound p _); [apply IH|].
    rewrite IH, length_app. simpl. rewrite <- app_assoc. simpl.
    by rewrite Nat.add_1_r.
Qed.

Lemma selected_sublist p items n : sublist (listing.selected p items n) items.
Proof.
  revert n. induction items as [|item items IH]; intros n; simpl; [done|].
  destruct (_ && _); [apply sublist_nil_l|].
  destruct (afterBound p _); [by apply sublist_cons|].
  destruct (beforeBound p _); [by apply sublist_cons|].
  by apply sublist_skip.
Qed.

Lemma ascending_sublist l l' :
  sublist l l' -> listing.ascending l' -> listing.ascending l.
Proof.
  unfold listing.ascending. induction 1 as [|x l l' Hsub IH|x l l' Hsub IH];
    intros Hs; [done|..].
  - apply StronglySorted_cons in Hs as [Hx Hs].
    apply StronglySorted_cons. split; [|auto].
    rewrite Forall_forall in Hx |- *. intros y Hy. apply Hx.
    by eapply elem_of_sublist.
  - apply StronglySorted_cons in Hs as [_ Hs]. auto.
Qed.

(** The listing of the sorted revision is in ascending date order,
    whichever sort meeting the contract is used. *)
Lemma sorted_revision_ascending sort_Slice events p :
  calendar_sorted.sorts sort_Slice ->
  exists kept,
    calendar_sorted.Execute sort_Slice (Ok events) (Ok p)
      = Returned (Ok (Join (map listing.render kept) nl)) /\
    sublist kept (sort_Slice (calendar_sorted.dated events)) /\
    listing.ascending kept.
Proof.
  intros Hsort. destruct (Hsort (calendar_sorted.dated events)) as [_ Hs].
  exists (listing.selected p (sort_Slice (calendar_sorted.dated events)) 0).
  split; [|split].
  - unfold calendar_sorted.Execute. by rewrite collect_selected.
  - apply selected_sublist.
  - eapply ascending_sublist; [apply selected_sublist|done].
Qed.

(** With distinct dates the listing does not depend on the order of
    the feed, nor on the sort. *)
Lemma sorted_revision_order_independent sort_Slice sort_Slice' events events' args :
  calendar_sorted.sorts sort_Slice ->
  calendar_sorted.sorts sort_Slice' ->
  events ≡ₚ events' ->
  listing.distinct_dates (calendar_sorted.dated events) ->
  calendar_sorted.Execute sort_Slice (Ok events) args
  = calendar_sorted.Execute sort_Slice' (Ok events') args.
Proof.
  intros Hs Hs' Hp Hd.
  destruct (Hs (calendar_sorted.dated events)) as [Hp1 Hs1].
  destruct (Hs' (calendar_sorted.dated events')) as [Hp2 Hs2].
  assert (sort_Slice (calendar_sorted.dated events)
          = sort_Slice' (calendar_sorted.dated events')) as E.
  { eapply StronglySorted_unique_strong; [|exact Hs1|exact Hs2|].
    - intros x1 x2 Hx1 Hx2 H12 H21. apply Hd.
      + by rewrite <- Hp1.
      + by rewrite (dated_Permutation _ _ Hp), <- Hp2.
      + apply le_antisym; by apply less_false.
    - by rewrite Hp1, Hp2, (dated_Permutation _ _ Hp). }
  unfold calendar_sorted.Execute. by rewrite E.
Qed.

(** The sorted revision returns in every case. *)
Lemma sorted_revision_returns sort_Slice loaded args :
  calendar_sorted.Execute sort_Slice loaded args <> Panicked.
Proof.
  unfold calendar_sorted.Execute. by destruct loaded, args.
Qed.

End sorted_revision.

Section no_summary.

Import holidays.

Lemma dated_elem_of (events : list ics.VEvent) ev d :
  ev ∈ events -> ics.GetAllDayStartAt ev = Some d ->
  {| calendar_sorted.evt := ev; calendar_sorted.date := d |}
    ∈ calendar_sorted.dated events.
Proof.
  intros Hin Hd. induction events as [|ev' events IH]; simpl.
  - by apply elem_of_nil in Hin.
  - apply elem_of_cons in Hin as [Heq|Hin].
    + subst ev'. rewrite Hd. by left.
    + specialize (IH Hin).
      destruct (ics.GetAllDayStartAt ev'); [by right|done].
Qed.

Lemma selected_unlimited p (items : list calendar_sorted.datedEvent) n x :
  (MaxCount p <= 0)%Z -> x ∈ items ->
  afterBound p (calendar_sorted.date x) = false ->
  beforeBound p (calendar_sorted.date x) = false ->
  x ∈ listing.selected p items n.
Proof.
  intros Hmax Hin Ha Hb. revert n.
  induction items as [|item items IH]; intros n; simpl.
  - by apply elem_of_nil in Hin.
  - replace (0 <? MaxCount p)%Z with false by (symmetry; apply Z.ltb_ge; lia).
    simpl. apply elem_of_cons in Hin as [Heq|Hin].
    + subst item. rewrite Ha, Hb. by left.
    + specialize (IH Hin).
      destruct (afterBound p (calendar_sorted.date item)); [apply IH|].
      destruct (beforeBound p (calendar_sorted.date item)); [apply IH|].
      right. apply IH.
Qed.

(** In the sorted revision an event with a date and no SUMMARY that
    passes the bounds is listed as its date and "No summary". *)
Lemma sorted_revision_no_summary sort_Slice events p ev d :
  calendar_sorted.sorts sort_Slice ->
  ev ∈ events ->
  ics.GetAllDayStartAt ev = Some d -> ics.Summary ev = None ->
  (MaxCount p <= 0)%Z -> afterBound p d = false -> beforeBound p d = false ->
  exists lines,
    calendar_sorted.Execute sort_Slice (Ok events) (Ok p)
      = Returned (Ok (Join lines nl)) /\
    time.Format_DateOnly d ++ str ": No summary" ∈ lines.
Proof.
  intros Hsort Hin Hd Hsum Hmax Ha Hb.
  eexists. split.
  - unfold calendar_sorted.Execute. by rewrite collect_selected.
  - apply list_elem_of_In, in_map_iff.
    exists {| calendar_sorted.evt := ev; calendar_sorted.date := d |}.
    split; [unfold listing.render; simpl; by rewrite Hsum|].
    apply list_elem_of_In.
    + apply selected_unlimited; try done.
      destruct (Hsort (calendar_sorted.dated events)) as [Hp _].
      rewrite Hp. by apply dated_elem_of.
Qed.

End no_summary.

(** C1. [Execute] of [internal/tools/calendar.go] lists the events in
    the order of the feed: for Christmas Day followed by New Year of
    the same year the listing has the later date first, and the
    permuted feed gives a different listing.  The sorted revision
    returns the ascending listing for both feeds; for two holidays on
    one day it keeps the order of the feed, so there too the two feeds
    give different listings. *)
Theorem calendar_go_lists_in_feed_order :
  let feed := [fixtures.christmas; fixtures.newYear] in
  let feed' := [fixtures.newYear; fixtures.christmas] in
  let descending := str "2025-12-25: Christmas Day" ++ nl ++ str "2025-01-01: New Year" in
  let ascending := str "2025-01-01: New Year" ++ nl ++ str "2025-12-25: Christmas Day" in
  let ties := [fixtures.stStephen; fixtures.boxingDay] in
  let ties' := [fixtures.boxingDay; fixtures.stStephen] in
  (feed ≡ₚ feed' /\
   time.Before (time.Date 2025 1 1) (time.Date 2025 12 25) = true /\
   holidays.calendar_go.Execute (Ok feed) (Ok listing.everything)
     = holidays.Returned (Ok descending) /\
   holidays.calendar_go.Execute (Ok feed') (Ok listing.everything)
     = holidays.Returned (Ok ascending) /\
   descending <> ascending) /\
  (holidays.calendar_sorted.Execute holidays.calendar_sorted.insertionSort
     (Ok feed) (Ok listing.everything) = holidays.Returned (Ok ascending) /\
   holidays.calendar_sorted.Execute holidays.calendar_sorted.insertionSort
     (Ok feed') (Ok listing.everything) = holidays.Returned (Ok ascending)) /\
  (ties ≡ₚ ties' /\
   holidays.calendar_sorted.Execute holidays.calendar_sorted.insertionSort
     (Ok ties) (Ok listing.everything)
     = holidays.Returned
         (Ok (str "2025-12-26: St Stephen" ++ nl ++ str "2025-12-26: Boxing Day")) /\
   holidays.calendar_sorted.Execute holidays.calendar_sorted.insertionSort
     (Ok ties') (Ok listing.everything)
     = holidays.Returned
         (Ok (str "2025-12-26: Boxing Day" ++ nl ++ str "2025-12-26: St Stephen"))).
Proof.
  simpl. split; [|split].
  - split; [apply Permutation_swap|].
    repeat split; try (vm_compute; reflexivity). by vm_compute.
  - split; vm_compute; reflexivity.
  - split; [apply Permutation_swap|]. split; vm_compute; reflexivity.
Qed.

(** With distinct dates every feed order gives the one listing. *)
Example sorted_revision_order_independent_holidays :
  holidays.calendar_sorted.Execute holidays.calendar_sorted.insertionSort
    (Ok [fixtures.christmas; fixtures.unnamed; fixtures.newYear])
    (Ok listing.everything)
  = holidays.calendar_sorted.Execute holidays.calendar_sorted.insertionSort
      (Ok [fixtures.unnamed; fixtures.newYear; fixtures.christmas])
      (Ok listing.everything).
Proof.
  apply sorted_revision_order_independent; try apply insertionSort_sorts.
  - rewrite (Permutation_swap fixtures.unnamed fixtures.christmas).
    apply Permutation_skip, Permutation_swap.
  - intros x y Hx Hy. simpl in Hx, Hy.
    repeat (apply elem_of_cons in Hx as [->|Hx]);
    repeat (apply elem_of_cons in Hy as [->|Hy]);
    try (by apply elem_of_nil in Hx); try (by apply elem_of_nil in Hy);
    try done; by vm_compute.
Qed.

(** In [internal/tools/calendar.go] an event that has a date, passes
    the filters and has no SUMMARY stops the call with a panic, as
    soon as the loop reaches it. *)
Lemma calendar_go_panics_on_missing_summary ev d rest p :
  ics.GetAllDayStartAt ev = Some d -> ics.Summary ev = None ->
  holidays.maxReached p [] = false ->
  holidays.afterBound p d = false -> holidays.beforeBound p d = false ->
  holidays.calendar_go.Execute (Ok (ev :: rest)) (Ok p) = holidays.Panicked.
Proof.
  intros Hd Hs Hmax Ha Hb. unfold holidays.calendar_go.Execute. simpl.
  by rewrite Hd, Hmax, Ha, Hb, Hs.
Qed.

(** C10. [Execute] of [internal/tools/calendar.go] dereferences the
    missing SUMMARY property of an event with a valid all-day start:
    the call panics.  The sorted revision lists the same event as its
    date followed by "No summary". *)
Theorem calendar_go_panics_without_summary :
  ics.GetAllDayStartAt fixtures.unnamed = Some (time.Date 2025 5 1) /\
  ics.Summary fixtures.unnamed = None /\
  holidays.calendar_go.Execute (Ok [fixtures.unnamed]) (Ok listing.everything)
    = holidays.Panicked /\
  holidays.calendar_sorted.Execute holidays.calendar_sorted.insertionSort
    (Ok [fixtures.unnamed]) (Ok listing.everything)
    = holidays.Returned (Ok (str "2025-05-01: No summary")).
Proof. repeat split; vm_compute; reflexivity. Qed.

(** ** The current-weather tool *)

Section weather_lemmas.

Lemma scan_skips (newer rest : list model.Message) :
  Forall (fun m => model.Role_ m <> model.RoleUser) newer ->
  weather.scan (newer ++ rest) = weather.scan rest.
Proof.
  induction 1 as [|m newer Hm _ IH]; simpl; [done|].
  destruct (model.Role_ m); done.
Qed.

Lemma scan_user_match content whole group (older : list model.Message) :
  regexp.FindStringSubmatch weather.weatherIn content = [whole; group] ->
  weather.scan ({| model.Role_ := model.RoleUser; model.Content := content |} :: older)
  = strings.TrimSpace group.
Proof. intros H. simpl. by rewrite H. Qed.

Lemma weatherIn_Paris_please :
  regexp.FindStringSubmatch weather.weatherIn (str "weather in Paris please")
  = [str "weather in Paris please"; str "Paris please"] /\
  strings.TrimSpace (str "Paris please") = str "Paris please".
Proof. split; vm_compute; reflexivity. Qed.

End weather_lemmas.

(** The pattern stops at the end of the sentence: these phrasings do
    resolve to "Paris". *)
Example weather_in_Paris_question :
  weather.resolveLocation fixtures.weatherEnv
    {| model.Messages := [fixtures.user "What's the weather in Paris? Thanks"] |}
    {| weather.Location := [] |}
  = Ok (str "Paris").
Proof. vm_compute. reflexivity. Qed.

(** The counterexample to C4 as stated: on the message "weather in
    Paris please" the location that is resolved is not "Paris". *)
Lemma weather_in_Paris_please_is_not_Paris :
  weather.resolveLocation fixtures.weatherEnv fixtures.parisConv
    {| weather.Location := [] |}
  <> Ok (str "Paris").
Proof. vm_compute. discriminate. Qed.

(** C4, amended. With an empty location argument and a conversation
    whose last user message is "weather in Paris please", the resolved
    location is "Paris please", the text the pattern captures after
    "weather in" up to the end of the sentence; it comes from the
    message whatever the environment configures, and it is the
    location of the lookup sent to the provider. *)
Theorem weather_location_extracted {W float} Getenv fmt_f0
    (provider : gostring -> gostring -> W ->
                result gostring (@weather.CurrentWeather float) * W)
    conv p older newer st :
  weather.Location p = [] ->
  model.Messages conv = older ++ fixtures.user "weather in Paris please" :: newer ->
  Forall (fun m => model.Role_ m <> model.RoleUser) newer ->
  weather.resolveLocation Getenv conv p = Ok (str "Paris please") /\
  (Getenv (str "WEATHER_API_KEY") <> [] ->
   weather.lookups (snd (weather.Execute Getenv fmt_f0 provider conv (Ok p) st))
   = weather.lookups st ++ [(Getenv (str "WEATHER_API_KEY"), str "Paris please")]).
Proof.
  intros Hloc Hm Hnewer.
  assert (weather.scan (rev (model.Messages conv)) = str "Paris please") as Hscan.
  { rewrite Hm, rev_app_distr. simpl rev. rewrite <- app_assoc.
    rewrite scan_skips by (by apply List.Forall_rev).
    etransitivity; [|apply weatherIn_Paris_please].
    apply (scan_user_match (str "weather in Paris please") _ _ (rev older)
             (proj1 weatherIn_Paris_please)). }
  assert (weather.resolveLocation Getenv conv p = Ok (str "Paris please")) as Hr.
  { unfold weather.resolveLocation. rewrite Hloc, Hscan.
    change (strings.TrimSpace []) with (@nil ascii).
    repeat (case_decide; try done). }
  split; [done|]. intros Hkey.
  unfold weather.Execute. rewrite Hr. unfold weather.FetchCurrentWeather.
  rewrite decide_False by done. rewrite decide_False by done.
  destruct (provider _ _ _) as [[cw|err] w]; reflexivity.
Qed.

Lemma weather_location_extracted_witness :
  weather.resolveLocation fixtures.weatherEnv fixtures.parisConv
    {| weather.Location := [] |} = Ok (str "Paris please") /\
  (fixtures.weatherEnv (str "WEATHER_API_KEY") <> [] ->
   weather.lookups
     (snd (weather.Execute fixtures.weatherEnv time.itoa fixtures.sunny
             fixtures.parisConv (Ok {| weather.Location := [] |})
             fixtures.weatherSt0))
   = weather.lookups fixtures.weatherSt0 ++
     [(fixtures.weatherEnv (str "WEATHER_API_KEY"), str "Paris please")]).
Proof.
  apply (weather_location_extracted fixtures.weatherEnv time.itoa fixtures.sunny
           fixtures.parisConv {| weather.Location := [] |} [] []).
  - reflexivity.
  - reflexivity.
  - constructor.
Defined.

(** ** The flight-price tool *)

Section flights_lemmas.

Context {W : Type}.
Context (Getenv mapToUpper : gostring -> gostring).
Context (tokenEndpoint : gostring -> gostring -> W -> result gostring gostring * W).
Context (offersEndpoint :
  gostring -> gostring -> gostring -> gostring -> Z -> W ->
  result gostring (list flights.FlightDestination) * W).

(** The token step fails closed by itself. *)
Lemma FetchAmadeusToken_fails_closed apiKey apiSecret (st : @flights.State W) :
  apiKey = [] \/ apiSecret = [] ->
  exists err,
    flights.FetchAmadeusToken tokenEndpoint apiKey apiSecret st = (Err err, st).
Proof.
  intros H. unfold flights.FetchAmadeusToken.
  destruct (decide (apiKey = [])); [eauto|].
  destruct (decide (apiSecret = [])); [eauto|]. tauto.
Qed.

(** Without credentials no request leaves, whatever the arguments. *)
Lemma Execute_without_credentials args (st : @flights.State W) :
  Getenv (str "AMADEUS_API_KEY") = [] \/ Getenv (str "AMADEUS_API_SECRET") = [] ->
  exists e,
    flights.Execute Getenv mapToUpper tokenEndpoint offersEndpoint args st
    = (Err e, st).
Proof.
  intros Hc. unfold flights.Execute.
  destruct args as [p|err]; [|eauto].
  repeat (destruct (decide _); [eauto|]).
  replace (bool_decide _ || bool_decide _) with true; [eauto|].
  symmetry. apply orb_true_iff. rewrite !bool_decide_eq_true. exact Hc.
Qed.

End flights_lemmas.

(** The counterexample to C6 as stated: origin, destination and
    departure date are non-empty and no credential is set, yet the
    error is "origin is required", because the origin is blank. *)
Lemma flights_blank_origin_is_not_credentials :
  flights.Origin fixtures.blankOrigin <> [] /\
  flights.Destination fixtures.blankOrigin <> [] /\
  flights.DepartureDate fixtures.blankOrigin <> [] /\
  fixtures.noEnv (str "AMADEUS_API_KEY") = [] /\
  flights.Execute fixtures.noEnv id fixtures.tokenOk fixtures.noOffers
    (Ok fixtures.blankOrigin) fixtures.flightsSt0
  = (Err flights.ErrOriginRequired, fixtures.flightsSt0) /\
  flights.ErrOriginRequired <> flights.ErrCredentials.
Proof. repeat split; try done; vm_compute; reflexivity. Qed.

(** C6, amended. When origin, destination and departure date are still
    non-empty after the upper-casing and the trimming of white space
    that [Execute] applies, and AMADEUS_API_KEY or AMADEUS_API_SECRET
    is unset, [Execute] fails with the credentials-missing error and
    leaves the state as it was: neither the token request nor the
    offer search is issued.  The token step, called on its own with
    these credentials, fails without a request as well. *)
Theorem flights_credentials_missing {W} Getenv mapToUpper
    (tokenEndpoint : gostring -> gostring -> W -> result gostring gostring * W)
    (offersEndpoint :
       gostring -> gostring -> gostring -> gostring -> Z -> W ->
       result gostring (list flights.FlightDestination) * W)
    p (st : @flights.State W) :
  strings.TrimSpace (flights.ToUpper mapToUpper (flights.Origin p)) <> [] ->
  strings.TrimSpace (flights.ToUpper mapToUpper (flights.Destination p)) <> [] ->
  strings.TrimSpace (flights.DepartureDate p) <> [] ->
  Getenv (str "AMADEUS_API_KEY") = [] \/ Getenv (str "AMADEUS_API_SECRET") = [] ->
  flights.Execute Getenv mapToUpper tokenEndpoint offersEndpoint (Ok p) st
    = (Err flights.ErrCredentials, st) /\
  flights.requests
    (snd (flights.Execute Getenv mapToUpper tokenEndpoint offersEndpoint (Ok p) st))
    = flights.requests st /\
  exists err,
    flights.FetchAmadeusToken tokenEndpoint (Getenv (str "AMADEUS_API_KEY"))
      (Getenv (str "AMADEUS_API_SECRET")) st = (Err err, st).
Proof.
  intros Ho Hd Hdate Hc.
  assert (flights.Execute Getenv mapToUpper tokenEndpoint offersEndpoint (Ok p) st
          = (Err flights.ErrCredentials, st)) as E.
  { unfold flights.Execute.
    rewrite !decide_False by done.
    replace (bool_decide _ || bool_decide _) with true; [done|].
    symmetry. apply orb_true_iff. by rewrite !bool_decide_eq_true. }
  rewrite E. split; [done|]. split; [done|].
  by apply FetchAmadeusToken_fails_closed.
Qed.

Lemma flights_credentials_missing_witness :
  flights.Execute fixtures.noEnv id fixtures.tokenOk fixtures.noOffers
    (Ok fixtures.bcnMad) fixtures.flightsSt0
    = (Err flights.ErrCredentials, fixtures.flightsSt0) /\
  flights.requests
    (snd (flights.Execute fixtures.noEnv id fixtures.tokenOk fixtures.noOffers
            (Ok fixtures.bcnMad) fixtures.flightsSt0))
    = flights.requests fixtures.flightsSt0 /\
  exists err,
    flights.FetchAmadeusToken fixtures.tokenOk
      (fixtures.noEnv (str "AMADEUS_API_KEY"))
      (fixtures.noEnv (str "AMADEUS_API_SECRET")) fixtures.flightsSt0
    = (Err err, fixtures.flightsSt0).
Proof.
  apply flights_credentials_missing.
  - vm_compute. discriminate.
  - vm_compute. discriminate.
  - vm_compute. discriminate.
  - left. reflexivity.
Defined.

(** With both credentials set the same search does reach the provider:
    the token request, then the offer search. *)
Example flights_with_credentials :
  flights.requests
    (snd (flights.Execute (fun _ => str "configured") id fixtures.tokenOk
            fixtures.noOffers (Ok fixtures.bcnMad) fixtures.flightsSt0))
  = [flights.TokenRequest (str "configured") (str "configured");
     flights.OfferSearch (str "token") (str "BCN") (str "MAD")
       (str "2025-10-18") 0].
Proof. vm_compute. reflexivity. Qed.

(** ** [Reply] and the tools that panic *)

Section panics_lemmas.

Context {W : Type}.
Implicit Types (a : panics.Assistant W) (st : assistant.State W).
Implicit Types (registry : gmap gostring (panics.Tool W)).

Lemma completions_snoc_tool st name args (w : W) :
  assistant.completions
    {| assistant.world := w;
       assistant.trace := assistant.trace st ++ [assistant.EvTool name args] |}
  = assistant.completions st.
Proof.
  unfold assistant.completions. simpl.
  by rewrite List.filter_app, length_app, Nat.add_0_r.
Qed.

(** With tools that return, the inner loop returns, and makes no
    completion call. *)
Lemma panics_dispatch_returns registry calls msgs st :
  panics.returns registry ->
  exists msgs' st',
    panics.dispatch registry calls msgs st = panics.Returned (msgs', st') /\
    assistant.completions st' = assistant.completions st.
Proof.
  intros Hr. revert msgs st. induction calls as [|call calls IH]; intros msgs st.
  - by exists msgs, st.
  - simpl. unfold panics.registry_Execute.
    destruct (registry !! openai.Name call) as [tool|] eqn:Hget.
    + destruct (panics.Execute tool (openai.Arguments call) (assistant.world st))
        as [[r w]|] eqn:Hex; [|by exfalso; eapply Hr].
      destruct r as [result|err].
      * destruct (IH (msgs ++ [openai.ToolMessage result (openai.ID call)])
                    {| assistant.world := w;
                       assistant.trace := assistant.trace st ++
                         [assistant.EvTool (openai.Name call) (openai.Arguments call)] |})
          as (msgs' & st' & -> & Hc).
        exists msgs', st'. split; [done|]. by rewrite Hc, completions_snoc_tool.
      * destruct (IH (msgs ++ [openai.ToolMessage err (openai.ID call)])
                    {| assistant.world := w;
                       assistant.trace := assistant.trace st ++
                         [assistant.EvTool (openai.Name call) (openai.Arguments call)] |})
          as (msgs' & st' & -> & Hc).
        exists msgs', st'. split; [done|]. by rewrite Hc, completions_snoc_tool.
    + destruct (IH (msgs ++ [openai.ToolMessage (str "unknown tool: " ++ openai.Name call)
                               (openai.ID call)])
                  {| assistant.world := assistant.world st;
                     assistant.trace := assistant.trace st ++
                       [assistant.EvTool (openai.Name call) (openai.Arguments call)] |})
        as (msgs' & st' & -> & Hc).
      exists msgs', st'. split; [done|]. by rewrite Hc, completions_snoc_tool.
Qed.

(** When the service asks for tools on each of [n] rounds and the tools
    return, the [n] iterations make [n] completion calls and the loop
    falls through to the error behind it. *)
Lemma panics_loop_exhausts a registry :
  panics.returns registry ->
  forall n msgs st,
    panics.tool_calls_on_every_round n a registry msgs st ->
    exists st',
      panics.loop n a registry msgs st
        = panics.Returned (Err assistant.ErrTooManyToolCalls, st') /\
      assistant.completions st' = assistant.completions st + n.
Proof.
  intros Hr. induction n as [|n IH]; intros msgs st; simpl.
  - intros _. exists st. split; [done|lia].
  - intros (message & rest & w & Hcli & Hcalls & Hnext).
    unfold panics.round. rewrite Hcli. cbn [openai.Choices].
    destruct (openai.ToolCalls message) as [|call calls] eqn:Ec; [done|].
    change (0 <? length (call :: calls)) with true. cbv iota.
    destruct (panics_dispatch_returns registry (call :: calls)
                (msgs ++ [openai.ToParam message])
                {| assistant.world := w;
                   assistant.trace := assistant.trace st ++
                     [assistant.EvCompletion (panics.params registry msgs)] |} Hr)
      as (msgs' & st2 & Hd & Hc2).
    rewrite Hd in Hnext |- *.
    destruct (IH msgs' st2 Hnext) as (st' & -> & Hc).
    exists st'. split; [done|].
    rewrite Hc, Hc2, completions_snoc_completion. lia.
Qed.

(** The claim as far as it holds of [Reply]: with tools that return
    and a service that asks for tools on each of the 15 rounds of the
    run, [Reply] returns the "too many tool calls" error after exactly
    15 more completion calls. *)
Lemma Reply_exhausts_rounds a conv st :
  model.Messages conv <> [] ->
  panics.returns (panics.buildRegistry a conv) ->
  panics.tool_calls_on_every_round 15 a (panics.buildRegistry a conv)
    (panics.seed conv) st ->
  exists st',
    panics.Reply a conv st
      = panics.Returned (Err assistant.ErrTooManyToolCalls, st') /\
    assistant.completions st' = assistant.completions st + 15 /\
    assistant.Error assistant.ErrTooManyToolCalls
      = str "too many tool calls, unable to generate reply".
Proof.
  intros Hm Hr Hrounds. unfold panics.Reply.
  destruct (model.Messages conv) as [|m ms] eqn:E; [done|].
  destruct (panics_loop_exhausts a _ Hr 15 _ st Hrounds) as (st' & Hl & Hc).
  exists st'. done.
Qed.

(** With tools that return, the definitions of this section are those
    of the assistant above. *)
Lemma of_tool_Definitions (registry : gmap gostring (tools.Tool W)) :
  panics.Definitions (panics.of_tool <$> registry) = tools.Definitions registry.
Proof.
  unfold panics.Definitions, tools.Definitions.
  rewrite <- map_fmap_compose. by apply map_fmap_ext.
Qed.

Lemma of_tool_dispatch (registry : gmap gostring (tools.Tool W)) calls msgs st :
  panics.dispatch (panics.of_tool <$> registry) calls msgs st
  = panics.Returned (assistant.dispatch registry calls msgs st).
Proof.
  revert msgs st. induction calls as [|call calls IH]; intros msgs st; [done|].
  simpl. unfold panics.registry_Execute, assistant.registry_Execute,
    tools.Registry_Execute, tools.Get.
  rewrite lookup_fmap.
  destruct (registry !! openai.Name call) as [tool|]; simpl.
  - destruct (tools.Execute tool (openai.Arguments call) (assistant.world st))
      as [[result|err] w]; apply IH.
  - apply IH.
Qed.

Lemma of_assistant_loop (a : assistant.Assistant W)
    (registry : gmap gostring (tools.Tool W)) n msgs st :
  panics.loop n (panics.of_assistant a) (panics.of_tool <$> registry) msgs st
  = panics.Returned (assistant.loop n a registry msgs st).
Proof.
  revert msgs st. induction n as [|n IH]; intros msgs st; [done|].
  simpl. unfold panics.round, assistant.round, assistant.Completions_New,
    panics.params.
  rewrite of_tool_Definitions. cbn [panics.cli panics.of_assistant].
  destruct (assistant.cli a _ (assistant.world st)) as [[resp|err] w]; [|done].
  destruct (openai.Choices resp) as [|message rest]; [done|].
  destruct (0 <? length (openai.ToolCalls message)); [|done].
  rewrite of_tool_dispatch.
  destruct (assistant.dispatch registry _ _ _) as [msgs' st2]. apply IH.
Qed.

Lemma Reply_of_assistant (a : assistant.Assistant W) conv st :
  panics.Reply (panics.of_assistant a) conv st
  = panics.Returned (assistant.Reply a conv st).
Proof.
  unfold panics.Reply, assistant.Reply.
  destruct (model.Messages conv) as [|m ms] eqn:E; [done|].
  unfold panics.seed. rewrite E. apply of_assistant_loop.
Qed.

(** A panic of the first tool that is called unwinds through [Reply]:
    the call has been made, after one completion call, and nothing
    comes back. *)
Lemma Reply_unwinds_first_call a conv st message rest (w : W) call calls tool :
  model.Messages conv <> [] ->
  panics.cli a (panics.params (panics.buildRegistry a conv) (panics.seed conv))
    (assistant.world st) = (Ok {| openai.Choices := message :: rest |}, w) ->
  openai.ToolCalls message = call :: calls ->
  panics.buildRegistry a conv !! openai.Name call = Some tool ->
  panics.Execute tool (openai.Arguments call) w = None ->
  exists st',
    panics.Reply a conv st = panics.Panicked st' /\
    assistant.completions st' = assistant.completions st + 1.
Proof.
  intros Hm Hcli Hcalls Hget Hex. unfold panics.Reply.
  destruct (model.Messages conv) as [|m ms] eqn:E; [done|].
  change assistant.maxRounds with 15. cbn [panics.loop].
  unfold panics.round. rewrite Hcli. cbn [openai.Choices]. rewrite Hcalls.
  change (0 <? length (call :: calls)) with true. cbv iota.
  cbn [panics.dispatch]. unfold panics.registry_Execute. rewrite Hget.
  cbn [assistant.world]. rewrite Hex. eexists. split; [reflexivity|].
  rewrite completions_snoc_tool, completions_snoc_completion. lia.
Qed.

End panics_lemmas.

Lemma asksHolidays_sorted_returns conv :
  panics.returns
    (panics.buildRegistry (fixtures.asksHolidays fixtures.holidays_sorted) conv).
Proof.
  intros name tool args w. cbn [panics.buildRegistry fixtures.asksHolidays].
  unfold panics.Register.
  intros [[_ <-]|[_ ?]]%lookup_insert_Some; [|done].
  cbn. pose proof (sorted_revision_returns holidays.calendar_sorted.insertionSort
                     (Ok [fixtures.unnamed]) (Ok listing.everything)) as Hs.
  by destruct (holidays.calendar_sorted.Execute _ _ _) as [[?|?]|].
Qed.

Lemma sorted_lists_unnamed :
  holidays.calendar_sorted.Execute holidays.calendar_sorted.insertionSort
    (Ok [fixtures.unnamed]) (Ok listing.everything)
  = holidays.Returned (Ok (str "2025-05-01: No summary")).
Proof. vm_compute. reflexivity. Qed.

(** The fake asks for a tool on every round it is given, as long as it
    has served fewer than twenty requests. *)
Lemma asksHolidays_every_round conv n msgs st :
  assistant.world st + n <= 20 ->
  panics.tool_calls_on_every_round n
    (fixtures.asksHolidays fixtures.holidays_sorted)
    (panics.buildRegistry (fixtures.asksHolidays fixtures.holidays_sorted) conv)
    msgs st.
Proof.
  revert msgs st. induction n as [|n IH]; intros msgs st Hs; [done|].
  cbn [panics.tool_calls_on_every_round panics.cli fixtures.asksHolidays
       panics.buildRegistry].
  destruct (Nat.ltb_spec (assistant.world st) 20) as [_|?]; [|lia].
  eexists _, _, _. split; [reflexivity|]. split; [discriminate|].
  cbn [openai.ToolCalls panics.dispatch openai.Name openai.Arguments openai.ID].
  unfold panics.registry_Execute, panics.Register.
  change (panics.Name fixtures.holidays_sorted) with (str "get_holidays").
  rewrite lookup_insert, decide_True by done.
  cbn [panics.Execute fixtures.holidays_sorted panics.GetHolidaysTool
       assistant.world].
  rewrite sorted_lists_unnamed.
  apply IH. cbn [assistant.world]. lia.
Qed.

Lemma Reply_exhausts_rounds_witness :
  exists st',
    panics.Reply (fixtures.asksHolidays fixtures.holidays_sorted)
      fixtures.conv1 fixtures.served0
      = panics.Returned (Err assistant.ErrTooManyToolCalls, st') /\
    assistant.completions st' = assistant.completions fixtures.served0 + 15 /\
    assistant.Error assistant.ErrTooManyToolCalls
      = str "too many tool calls, unable to generate reply".
Proof.
  apply Reply_exhausts_rounds.
  - discriminate.
  - apply asksHolidays_sorted_returns.
  - apply asksHolidays_every_round. simpl. lia.
Defined.

(** C2. [Reply] does not always end with the "too many tool calls"
    error when the service asks for tools on every round: a panic of a
    tool unwinds through it.  With the holiday tool of
    [internal/tools/calendar.go] and a feed whose event has no SUMMARY,
    the fake that asks for [get_holidays] twenty times makes [Reply]
    panic in its first round, after one completion call.  With the
    holiday tool of the sorted revision the same run returns the error
    after exactly 15 completion calls, although the service would
    answer on its 21st request; and so does every run over tools that
    return in which each of the 15 rounds asks for a tool. *)
Theorem Reply_unwinds_tool_panic :
  let fake := fixtures.asksHolidays in
  (forall tool params served, served < 20 ->
     exists message,
       panics.cli (fake tool) params served
         = (Ok {| openai.Choices := [message] |}, S served) /\
       openai.ToolCalls message <> []) /\
  (forall tool params served, 20 <= served ->
     exists message,
       panics.cli (fake tool) params served
         = (Ok {| openai.Choices := [message] |}, S served) /\
       openai.ToolCalls message = []) /\
  (exists st',
     panics.Reply (fake fixtures.holidays_calendar_go) fixtures.conv1 fixtures.served0
       = panics.Panicked st' /\
     assistant.completions st' = 1 /\
     transcript.executions (assistant.trace st') = [(str "get_holidays", str "{}")]) /\
  (exists st',
     panics.Reply (fake fixtures.holidays_sorted) fixtures.conv1 fixtures.served0
       = panics.Returned (Err assistant.ErrTooManyToolCalls, st') /\
     assistant.completions st' = 15) /\
  (forall W (a : panics.Assistant W) conv st,
     model.Messages conv <> [] ->
     panics.returns (panics.buildRegistry a conv) ->
     panics.tool_calls_on_every_round 15 a (panics.buildRegistry a conv)
       (panics.seed conv) st ->
     exists st',
       panics.Reply a conv st
         = panics.Returned (Err assistant.ErrTooManyToolCalls, st') /\
       assistant.completions st' = assistant.completions st + 15 /\
       assistant.Error assistant.ErrTooManyToolCalls
         = str "too many tool calls, unable to generate reply") /\
  (forall W (a : panics.Assistant W) conv st message rest (w : W) call calls tool,
     model.Messages conv <> [] ->
     panics.cli a (panics.params (panics.buildRegistry a conv) (panics.seed conv))
       (assistant.world st) = (Ok {| openai.Choices := message :: rest |}, w) ->
     openai.ToolCalls message = call :: calls ->
     panics.buildRegistry a conv !! openai.Name call = Some tool ->
     panics.Execute tool (openai.Arguments call) w = None ->
     exists st',
       panics.Reply a conv st = panics.Panicked st' /\
       assistant.completions st' = assistant.completions st + 1) /\
  (forall W (a : assistant.Assistant W) conv st,
     panics.Reply (panics.of_assistant a) conv st
     = panics.Returned (assistant.Reply a conv st)).
Proof.
  intros fake. subst fake. split; [|split; [|split; [|split; [|split; [|split]]]]].
  - intros tool params served Hs. eexists. cbn [panics.cli fixtures.asksHolidays].
    destruct (Nat.ltb_spec served 20); [|lia]. split; [reflexivity|discriminate].
  - intros tool params served Hs. eexists. cbn [panics.cli fixtures.asksHolidays].
    destruct (Nat.ltb_spec served 20); [lia|]. split; reflexivity.
  - eexists. split; [vm_compute; reflexivity|]. split; vm_compute; reflexivity.
  - destruct (Reply_exhausts_rounds (fixtures.asksHolidays fixtures.holidays_sorted)
                fixtures.conv1 fixtures.served0) as (st' & Hr & Hc & _).
    + discriminate.
    + apply asksHolidays_sorted_returns.
    + apply asksHolidays_every_round. simpl. lia.
    + exists st'. split; [exact Hr|exact Hc].
  - intros W a conv st. apply Reply_exhausts_rounds.
  - intros W a conv st message rest w call calls tool Hm Hcli Hcalls Hget Hex.
    exact (Reply_unwinds_first_call a conv st message rest w call calls tool
             Hm Hcli Hcalls Hget Hex).
  - intros W a conv st. apply Reply_of_assistant.
Qed.

(** * Further properties of the code *)

(** ** The registry *)

Section registry_laws.

Context {W : Type}.
Implicit Types (r : gmap gostring (tools.Tool W)) (t : tools.Tool W).

(** [Register] then [Get]: the tool is found under its name, every
    other name is as before, and a later registration under the same
    name replaces the earlier one. *)
Theorem Register_Get t r :
  tools.Get (tools.Register t r) (tools.Name t) = Some t /\
  (forall name, name <> tools.Name t ->
     tools.Get (tools.Register t r) name = tools.Get r name) /\
  (forall t', tools.Name t' = tools.Name t ->
     tools.Register t' (tools.Register t r) = tools.Register t' r).
Proof.
  unfold tools.Get, tools.Register. split; [apply lookup_insert_eq|]. split.
  - intros name Hne. by apply lookup_insert_ne.
  - intros t' ->. apply insert_insert_eq.
Qed.

(** Dispatch by name: the tool registered last under a name is the one
    that runs; a name that is not listed fails with "unknown tool"
    and leaves the world alone. *)
Theorem Registry_Execute_dispatch t r name args (w : W) :
  tools.Registry_Execute (tools.Register t r) (tools.Name t) args w
    = tools.Execute t args w /\
  (name ∉ registry.List r ->
   tools.Registry_Execute r name args w
     = (Err (str "unknown tool: " ++ name), w)).
Proof.
  unfold tools.Registry_Execute, tools.Get, tools.Register. split.
  - by rewrite lookup_insert_eq.
  - intros Hn. destruct (r !! name) as [t'|] eqn:E; [|done].
    exfalso. apply Hn. unfold registry.List.
    apply list_elem_of_fmap. exists (name, t'). split; [done|].
    by apply elem_of_map_to_list.
Qed.

(** In a registry built by [Register] every tool is stored under its
    own name; [List] has each registered name once; and [Definitions]
    has exactly the listed names. *)
Theorem built_registry_names r :
  registry.built r ->
  (forall name t, tools.Get r name = Some t -> tools.Name t = name) /\
  NoDup (registry.List r) /\
  (forall name, name ∈ registry.List r <-> is_Some (tools.Get r name)) /\
  dom (tools.Definitions r) = dom r.
Proof.
  intros Hb. split; [|split; [|split]].
  - induction Hb as [|t r Hb IH]; intros name t'; unfold tools.Get in *.
    + unfold tools.NewRegistry. by rewrite lookup_empty.
    + unfold tools.Register. destruct (decide (name = tools.Name t)) as [->|Hne].
      * rewrite lookup_insert_eq. by intros [= <-].
      * rewrite lookup_insert_ne by done. apply IH.
  - apply NoDup_fst_map_to_list.
  - intros name. unfold registry.List, tools.Get. rewrite list_elem_of_fmap. split.
    + intros [[n t] [-> Hin]]. apply elem_of_map_to_list in Hin. eauto.
    + intros [t Ht]. exists (name, t). split; [done|]. by apply elem_of_map_to_list.
  - unfold tools.Definitions. apply dom_fmap_L.
Qed.

End registry_laws.

Lemma Registry_Execute_dispatch_witness :
  tools.Registry_Execute (tools.Register fixtures.noop tools.NewRegistry)
    (tools.Name fixtures.noop) (str "{}") tt
    = tools.Execute fixtures.noop (str "{}") tt /\
  (str "missing" ∉ registry.List (@tools.NewRegistry unit) ->
   tools.Registry_Execute tools.NewRegistry (str "missing") (str "{}") tt
     = (Err (str "unknown tool: " ++ str "missing"), tt)).
Proof. apply Registry_Execute_dispatch. Defined.

Lemma built_registry_names_witness :
  let r := tools.Register fixtures.failing
             (tools.Register fixtures.noop tools.NewRegistry) in
  (forall name t, tools.Get r name = Some t -> tools.Name t = name) /\
  NoDup (registry.List r) /\
  (forall name, name ∈ registry.List r <-> is_Some (tools.Get r name)) /\
  dom (tools.Definitions r) = dom r.
Proof. apply built_registry_names. repeat constructor. Defined.

(** ** More of [Assistant.Reply] *)

Section reply_transcripts.

Context {W : Type}.
Implicit Types (a : assistant.Assistant W) (st : assistant.State W).
Implicit Types (registry : gmap gostring (tools.Tool W)).
Implicit Types (msgs : list openai.MessageParam).

Lemma requests_app tr1 tr2 :
  transcript.requests (tr1 ++ tr2)
  = transcript.requests tr1 ++ transcript.requests tr2.
Proof.
  induction tr1 as [|[p|name args] tr1 IH]; simpl; [done| |done].
  by rewrite IH.
Qed.

Lemma executions_app tr1 tr2 :
  transcript.executions (tr1 ++ tr2)
  = transcript.executions tr1 ++ transcript.executions tr2.
Proof.
  induction tr1 as [|[p|name args] tr1 IH]; simpl; [done|done|].
  by rewrite IH.
Qed.

Lemma completions_requests st :
  assistant.completions st = length (transcript.requests (assistant.trace st)).
Proof.
  cbv [assistant.completions]. induction (assistant.trace st) as [|[p|??] tr IH];
    simpl; [done| |done]. by rewrite IH.
Qed.

Lemma requests_of_tool_events calls : transcript.requests (transcript.tool_events calls) = [].
Proof. by induction calls. Qed.

Lemma dispatched_trace registry st calls outs st' :
  reply.dispatched registry st calls outs st' ->
  assistant.trace st' = assistant.trace st ++ transcript.tool_events calls.
Proof.
  induction 1 as [st|st call calls r st1 outs st2 Hex _ IH]; simpl.
  - by rewrite app_nil_r.
  - rewrite IH. unfold assistant.registry_Execute in Hex.
    destruct (tools.Registry_Execute _ _ _ _) as [r' w].
    injection Hex as _ <-. simpl. by rewrite <- app_assoc.
Qed.

Lemma dispatched_answers registry st calls outs st' :
  reply.dispatched registry st calls outs st' ->
  Forall2 transcript.answers calls outs.
Proof.
  induction 1; constructor; [|done]. by eexists.
Qed.

Lemma answered_app msgs1 msgs2 :
  transcript.answered msgs1 -> transcript.answered msgs2 ->
  transcript.answered (msgs1 ++ msgs2).
Proof.
  induction 1 as [|c rest _ IH|c rest _ IH|c rest _ IH|m outs rest Hf _ IH];
    intros H2; simpl; [done|..].
  - constructor. auto.
  - constructor. auto.
  - constructor. auto.
  - rewrite <- app_assoc. constructor; auto.
Qed.

Lemma answered_replay (ms : list model.Message) :
  transcript.answered (assistant.replay ms).
Proof.
  induction ms as [|m ms IH]; simpl; [constructor|].
  destruct (model.Role_ m); [constructor..|]; done.
Qed.

(** What one round does, by the answer of the completion service. *)
Lemma round_cases a registry msgs st :
  let params := reply.replyParams registry msgs in
  let st1 w := {| assistant.world := w;
                  assistant.trace := assistant.trace st ++
                                     [assistant.EvCompletion params] |} in
  match assistant.cli a params (assistant.world st) with
  | (Err err, w) =>
      assistant.round a registry msgs st
      = (assistant.Return (Err (assistant.ErrCompletion err)), st1 w)
  | (Ok resp, w) =>
      match openai.Choices resp with
      | [] => assistant.round a registry msgs st
              = (assistant.Return (Err assistant.ErrNoChoices), st1 w)
      | message :: _ =>
          match openai.ToolCalls message with
          | [] => assistant.round a registry msgs st
                  = (assistant.Return (Ok (openai.Content message)), st1 w)
          | _ :: _ =>
              exists outs st2,
                assistant.round a registry msgs st
                = (assistant.Continue (msgs ++ openai.ToParam message :: outs), st2) /\
                reply.dispatched registry (st1 w) (openai.ToolCalls message) outs st2
          end
      end
  end.
Proof.
  simpl. unfold assistant.round, assistant.Completions_New.
  fold (reply.replyParams registry msgs).
  destruct (assistant.cli a _ _) as [[resp|err] w]; [|done].
  destruct (openai.Choices resp) as [|message rest]; [done|].
  destruct (openai.ToolCalls message) as [|call calls] eqn:Ec; [done|].
  change (0 <? length (call :: calls)) with true. cbv iota.
  destruct (dispatch_dispatched registry (call :: calls)
              (msgs ++ [openai.ToParam message])
              {| assistant.world := w;
                 assistant.trace := assistant.trace st ++
                   [assistant.EvCompletion (reply.replyParams registry msgs)] |})
    as (outs & st2 & Hd & Hrel).
  rewrite Hd. exists outs, st2. by rewrite <- app_assoc.
Qed.

(** The requests of the loop: at most [n], the first on the transcript
    it was given, every one on an extension of it in which all tool
    calls are answered, each transcript a prefix of the later ones. *)
Lemma loop_requests a registry n msgs st r st' :
  assistant.loop n a registry msgs st = (r, st') ->
  transcript.answered msgs ->
  exists new,
    assistant.trace st' = assistant.trace st ++ new /\
    length (transcript.requests new) <= n /\
    (0 < n -> head (transcript.requests new)
              = Some (reply.replyParams registry msgs)) /\
    Forall (fun p => exists ms, p = reply.replyParams registry ms /\
                                prefix msgs ms /\ transcript.answered ms)
      (transcript.requests new) /\
    StronglySorted prefix (openai.Messages <$> transcript.requests new).
Proof.
  revert msgs st. induction n as [|n IH]; intros msgs st; simpl.
  - intros [= <- <-] _. exists []. rewrite app_nil_r. simpl.
    repeat split; try done; try lia; constructor.
  - intros Hloop Hans.
    pose proof (round_cases a registry msgs st) as Hr. simpl in Hr.
    set (p := reply.replyParams registry msgs) in *.
    assert (Hone : forall w r0,
      assistant.round a registry msgs st
        = (assistant.Return r0,
           {| assistant.world := w;
              assistant.trace := assistant.trace st ++ [assistant.EvCompletion p] |}) ->
      exists new,
        assistant.trace st' = assistant.trace st ++ new /\
        length (transcript.requests new) <= S n /\
        (0 < S n -> head (transcript.requests new) = Some p) /\
        Forall (fun p => exists ms, p = reply.replyParams registry ms /\
                                    prefix msgs ms /\ transcript.answered ms)
          (transcript.requests new) /\
        StronglySorted prefix (openai.Messages <$> transcript.requests new)).
    { intros w r0 E. rewrite E in Hloop. injection Hloop as _ <-.
      exists [assistant.EvCompletion p]. simpl. repeat split; try done; try lia.
      - constructor; [|done]. by exists msgs.
      - repeat constructor. }
    destruct (assistant.cli a p (assistant.world st)) as [[resp|err] w];
      [|by eapply Hone].
    destruct (openai.Choices resp) as [|message rest]; [by eapply Hone|].
    destruct (openai.ToolCalls message) as [|call calls] eqn:Ec; [by eapply Hone|].
    destruct Hr as (outs & st2 & Hround & Hd). rewrite Hround in Hloop.
    assert (transcript.answered (msgs ++ openai.ToParam message :: outs)) as Hans'.
    { apply answered_app; [done|].
      rewrite <- (app_nil_r outs). constructor; [|constructor].
      rewrite Ec. by eapply dispatched_answers. }
    destruct (IH _ _ Hloop Hans') as (new & Htr & Hlen & Hhd & Hall & Hsorted).
    exists (assistant.EvCompletion p :: transcript.tool_events (call :: calls) ++ new).
    rewrite Htr, (dispatched_trace _ _ _ _ _ Hd). simpl assistant.trace.
    split; [by rewrite <- !app_assoc|].
    change (transcript.requests (assistant.EvCompletion p :: ?l))
      with (p :: transcript.requests l).
    rewrite requests_app, requests_of_tool_events. simpl app.
    assert (prefix msgs (msgs ++ openai.ToParam message :: outs)) as Hpre
      by (by eexists).
    assert (Forall (fun p0 => exists ms, p0 = reply.replyParams registry ms /\
                       prefix msgs ms /\ transcript.answered ms)
              (transcript.requests new)) as Hall'.
    { eapply Forall_impl; [exact Hall|]. intros p0 (ms & -> & Hp & Ha).
      exists ms. split; [done|]. split; [by etrans|done]. }
    repeat split; simpl; try done; try lia.
    + constructor; [|done]. by exists msgs.
    + constructor; [done|]. rewrite Forall_fmap.
      eapply Forall_impl; [exact Hall'|]. by intros p0 (ms & -> & Hp & _).
Qed.

End reply_transcripts.

(** On a conversation without messages [Reply] fails with the "no
    messages" error and the state is untouched: no completion call, no
    tool execution. *)
Theorem Reply_empty_conversation {W} (a : assistant.Assistant W) conv st :
  model.Messages conv = [] ->
  assistant.Reply a conv st = (Err assistant.ErrNoMessages, st) /\
  assistant.Error assistant.ErrNoMessages = str "conversation has no messages".
Proof. intros H. unfold assistant.Reply. by rewrite H. Qed.

Lemma Reply_empty_conversation_witness :
  assistant.Reply fixtures.looping fixtures.emptyConv fixtures.st0
    = (Err assistant.ErrNoMessages, fixtures.st0) /\
  assistant.Error assistant.ErrNoMessages = str "conversation has no messages".
Proof. apply Reply_empty_conversation. reflexivity. Defined.

(** Whatever the completion service and the tools do, [Reply] on a
    conversation with messages issues at least one and at most 15
    completion calls. *)
Theorem Reply_completion_calls_bounded {W} (a : assistant.Assistant W)
    conv st r st' :
  model.Messages conv <> [] ->
  assistant.Reply a conv st = (r, st') ->
  assistant.completions st < assistant.completions st' /\
  assistant.completions st' <= assistant.completions st + 15.
Proof.
  intros Hm. unfold assistant.Reply.
  destruct (model.Messages conv) as [|m ms] eqn:E; [done|].
  intros Hloop. apply loop_requests in Hloop
    as (new & Htr & Hlen & Hhd & _ & _).
  - rewrite !completions_requests, Htr, requests_app, length_app.
    specialize (Hhd ltac:(unfold assistant.maxRounds; lia)).
    destruct (transcript.requests new); [done|].
    unfold assistant.maxRounds in Hlen. simpl in *. lia.
  - constructor. apply answered_replay.
Qed.

Lemma Reply_completion_calls_bounded_witness :
  let st' := snd (assistant.Reply (fixtures.answering (str "Sunny"))
                    fixtures.conv1 fixtures.st0) in
  assistant.completions fixtures.st0 < assistant.completions st' /\
  assistant.completions st' <= assistant.completions fixtures.st0 + 15.
Proof.
  apply (Reply_completion_calls_bounded (fixtures.answering (str "Sunny"))
           fixtures.conv1 fixtures.st0 _ _ ltac:(discriminate) eq_refl).
Defined.

(** Every request [Reply] sends uses the reply model and the
    definitions of the registry built for the conversation, and its
    transcript extends the seed: the system instruction followed by
    the replayed history.  The first request carries exactly the seed,
    and each transcript is a prefix of every later one: the transcript
    only grows. *)
Theorem Reply_requests_extend_seed {W} (a : assistant.Assistant W)
    conv st r st' :
  model.Messages conv <> [] ->
  assistant.Reply a conv st = (r, st') ->
  exists new,
    assistant.trace st' = assistant.trace st ++ new /\
    (exists first, head (transcript.requests new) = Some first /\
                   openai.Messages first = transcript.seed conv) /\
    Forall (fun p =>
              openai.Model p = openai.ChatModelGPT4_1 /\
              openai.Tools p = tools.Definitions (assistant.buildRegistry a conv) /\
              prefix (transcript.seed conv) (openai.Messages p))
      (transcript.requests new) /\
    StronglySorted prefix (openai.Messages <$> transcript.requests new).
Proof.
  intros Hm. unfold assistant.Reply, transcript.seed.
  destruct (model.Messages conv) as [|m ms] eqn:E; [done|].
  intros Hloop. apply loop_requests in Hloop
    as (new & Htr & Hlen & Hhd & Hall & Hs).
  - exists new. split; [done|]. split; [|split; [|done]].
    + eexists. split; [apply Hhd; unfold assistant.maxRounds; lia|done].
    + eapply Forall_impl; [exact Hall|]. by intros p (ms' & -> & Hp & _).
  - constructor. apply answered_replay.
Qed.

Lemma Reply_requests_extend_seed_witness :
  exists new,
    assistant.trace (snd (assistant.Reply fixtures.looping fixtures.conv1 fixtures.st0))
      = assistant.trace fixtures.st0 ++ new /\
    (exists first, head (transcript.requests new) = Some first /\
                   openai.Messages first = transcript.seed fixtures.conv1) /\
    Forall (fun p =>
              openai.Model p = openai.ChatModelGPT4_1 /\
              openai.Tools p
                = tools.Definitions (assistant.buildRegistry fixtures.looping fixtures.conv1) /\
              prefix (transcript.seed fixtures.conv1) (openai.Messages p))
      (transcript.requests new) /\
    StronglySorted prefix (openai.Messages <$> transcript.requests new).
Proof.
  apply (Reply_requests_extend_seed fixtures.looping fixtures.conv1 fixtures.st0
           (fst (assistant.Reply fixtures.looping fixtures.conv1 fixtures.st0))).
  - discriminate.
  - apply surjective_pairing.
Defined.

(** In every transcript [Reply] sends, each tool-call message of the
    model is followed by exactly one tool message per requested call,
    in the order of the calls and keyed to their identifiers, and no
    tool message stands anywhere else. *)
Theorem Reply_transcripts_answered {W} (a : assistant.Assistant W)
    conv st r st' :
  assistant.Reply a conv st = (r, st') ->
  exists new,
    assistant.trace st' = assistant.trace st ++ new /\
    Forall (fun p => transcript.answered (openai.Messages p))
      (transcript.requests new).
Proof.
  unfold assistant.Reply.
  destruct (model.Messages conv) as [|m ms] eqn:E.
  - intros [= _ <-]. exists []. by rewrite app_nil_r.
  - intros Hloop. apply loop_requests in Hloop
      as (new & Htr & _ & _ & Hall & _).
    + exists new. split; [done|].
      eapply Forall_impl; [exact Hall|]. by intros p (ms' & -> & _ & Ha).
    + constructor. apply answered_replay.
Qed.

Lemma Reply_transcripts_answered_witness :
  exists new,
    assistant.trace (snd (assistant.Reply fixtures.looping fixtures.conv1 fixtures.st0))
      = assistant.trace fixtures.st0 ++ new /\
    Forall (fun p => transcript.answered (openai.Messages p))
      (transcript.requests new).
Proof.
  apply (Reply_transcripts_answered fixtures.looping fixtures.conv1 fixtures.st0
           (fst (assistant.Reply fixtures.looping fixtures.conv1 fixtures.st0))).
  apply surjective_pairing.
Defined.


(** An answer without tool calls ends the loop at once: [Reply] returns
    its content after that one completion call, and no tool runs. *)
Theorem Reply_returns_first_answer {W} (a : assistant.Assistant W)
    conv st message rest (w : W) :
  model.Messages conv <> [] ->
  assistant.cli a
    (reply.replyParams (assistant.buildRegistry a conv) (transcript.seed conv))
    (assistant.world st) = (Ok {| openai.Choices := message :: rest |}, w) ->
  openai.ToolCalls message = [] ->
  assistant.Reply a conv st
  = (Ok (openai.Content message),
     {| assistant.world := w;
        assistant.trace := assistant.trace st ++
          [assistant.EvCompletion
             (reply.replyParams (assistant.buildRegistry a conv)
                (transcript.seed conv))] |}).
Proof.
  intros Hm Hcli Hcalls. unfold assistant.Reply, transcript.seed in *.
  destruct (model.Messages conv) as [|m ms] eqn:E; [done|].
  unfold assistant.maxRounds. cbn [assistant.loop].
  pose proof (round_cases a (assistant.buildRegistry a conv)
    (openai.SystemMessage assistant.replyPrompt :: assistant.replay (m :: ms)) st) as Hr.
  cbv zeta in Hr. rewrite Hcli in Hr. cbn [openai.Choices] in Hr.
  rewrite Hcalls in Hr. by rewrite Hr.
Qed.

Lemma Reply_returns_first_answer_witness :
  assistant.Reply (fixtures.answering (str "Sunny")) fixtures.conv1 fixtures.st0
  = (Ok (str "Sunny"),
     {| assistant.world := tt;
        assistant.trace := assistant.trace fixtures.st0 ++
          [assistant.EvCompletion
             (reply.replyParams
                (assistant.buildRegistry (fixtures.answering (str "Sunny")) fixtures.conv1)
                (transcript.seed fixtures.conv1))] |}).
Proof.
  apply (Reply_returns_first_answer (fixtures.answering (str "Sunny"))
           fixtures.conv1 fixtures.st0
           {| openai.Content := str "Sunny"; openai.ToolCalls := [] |} [] tt).
  - discriminate.
  - reflexivity.
  - reflexivity.
Defined.

(** [replay] keeps the user and assistant messages in their order and
    drops every other role; it distributes over concatenation and
    yields no system, tool or tool-call message. *)
Theorem replay_keeps_order (ms ms' : list model.Message) :
  assistant.replay ms = omap transcript.replayed ms /\
  assistant.replay (ms ++ ms') = assistant.replay ms ++ assistant.replay ms' /\
  length (assistant.replay ms) <= length ms /\
  Forall (fun p => exists content,
            p = openai.UserMessage content \/ p = openai.AssistantMessage content)
    (assistant.replay ms).
Proof.
  assert (forall l, assistant.replay l = omap transcript.replayed l) as E.
  { induction l as [|m l IH]; simpl; [done|].
    unfold transcript.replayed at 1. rewrite IH. by destruct (model.Role_ m). }
  split; [apply E|]. split; [by rewrite !E, omap_app|]. split.
  - induction ms as [|m ms IH]; simpl; [lia|]. destruct (model.Role_ m); simpl; lia.
  - induction ms as [|m ms IH]; simpl; [constructor|].
    destruct (model.Role_ m); [constructor; eauto..|done].
Qed.

(** ** More of [Assistant.Title] *)

Section title_more.

Lemma ReplaceAll_absent (s new : gostring) old :
  old ∉ s -> strings.ReplaceAll s old new = s.
Proof.
  induction s as [|c s IH]; simpl; [done|].
  rewrite not_elem_of_cons. intros [Hne Hs].
  destruct (Ascii.eqb c old) eqn:E.
  - apply Ascii.eqb_eq in E. congruence.
  - by rewrite IH.
Qed.

Lemma trimLeftASCII_clean (s cutset : gostring) :
  (forall c, head s = Some c -> strings.contains cutset c = false) ->
  strings.trimLeftASCII s cutset = s.
Proof.
  destruct s as [|c s]; simpl; [done|]. intros H. by rewrite (H c eq_refl).
Qed.

Lemma Trim_clean (s cutset : gostring) :
  (forall c, head s = Some c -> strings.contains cutset c = false) ->
  (forall c, last s = Some c -> strings.contains cutset c = false) ->
  strings.Trim s cutset = s.
Proof.
  intros Hh Hl. unfold strings.Trim, strings.trimRightASCII.
  rewrite (trimLeftASCII_clean (rev s)) by (intros c; rewrite head_rev; auto).
  rewrite rev_involutive. by apply trimLeftASCII_clean.
Qed.

Lemma postprocess_clean content :
  title.invariant content -> assistant.postprocess content = content.
Proof.
  intros (Hlen & Hnl & Hh & Hl). rewrite postprocess_trimmed.
  unfold title.trimmed. rewrite ReplaceAll_absent by done.
  rewrite Trim_clean by done.
  by replace (80 <? length content) with false by (symmetry; apply Nat.ltb_ge; lia).
Qed.

End title_more.

(** An answer of the completion service that already is a clean title
    (at most 80 bytes, no newline, no padding at either end, not blank)
    is returned as it is, after the one completion call. *)
Theorem Title_returns_clean_answer {W} (a : assistant.Assistant W)
    conv st m0 ms choice rest (w : W) :
  model.Messages conv = m0 :: ms ->
  assistant.cli a (assistant.titleParams (model.Content m0)) (assistant.world st)
    = (Ok {| openai.Choices := choice :: rest |}, w) ->
  title.invariant (openai.Content choice) ->
  ~ title.blank (openai.Content choice) ->
  assistant.Title a conv st
  = (Ok (openai.Content choice),
     {| assistant.world := w;
        assistant.trace := assistant.trace st ++
          [assistant.EvCompletion (assistant.titleParams (model.Content m0))] |}).
Proof.
  intros Hm Hcli Hinv Hnb.
  pose proof (Title_nonempty a conv st m0 ms Hm) as H. simpl in H.
  rewrite Hcli in H. simpl in H. rewrite H.
  rewrite decide_False by done. by rewrite postprocess_clean.
Qed.

Lemma Title_returns_clean_answer_witness :
  assistant.Title (fixtures.answering (str "Weather in Barcelona"))
    fixtures.conv1 fixtures.st0
  = (Ok (str "Weather in Barcelona"),
     {| assistant.world := tt;
        assistant.trace := assistant.trace fixtures.st0 ++
          [assistant.EvCompletion
             (assistant.titleParams
                (str "What is the weather like in Barcelona?"))] |}).
Proof.
  apply (Title_returns_clean_answer
           (fixtures.answering (str "Weather in Barcelona"))
           fixtures.conv1 fixtures.st0 _ []
           {| openai.Content := str "Weather in Barcelona"; openai.ToolCalls := [] |}
           [] tt eq_refl eq_refl).
  - exact (Title_untruncated_no_trailing_pad (str "Weather in Barcelona")
             ltac:(vm_compute; lia)).
  - vm_compute. discriminate.
Defined.

Lemma Title_appends_one_request {W} (a : assistant.Assistant W) conv st m0 ms :
  model.Messages conv = m0 :: ms ->
  exists r w,
    assistant.Title a conv st
    = (r, {| assistant.world := w;
             assistant.trace := assistant.trace st ++
               [assistant.EvCompletion (assistant.titleParams (model.Content m0))] |}).
Proof.
  intros Hm. pose proof (Title_nonempty a conv st m0 ms Hm) as H. simpl in H.
  destruct (assistant.cli a _ _) as [[resp|err] w].
  - destruct (openai.Choices resp) as [|choice ?];
      [|destruct (decide _)]; eexists _, w; exact H.
  - eexists _, w. exact H.
Qed.

(** On a conversation with messages [Title] sends exactly one request,
    whatever comes back: the fixed instruction and the first message,
    with no tool definitions.  The messages after the first play no
    part, and an error of the completion service is returned as it is. *)
Theorem Title_one_request_first_message {W} (a : assistant.Assistant W)
    conv st m0 ms :
  model.Messages conv = m0 :: ms ->
  (exists r w,
     assistant.Title a conv st
     = (r, {| assistant.world := w;
              assistant.trace := assistant.trace st ++
                [assistant.EvCompletion (assistant.titleParams (model.Content m0))] |}) /\
     forall cause w', assistant.cli a (assistant.titleParams (model.Content m0))
                        (assistant.world st) = (Err cause, w') ->
                      r = Err (assistant.ErrCompletion cause) /\
                      assistant.Error (assistant.ErrCompletion cause) = cause) /\
  openai.Tools (assistant.titleParams (model.Content m0)) = ∅ /\
  openai.Messages (assistant.titleParams (model.Content m0))
    = [openai.SystemMessage assistant.titlePrompt;
       openai.UserMessage (model.Content m0)] /\
  (forall conv', head (model.Messages conv') = Some m0 ->
     assistant.Title a conv' st = assistant.Title a conv st).
Proof.
  intros Hm. split; [|split; [done|split; [done|]]].
  - pose proof (Title_nonempty a conv st m0 ms Hm) as H. simpl in H.
    destruct (assistant.cli a _ _) as [[resp|err] w].
    + destruct (openai.Choices resp) as [|choice ?];
        [|destruct (decide _)]; eexists _, w; (split; [exact H|done]).
    + eexists _, w. split; [exact H|]. by intros ?? [= <- _].
  - intros conv' Hh. destruct (model.Messages conv') as [|m0' ms'] eqn:E; [done|].
    injection Hh as ->. unfold assistant.Title. by rewrite E, Hm.
Qed.

Lemma Title_one_request_first_message_witness :
  assistant.Title (fixtures.answering (str "Weather"))
    {| model.Messages :=
         [fixtures.user "What is the weather like in Barcelona?";
          fixtures.user "And the flights to Madrid?"] |} fixtures.st0
  = assistant.Title (fixtures.answering (str "Weather")) fixtures.conv1 fixtures.st0.
Proof.
  apply (Title_one_request_first_message (fixtures.answering (str "Weather"))
           fixtures.conv1 fixtures.st0 _ [] eq_refl).
  reflexivity.
Defined.

(** ** More of the holiday tool *)

Section holiday_selection.

Import holidays.
Implicit Types (items : list calendar_sorted.datedEvent) (p : payload).

Lemma selected_limit_filter p items n :
  listing.selected p items n =
  if (0 <? MaxCount p)%Z
  then take (Z.to_nat (MaxCount p) - n) (List.filter (selection.inBounds p) items)
  else List.filter (selection.inBounds p) items.
Proof.
  revert n. induction items as [|item items IH]; intros n.
  - simpl. destruct (0 <? MaxCount p)%Z; [by rewrite take_nil|done].
  - cbn [listing.selected List.filter].
    change (selection.inBounds p item) with
      (negb (afterBound p (calendar_sorted.date item)) &&
       negb (beforeBound p (calendar_sorted.date item))).
    destruct (0 <? MaxCount p)%Z eqn:Hpos; cbn [andb].
    + pose proof Hpos as Hlt. apply Z.ltb_lt in Hlt.
      destruct (MaxCount p <=? Z.of_nat n)%Z eqn:Hle.
      * apply Z.leb_le in Hle.
        replace (Z.to_nat (MaxCount p) - n) with 0 by lia. by rewrite take_0.
      * apply Z.leb_gt in Hle.
        destruct (afterBound p _); cbn [negb andb]; [by rewrite IH|].
        destruct (beforeBound p _); cbn [negb andb]; [by rewrite IH|].
        rewrite IH.
        replace (Z.to_nat (MaxCount p) - n) with (S (Z.to_nat (MaxCount p) - S n))
          by lia. done.
    + destruct (afterBound p _); cbn [negb andb]; [by rewrite IH|].
      destruct (beforeBound p _); cbn [negb andb]; [by rewrite IH|].
      by rewrite IH.
Qed.

Lemma inBounds_spec p item :
  selection.inBounds p item = true <->
  (time.IsZero (BeforeDate p) = true \/
   listing.le (calendar_sorted.date item) (BeforeDate p)) /\
  (time.IsZero (AfterDate p) = true \/
   listing.le (AfterDate p) (calendar_sorted.date item)).
Proof.
  unfold selection.inBounds, afterBound, beforeBound, listing.le.
  rewrite andb_true_iff, !negb_true_iff, !andb_false_iff, !negb_false_iff.
  assert (forall t u, time.After t u = time.Before u t) as Hflip.
  { intros t u. apply eq_true_iff_eq. rewrite Before_spec.
    unfold time.After, time.compare.
    destruct (Nat.compare_spec (time.year t) (time.year u));
    destruct (Nat.compare_spec (time.month t) (time.month u));
    destruct (Nat.compare_spec (time.day t) (time.day u));
    destruct (Nat.compare_spec (time.nsec t) (time.nsec u));
    split; intros; try discriminate; try reflexivity; lia. }
  by rewrite Hflip.
Qed.

(** The loop of [calendar.go] collects what the loop of the sorted
    revision collects on the dated events in feed order, as long as
    every dated event has a SUMMARY. *)
Lemma calendar_go_collect p (events : list ics.VEvent) holidays :
  Forall selection.summarised events ->
  calendar_go.collect p events holidays
  = Some (calendar_sorted.collect p (calendar_sorted.dated events) holidays).
Proof.
  intros Hs. revert holidays.
  induction Hs as [|ev events Hev _ IH]; intros holidays; simpl; [done|].
  destruct (ics.GetAllDayStartAt ev) as [d|] eqn:Ed; [|apply IH]. simpl.
  destruct (maxReached p holidays); [done|].
  destruct (afterBound p d); [apply IH|].
  destruct (beforeBound p d); [apply IH|].
  destruct Hev as [Hev|Hev]; [congruence|].
  destruct (ics.Summary ev); [apply IH|done].
Qed.

End holiday_selection.

(** The sorted revision lists, in ascending date order, the events
    whose date lies within the bounds (a bound equal to the date keeps
    the event, a bound left at the zero time keeps all), cut to the
    first [max_count] when that is positive: the earliest ones. *)
Theorem sorted_revision_selection sort_Slice events p :
  holidays.calendar_sorted.sorts sort_Slice ->
  let kept :=
    selection.limit p
      (List.filter (selection.inBounds p)
         (sort_Slice (holidays.calendar_sorted.dated events))) in
  holidays.calendar_sorted.Execute sort_Slice (Ok events) (Ok p)
    = holidays.Returned (Ok (Join (map listing.render kept) nl)) /\
  listing.ascending kept /\
  ((0 < holidays.MaxCount p)%Z -> (Z.of_nat (length kept) <= holidays.MaxCount p)%Z) /\
  Forall (fun item =>
            (time.IsZero (holidays.BeforeDate p) = true \/
             listing.le (holidays.calendar_sorted.date item) (holidays.BeforeDate p)) /\
            (time.IsZero (holidays.AfterDate p) = true \/
             listing.le (holidays.AfterDate p) (holidays.calendar_sorted.date item)))
    kept.
Proof.
  intros Hsort kept.
  assert (kept = listing.selected p
            (sort_Slice (holidays.calendar_sorted.dated events)) 0) as Hk.
  { rewrite selected_limit_filter. unfold kept, selection.limit.
    by rewrite Nat.sub_0_r. }
  split; [|split; [|split]].
  - unfold holidays.calendar_sorted.Execute. by rewrite collect_selected, Hk.
  - rewrite Hk. eapply ascending_sublist; [apply selected_sublist|].
    apply Hsort.
  - intros Hpos. unfold kept, selection.limit.
    replace (0 <? holidays.MaxCount p)%Z with true by (symmetry; by apply Z.ltb_lt).
    rewrite length_take. lia.
  - assert (Forall (fun item => selection.inBounds p item = true) kept) as Hb.
    { unfold kept, selection.limit. apply Forall_forall. intros item Hin.
      assert (item ∈ List.filter (selection.inBounds p)
                (sort_Slice (holidays.calendar_sorted.dated events))) as Hin'.
      { destruct (0 <? holidays.MaxCount p)%Z; [|done].
        by eapply (subseteq_take (Z.to_nat (holidays.MaxCount p))). }
      apply list_elem_of_In, filter_In in Hin'. tauto. }
    eapply Forall_impl; [exact Hb|]. intros item. apply inBounds_spec.
Qed.

Lemma sorted_revision_selection_witness :
  let p := fixtures.firstTwoOf2025 in
  let kept :=
    selection.limit p
      (List.filter (selection.inBounds p)
         (holidays.calendar_sorted.insertionSort
            (holidays.calendar_sorted.dated fixtures.feed3))) in
  holidays.calendar_sorted.Execute holidays.calendar_sorted.insertionSort
    (Ok fixtures.feed3) (Ok p)
    = holidays.Returned (Ok (Join (map listing.render kept) nl)) /\
  listing.ascending kept /\
  ((0 < holidays.MaxCount p)%Z -> (Z.of_nat (length kept) <= holidays.MaxCount p)%Z) /\
  Forall (fun item =>
            (time.IsZero (holidays.BeforeDate p) = true \/
             listing.le (holidays.calendar_sorted.date item) (holidays.BeforeDate p)) /\
            (time.IsZero (holidays.AfterDate p) = true \/
             listing.le (holidays.AfterDate p) (holidays.calendar_sorted.date item)))
    kept.
Proof.
  apply (sorted_revision_selection holidays.calendar_sorted.insertionSort
           fixtures.feed3 fixtures.firstTwoOf2025 insertionSort_sorts).
Defined.

(** The listing of that feed: New Year (on the lower bound) and the
    event without summary, the first two of the year. *)
Example sorted_revision_first_two :
  holidays.calendar_sorted.Execute holidays.calendar_sorted.insertionSort
    (Ok fixtures.feed3) (Ok fixtures.firstTwoOf2025)
  = holidays.Returned
      (Ok (str "2025-01-01: New Year" ++ nl ++ str "2025-05-01: No summary")).
Proof. vm_compute. reflexivity. Qed.

(** [Execute] of [internal/tools/calendar.go] does not panic when every
    event with an all-day start has a SUMMARY: it then lists the events
    within the bounds in feed order, cut to [max_count], skipping the
    events without an all-day start. *)
Theorem calendar_go_selection events p :
  Forall selection.summarised events ->
  let kept :=
    selection.limit p
      (List.filter (selection.inBounds p) (holidays.calendar_sorted.dated events)) in
  holidays.calendar_go.Execute (Ok events) (Ok p)
    = holidays.Returned (Ok (Join (map listing.render kept) nl)) /\
  sublist (holidays.calendar_sorted.evt <$> kept) events.
Proof.
  intros Hs kept. split.
  - unfold holidays.calendar_go.Execute.
    rewrite calendar_go_collect by done. rewrite collect_selected.
    rewrite selected_limit_filter. unfold kept, selection.limit.
    by rewrite Nat.sub_0_r.
  - assert (sublist kept (holidays.calendar_sorted.dated events)) as Hsub.
    { unfold kept, selection.limit.
      assert (sublist (List.filter (selection.inBounds p)
                (holidays.calendar_sorted.dated events))
                (holidays.calendar_sorted.dated events)) as Hf.
      { clear. induction (holidays.calendar_sorted.dated events) as [|x l IH];
          simpl; [done|].
        destruct (selection.inBounds p x); [by apply sublist_skip|by apply sublist_cons]. }
      destruct (0 <? holidays.MaxCount p)%Z; [|done].
      etrans; [apply sublist_take|done]. }
    assert (sublist (holidays.calendar_sorted.evt <$> holidays.calendar_sorted.dated events)
              events) as Hd.
    { clear. induction events as [|ev events IH]; simpl; [done|].
      destruct (ics.GetAllDayStartAt ev); simpl;
        [by apply sublist_skip|by apply sublist_cons]. }
    etrans; [|exact Hd]. by apply fmap_sublist.
Qed.

Lemma calendar_go_selection_witness :
  let events := [fixtures.christmas; fixtures.newYear] in
  let p := fixtures.firstTwoOf2025 in
  let kept :=
    selection.limit p
      (List.filter (selection.inBounds p) (holidays.calendar_sorted.dated events)) in
  holidays.calendar_go.Execute (Ok events) (Ok p)
    = holidays.Returned (Ok (Join (map listing.render kept) nl)) /\
  sublist (holidays.calendar_sorted.evt <$> kept) events.
Proof.
  apply (calendar_go_selection [fixtures.christmas; fixtures.newYear]
           fixtures.firstTwoOf2025).
  repeat (apply Forall_cons_2; [right; discriminate|]). apply Forall_nil_2.
Defined.

(** On a feed whose dated events are already in ascending order, with
    different events on different dates and a SUMMARY on each, the two
    revisions of [Execute] return the same listing. *)
Theorem revisions_agree_on_sorted_feed sort_Slice events args :
  holidays.calendar_sorted.sorts sort_Slice ->
  Forall selection.summarised events ->
  listing.ascending (holidays.calendar_sorted.dated events) ->
  listing.distinct_dates (holidays.calendar_sorted.dated events) ->
  holidays.calendar_go.Execute (Ok events) args
  = holidays.calendar_sorted.Execute sort_Slice (Ok events) args.
Proof.
  intros Hsort Hs Hasc Hd.
  destruct (Hsort (holidays.calendar_sorted.dated events)) as [Hp Hsd].
  assert (sort_Slice (holidays.calendar_sorted.dated events)
          = holidays.calendar_sorted.dated events) as E.
  { eapply StronglySorted_unique_strong; [|exact Hsd|exact Hasc|exact Hp].
    intros x1 x2 Hx1 Hx2 H12 H21. apply Hd; [by rewrite <- Hp|done|].
    apply le_antisym; by apply less_false. }
  unfold holidays.calendar_go.Execute, holidays.calendar_sorted.Execute.
  destruct args as [p|err]; [|done].
  by rewrite calendar_go_collect, E.
Qed.

Lemma revisions_agree_on_sorted_feed_witness :
  holidays.calendar_go.Execute (Ok [fixtures.newYear; fixtures.christmas])
    (Ok fixtures.firstTwoOf2025)
  = holidays.calendar_sorted.Execute holidays.calendar_sorted.insertionSort
      (Ok [fixtures.newYear; fixtures.christmas]) (Ok fixtures.firstTwoOf2025).
Proof.
  apply revisions_agree_on_sorted_feed.
  - apply insertionSort_sorts.
  - repeat (apply Forall_cons_2; [right; discriminate|]). apply Forall_nil_2.
  - simpl. repeat constructor.
  - intros x y Hx Hy. simpl in Hx, Hy.
    repeat (apply elem_of_cons in Hx as [->|Hx]);
    repeat (apply elem_of_cons in Hy as [->|Hy]);
    try (by apply elem_of_nil in Hx); try (by apply elem_of_nil in Hy);
    try done; by vm_compute.
Defined.

(** The sorted revision lists the same holidays whatever the order of
    the events in the feed and whichever sort is used, as long as no
    two events share a date; the bounds and the limit apply to the
    sorted events, so the same events are selected. *)
Theorem sorted_revision_feed_order_irrelevant sort_Slice sort_Slice' events events' args :
  holidays.calendar_sorted.sorts sort_Slice ->
  holidays.calendar_sorted.sorts sort_Slice' ->
  events ≡ₚ events' ->
  listing.distinct_dates (holidays.calendar_sorted.dated events) ->
  holidays.calendar_sorted.Execute sort_Slice (Ok events) args
  = holidays.calendar_sorted.Execute sort_Slice' (Ok events') args.
Proof. apply sorted_revision_order_independent. Qed.

Lemma sorted_revision_feed_order_irrelevant_witness :
  holidays.calendar_sorted.Execute holidays.calendar_sorted.insertionSort
    (Ok [fixtures.christmas; fixtures.newYear]) (Ok fixtures.firstTwoOf2025)
  = holidays.calendar_sorted.Execute holidays.calendar_sorted.insertionSort
      (Ok [fixtures.newYear; fixtures.christmas]) (Ok fixtures.firstTwoOf2025).
Proof.
  apply sorted_revision_feed_order_irrelevant; try apply insertionSort_sorts.
  - apply Permutation_swap.
  - intros x y Hx Hy. simpl in Hx, Hy.
    repeat (apply elem_of_cons in Hx as [->|Hx]);
    repeat (apply elem_of_cons in Hy as [->|Hy]);
    try (by apply elem_of_nil in Hx); try (by apply elem_of_nil in Hy);
    try done; by vm_compute.
Defined.

Lemma sorted_revision_no_summary_witness :
  exists lines,
    holidays.calendar_sorted.Execute holidays.calendar_sorted.insertionSort
      (Ok fixtures.feed3) (Ok listing.everything)
      = holidays.Returned (Ok (Join lines nl)) /\
    time.Format_DateOnly (time.Date 2025 5 1) ++ str ": No summary" ∈ lines.
Proof.
  apply (sorted_revision_no_summary holidays.calendar_sorted.insertionSort
           fixtures.feed3 listing.everything fixtures.unnamed (time.Date 2025 5 1)
           insertionSort_sorts).
  - right. left.
  - reflexivity.
  - reflexivity.
  - simpl. lia.
  - reflexivity.
  - reflexivity.
Defined.

(** ** More of the current-weather tool *)

Section capture_lemmas.

Lemma more_within {A} cls (k : gostring -> option A) s taken r :
  regexp.more cls k s = Some (taken, r) ->
  captures.within cls taken /\ k (drop (length taken) s) = Some r.
Proof.
  revert taken. induction s as [|c s IH]; intros taken; simpl.
  - destruct (k []) eqn:E; [|done]. intros [= <- <-]. split; [constructor|done].
  - destruct (cls c) eqn:Ec.
    + destruct (regexp.more cls k s) as [[taken' r']|] eqn:Em.
      * intros [= <- <-]. destruct (IH taken' eq_refl) as [Hw Hk].
        split; [by constructor|done].
      * destruct (k (c :: s)) eqn:E; [|done]. intros [= <- <-].
        split; [constructor|done].
    + destruct (k (c :: s)) eqn:E; [|done]. intros [= <- <-].
      split; [constructor|done].
Qed.

(** The groups a match returns are one per capturing group of the
    pattern, each within the class of its group. *)
Lemma match_here_groups p s rest groups :
  regexp.match_here p s = Some (rest, groups) ->
  Forall2 captures.within (captures.group_classes p) groups.
Proof.
  revert s rest groups. induction p as [|[cls|cls|cls] p IH];
    intros s rest groups; simpl.
  - intros [= _ <-]. constructor.
  - destruct s as [|c s]; [done|]. destruct (cls c); [|done]. apply IH.
  - destruct s as [|c s]; [done|]. destruct (cls c); [|done].
    destruct (regexp.more cls (regexp.match_here p) s) as [[taken [rest' groups']]|]
      eqn:Em; [|done].
    intros [= <- <-]. apply more_within in Em as [_ Hk]. by eapply IH.
  - destruct s as [|c s]; [done|]. destruct (cls c) eqn:Ec; [|done].
    destruct (regexp.more cls (regexp.match_here p) s) as [[taken [rest' groups']]|]
      eqn:Em; [|done].
    intros [= <- <-]. apply more_within in Em as [Hw Hk].
    constructor; [by constructor|by eapply IH].
Qed.

Lemma FindStringSubmatch_groups p s :
  regexp.FindStringSubmatch p s = [] \/
  exists whole groups,
    regexp.FindStringSubmatch p s = whole :: groups /\
    Forall2 captures.within (captures.group_classes p) groups.
Proof.
  induction s as [|c s IH]; simpl.
  - destruct (regexp.match_here p []) as [[rest groups]|] eqn:E; [|by left].
    right. eexists _, _. split; [done|]. by eapply match_here_groups.
  - destruct (regexp.match_here p (c :: s)) as [[rest groups]|] eqn:E; [|done].
    right. eexists _, _. split; [done|]. by eapply match_here_groups.
Qed.

Lemma TrimLeftFunc_fuel_subseteq fuel (s : gostring) :
  strings.TrimLeftFunc_fuel fuel s ⊆ s.
Proof.
  revert s. induction fuel as [|fuel IH]; intros s; simpl; [apply list_subseteq_nil|].
  destruct s as [|c s]; [done|].
  destruct (utf8.DecodeRuneInString (c :: s)) as [r size].
  destruct (unicode.IsSpace r); [|done].
  etrans; [apply IH|apply subseteq_drop].
Qed.

Lemma TrimRightFunc_subseteq (s : gostring) : strings.TrimRightFunc s ⊆ s.
Proof.
  unfold strings.TrimRightFunc.
  destruct (strings.lastIndexFunc _ _ _); [|apply subseteq_take].
  destruct (_ <=? _)%N; apply subseteq_take.
Qed.

Lemma trimSpace_stop_subseteq (s : gostring) stop : strings.trimSpace_stop s stop ⊆ s.
Proof.
  induction stop as [|stop IH]; simpl; [apply subseteq_take|].
  destruct (_ <=? _)%N.
  - etrans; [apply TrimRightFunc_subseteq|apply subseteq_take].
  - destruct (strings.asciiSpace _); [done|apply subseteq_take].
Qed.

(** [TrimSpace] returns bytes of its argument only. *)
Lemma TrimSpace_subseteq (s : gostring) : strings.TrimSpace s ⊆ s.
Proof.
  induction s as [|c s IH]; [done|]. cbn [strings.TrimSpace].
  destruct (_ <=? _)%N.
  - unfold strings.TrimFunc, strings.TrimLeftFunc.
    etrans; [apply TrimRightFunc_subseteq|apply TrimLeftFunc_fuel_subseteq].
  - destruct (strings.asciiSpace _).
    + by apply list_subseteq_cons.
    + apply trimSpace_stop_subseteq.
Qed.

Lemma scan_unmatched (newer rest : list model.Message) :
  Forall captures.unmatched newer ->
  weather.scan (newer ++ rest) = weather.scan rest.
Proof.
  induction 1 as [|m newer Hm _ IH]; simpl; [done|].
  destruct (model.Role_ m) eqn:E; try done.
  by rewrite (Hm E).
Qed.

End capture_lemmas.

(** A location taken from the conversation never contains a question
    mark, a full stop or an exclamation mark: the capture stops at the
    end of the sentence. *)
Theorem weather_extraction_stops_at_sentence_end (msgs : list model.Message) c :
  c ∈ weather.scan msgs -> c <> "?"%char /\ c <> "."%char /\ c <> "!"%char.
Proof.
  induction msgs as [|m msgs IH]; simpl; [by intros ?%elem_of_nil|].
  destruct (model.Role_ m); try apply IH.
  destruct (FindStringSubmatch_groups weather.weatherIn (model.Content m))
    as [->|(whole & groups & -> & Hg)]; [apply IH|].
  change (captures.group_classes weather.weatherIn) with [regexp.notEnd] in Hg.
  apply Forall2_cons_inv_l in Hg as (g & groups' & Hw & Hnil & ->).
  apply Forall2_nil_inv_l in Hnil as ->.
  intros Hc%TrimSpace_subseteq.
  unfold captures.within in Hw. rewrite Forall_forall in Hw.
  specialize (Hw c Hc). repeat split; intros ->; discriminate.
Qed.

Lemma weather_extraction_stops_at_sentence_end_witness :
  "P"%char <> "?"%char /\ "P"%char <> "."%char /\ "P"%char <> "!"%char.
Proof.
  apply (weather_extraction_stops_at_sentence_end
           [fixtures.user "weather in Paris. Or Rome?"]).
  vm_compute. left.
Defined.

(** With no location argument, the most recent user message that
    matches the pattern decides alone: the messages before it, and the
    later ones that are not user messages or do not match, change
    nothing. *)
Theorem weather_newest_match_decides Getenv conv p older m newer whole group :
  strings.TrimSpace (weather.Location p) = [] ->
  model.Messages conv = older ++ m :: newer ->
  model.Role_ m = model.RoleUser ->
  regexp.FindStringSubmatch weather.weatherIn (model.Content m) = [whole; group] ->
  Forall captures.unmatched newer ->
  weather.scan (rev (model.Messages conv)) = strings.TrimSpace group /\
  weather.resolveLocation Getenv conv p
  = weather.resolveLocation Getenv {| model.Messages := [m] |} p.
Proof.
  intros Hloc Hm Hrole Hmatch Hnewer.
  assert (weather.scan (rev (model.Messages conv)) = strings.TrimSpace group) as Hs.
  { rewrite Hm, rev_app_distr. simpl rev. rewrite <- app_assoc.
    rewrite scan_unmatched by (by apply List.Forall_rev).
    simpl. by rewrite Hrole, Hmatch. }
  split; [done|]. unfold weather.resolveLocation. rewrite Hloc, Hs.
  simpl. by rewrite Hrole, Hmatch.
Qed.

Lemma weather_newest_match_decides_witness :
  let m := fixtures.user "weather in Rome" in
  let conv := {| model.Messages :=
                   [fixtures.user "weather in Paris"; m; fixtures.user "thanks"] |} in
  weather.scan (rev (model.Messages conv)) = strings.TrimSpace (str "Rome") /\
  weather.resolveLocation fixtures.weatherEnv conv {| weather.Location := [] |}
  = weather.resolveLocation fixtures.weatherEnv {| model.Messages := [m] |}
      {| weather.Location := [] |}.
Proof.
  intros m conv.
  apply (weather_newest_match_decides fixtures.weatherEnv conv
           {| weather.Location := [] |} [fixtures.user "weather in Paris"] m
           [fixtures.user "thanks"] (str "weather in Rome") (str "Rome")).
  - reflexivity.
  - reflexivity.
  - reflexivity.
  - vm_compute. reflexivity.
  - apply Forall_cons_2; [|apply Forall_nil_2]. intros _. vm_compute. reflexivity.
Defined.

(** The order of the fallbacks: a location argument that is not blank
    is used, trimmed, whatever the conversation and the environment
    hold; with a blank argument and no matching user message the
    configured default is used; without a default the call fails with
    "location required" and sends no lookup. *)
Theorem weather_location_fallback {W float} Getenv fmt_f0
    (provider : gostring -> gostring -> W ->
                result gostring (@weather.CurrentWeather float) * W)
    conv p st :
  (strings.TrimSpace (weather.Location p) <> [] ->
   weather.resolveLocation Getenv conv p
   = Ok (strings.TrimSpace (weather.Location p))) /\
  (strings.TrimSpace (weather.Location p) = [] ->
   Forall captures.unmatched (model.Messages conv) ->
   (Getenv (str "WEATHER_DEFAULT_LOCATION") <> [] ->
    weather.resolveLocation Getenv conv p
    = Ok (Getenv (str "WEATHER_DEFAULT_LOCATION"))) /\
   (Getenv (str "WEATHER_DEFAULT_LOCATION") = [] ->
    weather.Execute Getenv fmt_f0 provider conv (Ok p) st
    = (Err weather.ErrLocationRequired, st))).
Proof.
  split.
  - intros Hne. unfold weather.resolveLocation.
    repeat (case_decide; try done).
  - intros Hloc Hun.
    assert (weather.scan (rev (model.Messages conv)) = []) as Hs.
    { rewrite <- (app_nil_r (rev _)).
      by rewrite scan_unmatched by (by apply List.Forall_rev). }
    split; intros Hd.
    + unfold weather.resolveLocation. rewrite Hloc, Hs.
      repeat (case_decide; try done).
    + unfold weather.Execute, weather.resolveLocation. rewrite Hloc, Hs, Hd.
      repeat (case_decide; try done).
Qed.

Lemma weather_location_fallback_witness :
  weather.resolveLocation fixtures.weatherEnv fixtures.conv1
    {| weather.Location := str " Girona " |} = Ok (str "Girona") /\
  weather.resolveLocation fixtures.weatherEnv
    {| model.Messages := [fixtures.user "Will it rain?"] |}
    {| weather.Location := [] |} = Ok (str "Barcelona").
Proof.
  split.
  - apply (proj1 (weather_location_fallback fixtures.weatherEnv time.itoa
             fixtures.sunny fixtures.conv1 {| weather.Location := str " Girona " |}
             fixtures.weatherSt0)).
    vm_compute. discriminate.
  - apply (proj2 (weather_location_fallback fixtures.weatherEnv time.itoa
             fixtures.sunny {| model.Messages := [fixtures.user "Will it rain?"] |}
             {| weather.Location := [] |} fixtures.weatherSt0)).
    + reflexivity.
    + apply Forall_cons_2; [|apply Forall_nil_2]. intros _. vm_compute. reflexivity.
    + vm_compute. discriminate.
Defined.

(** [Execute] sends at most one lookup, and only with a non-empty API
    key and the non-empty location it resolved; every other outcome is
    an error that leaves the provider untouched.  A successful call
    has sent exactly that lookup. *)
Theorem weather_lookup_discipline {W float} Getenv fmt_f0
    (provider : gostring -> gostring -> W ->
                result gostring (@weather.CurrentWeather float) * W)
    conv args st r st' :
  weather.Execute Getenv fmt_f0 provider conv args st = (r, st') ->
  ((exists e, r = Err e) /\ st' = st) \/
  (exists p location,
     args = Ok p /\
     weather.resolveLocation Getenv conv p = Ok location /\
     location <> [] /\ Getenv (str "WEATHER_API_KEY") <> [] /\
     weather.lookups st'
     = weather.lookups st ++ [(Getenv (str "WEATHER_API_KEY"), location)]).
Proof.
  unfold weather.Execute. destruct args as [p|err].
  2: { intros [= <- <-]. left. eauto. }
  destruct (weather.resolveLocation Getenv conv p) as [location|e] eqn:Hr.
  2: { intros [= <- <-]. left. eauto. }
  assert (location <> []) as Hne.
  { revert Hr. unfold weather.resolveLocation.
    destruct (decide (_ = [])) as [|Hn]; [done|]. by intros [= <-]. }
  unfold weather.FetchCurrentWeather.
  destruct (decide (Getenv (str "WEATHER_API_KEY") = [])) as [Hk|Hk].
  { intros [= <- <-]. left. eauto. }
  rewrite decide_False by done.
  destruct (provider _ _ _) as [[cw|err] w]; intros [= <- <-];
    right; exists p, location; done.
Qed.

Lemma weather_lookup_discipline_witness :
  let run := weather.Execute fixtures.weatherEnv time.itoa fixtures.sunny
               fixtures.parisConv (Ok {| weather.Location := [] |})
               fixtures.weatherSt0 in
  ((exists e, fst run = Err e) /\ snd run = fixtures.weatherSt0) \/
  (exists p location,
     @Ok gostring _ {| weather.Location := [] |} = Ok p /\
     weather.resolveLocation fixtures.weatherEnv fixtures.parisConv p = Ok location /\
     location <> [] /\ fixtures.weatherEnv (str "WEATHER_API_KEY") <> [] /\
     weather.lookups (snd run)
     = weather.lookups fixtures.weatherSt0 ++
       [(fixtures.weatherEnv (str "WEATHER_API_KEY"), location)]).
Proof.
  intros run.
  apply (weather_lookup_discipline fixtures.weatherEnv time.itoa fixtures.sunny
           fixtures.parisConv (Ok {| weather.Location := [] |}) fixtures.weatherSt0
           (fst run) (snd run)).
  apply surjective_pairing.
Defined.

(** ** More of the flight-price tool *)

(** A required argument that is blank after the normalisation fails
    the call with its own error before anything else happens: origin
    first, then destination, then departure date, whether or not the
    credentials are configured, and no request is sent. *)
Theorem flights_required_arguments {W} Getenv mapToUpper
    (tokenEndpoint : gostring -> gostring -> W -> result gostring gostring * W)
    (offersEndpoint :
       gostring -> gostring -> gostring -> gostring -> Z -> W ->
       result gostring (list flights.FlightDestination) * W)
    p (st : @flights.State W) :
  let origin := strings.TrimSpace (flights.ToUpper mapToUpper (flights.Origin p)) in
  let destination :=
    strings.TrimSpace (flights.ToUpper mapToUpper (flights.Destination p)) in
  let departureDate := strings.TrimSpace (flights.DepartureDate p) in
  let run := flights.Execute Getenv mapToUpper tokenEndpoint offersEndpoint (Ok p) st in
  (origin = [] -> run = (Err flights.ErrOriginRequired, st)) /\
  (origin <> [] -> destination = [] ->
   run = (Err flights.ErrDestinationRequired, st)) /\
  (origin <> [] -> destination <> [] -> departureDate = [] ->
   run = (Err flights.ErrDepartureDateRequired, st)).
Proof.
  simpl. unfold flights.Execute. repeat split; intros;
    repeat (case_decide; try done).
Qed.

Lemma flights_required_arguments_witness :
  flights.Execute (fun _ => str "configured") id fixtures.tokenOk fixtures.noOffers
    (Ok fixtures.blankOrigin) fixtures.flightsSt0
  = (Err flights.ErrOriginRequired, fixtures.flightsSt0).
Proof.
  apply (flights_required_arguments (fun _ => str "configured") id fixtures.tokenOk
           fixtures.noOffers fixtures.blankOrigin fixtures.flightsSt0).
  reflexivity.
Defined.

(** The requests of one call are none, the token request alone, or the
    token request followed by one offer search.  The token request
    carries the two configured credentials, both non-empty; the offer
    search carries the token the provider returned and the normalised,
    non-empty origin, destination and date; and a call that succeeds
    has sent both. *)
Theorem flights_request_sequence {W} Getenv mapToUpper
    (tokenEndpoint : gostring -> gostring -> W -> result gostring gostring * W)
    (offersEndpoint :
       gostring -> gostring -> gostring -> gostring -> Z -> W ->
       result gostring (list flights.FlightDestination) * W)
    args (st : @flights.State W) r st' :
  flights.Execute Getenv mapToUpper tokenEndpoint offersEndpoint args st = (r, st') ->
  let key := Getenv (str "AMADEUS_API_KEY") in
  let secret := Getenv (str "AMADEUS_API_SECRET") in
  ((exists e, r = Err e) /\ st' = st) \/
  ((exists e, r = Err e) /\ key <> [] /\ secret <> [] /\
   flights.requests st' = flights.requests st ++ [flights.TokenRequest key secret]) \/
  (exists p token,
     args = Ok p /\ key <> [] /\ secret <> [] /\ token <> [] /\
     strings.TrimSpace (flights.ToUpper mapToUpper (flights.Origin p)) <> [] /\
     strings.TrimSpace (flights.ToUpper mapToUpper (flights.Destination p)) <> [] /\
     strings.TrimSpace (flights.DepartureDate p) <> [] /\
     flights.requests st'
     = flights.requests st ++
       [flights.TokenRequest key secret;
        flights.OfferSearch token
          (strings.TrimSpace (flights.ToUpper mapToUpper (flights.Origin p)))
          (strings.TrimSpace (flights.ToUpper mapToUpper (flights.Destination p)))
          (strings.TrimSpace (flights.DepartureDate p))
          (flights.MaxPrice p)]).
Proof.
  simpl. unfold flights.Execute. destruct args as [p|err].
  2: { intros [= <- <-]. left. eauto. }
  destruct (decide (strings.TrimSpace (flights.ToUpper mapToUpper (flights.Origin p)) = []))
    as [|Ho]. { intros [= <- <-]. left. eauto. }
  destruct (decide (strings.TrimSpace (flights.ToUpper mapToUpper (flights.Destination p)) = []))
    as [|Hd]. { intros [= <- <-]. left. eauto. }
  destruct (decide (strings.TrimSpace (flights.DepartureDate p) = []))
    as [|Hdate]. { intros [= <- <-]. left. eauto. }
  destruct (bool_decide (Getenv (str "AMADEUS_API_KEY") = [])
            || bool_decide (Getenv (str "AMADEUS_API_SECRET") = [])) eqn:Hc.
  { intros [= <- <-]. left. eauto. }
  apply orb_false_iff in Hc as [Hk Hs].
  apply bool_decide_eq_false in Hk, Hs.
  unfold flights.FetchAmadeusToken. rewrite !decide_False by done.
  destruct (tokenEndpoint _ _ _) as [[token|err] w1].
  2: { intros [= <- <-]. right. left. simpl. eauto. }
  unfold flights.FetchFlightDestinations. cbn [flights.world flights.requests].
  destruct (decide (token = [])) as [|Ht].
  { intros [= <- <-]. right. left. simpl. eauto. }
  rewrite !decide_False by done.
  destruct (offersEndpoint _ _ _ _ _ _) as [[fs|err] w2].
  - intros Hrun. right. right. exists p, token.
    assert (flights.requests st' = (flights.requests st ++
              [flights.TokenRequest (Getenv (str "AMADEUS_API_KEY"))
                 (Getenv (str "AMADEUS_API_SECRET"))]) ++
              [flights.OfferSearch token
                 (strings.TrimSpace (flights.ToUpper mapToUpper (flights.Origin p)))
                 (strings.TrimSpace (flights.ToUpper mapToUpper (flights.Destination p)))
                 (strings.TrimSpace (flights.DepartureDate p)) (flights.MaxPrice p)])
      as E by (destruct fs; by injection Hrun as _ <-).
    rewrite E, <- app_assoc. done.
  - intros [= <- <-]. right. right. exists p, token. simpl.
    rewrite <- app_assoc. done.
Qed.

Lemma flights_request_sequence_witness :
  let run := flights.Execute (fun _ => str "configured") id fixtures.tokenOk
               fixtures.noOffers (Ok fixtures.bcnMad) fixtures.flightsSt0 in
  let key := str "configured" in
  let secret := str "configured" in
  ((exists e, fst run = Err e) /\ snd run = fixtures.flightsSt0) \/
  ((exists e, fst run = Err e) /\ key <> [] /\ secret <> [] /\
   flights.requests (snd run)
   = flights.requests fixtures.flightsSt0 ++ [flights.TokenRequest key secret]) \/
  (exists p token,
     @Ok gostring _ fixtures.bcnMad = Ok p /\ key <> [] /\ secret <> [] /\ token <> [] /\
     strings.TrimSpace (flights.ToUpper id (flights.Origin p)) <> [] /\
     strings.TrimSpace (flights.ToUpper id (flights.Destination p)) <> [] /\
     strings.TrimSpace (flights.DepartureDate p) <> [] /\
     flights.requests (snd run)
     = flights.requests fixtures.flightsSt0 ++
       [flights.TokenRequest key secret;
        flights.OfferSearch token
          (strings.TrimSpace (flights.ToUpper id (flights.Origin p)))
          (strings.TrimSpace (flights.ToUpper id (flights.Destination p)))
          (strings.TrimSpace (flights.DepartureDate p))
          (flights.MaxPrice p)]).
Proof.
  intros run key secret.
  apply (flights_request_sequence (fun _ => str "configured") id fixtures.tokenOk
           fixtures.noOffers (Ok fixtures.bcnMad) fixtures.flightsSt0
           (fst run) (snd run)).
  apply surjective_pairing.
Defined.

(** ** The forecast tool *)

(** What the forecast pattern takes for the location: the text after
    "in", or else the text before "forecast". *)
Example forecast_extraction_samples :
  let find s := syntax.FindStringSubmatch forecast.forecastFor 2 (str s) in
  find "forecast in Paris?" = [str "forecast in Paris"; str "Paris"; []] /\
  find "Barcelona forecast please" = [str "Barcelona forecast"; []; str "Barcelona"] /\
  find "3-day forecast for Barcelona" = [str "3-day forecast"; []; str "3-day"] /\
  find "How warm is it" = [] /\
  forecast.scan [fixtures.user "3-day forecast for Barcelona"] = str "3-day".
Proof. repeat split; vm_compute; reflexivity. Qed.

Example Atoi_samples :
  strconv.Atoi (str "5") = Some 5%Z /\ strconv.Atoi (str "-12") = Some (-12)%Z /\
  strconv.Atoi (str "+7") = Some 7%Z /\ strconv.Atoi (str "") = None /\
  strconv.Atoi (str "-") = None /\ strconv.Atoi (str "3 days") = None /\
  strconv.Atoi (str "9223372036854775807") = Some 9223372036854775807%Z /\
  strconv.Atoi (str "9223372036854775808") = None.
Proof. repeat split; vm_compute; reflexivity. Qed.

Lemma resolveDays_bounds Getenv p :
  (1 <= forecast.resolveDays Getenv p <= 7)%Z.
Proof.
  unfold forecast.resolveDays.
  destruct (decide (_ = [])); [|destruct (strconv.Atoi _) as [k|]];
    repeat match goal with
    | |- context [(?a <=? ?b)%Z] => destruct (Z.leb_spec a b)
    | |- context [(?a <? ?b)%Z] => destruct (Z.ltb_spec a b)
    end; lia.
Qed.

(** The number of days is always between 1 and 7.  A positive argument
    is used, capped at 7, and the environment is not read; otherwise
    the trimmed WEATHER_FORECAST_DAYS counts when it is a positive
    integer, capped at 7 as well, and three days are taken when it is
    unset, not an integer or not positive. *)
Theorem forecast_days_clamped Getenv p :
  (1 <= forecast.resolveDays Getenv p <= 7)%Z /\
  ((0 < forecast.Days p)%Z ->
   forecast.resolveDays Getenv p = Z.min (forecast.Days p) 7) /\
  ((forecast.Days p <= 0)%Z ->
   forecast.resolveDays Getenv p
   = match strconv.Atoi (strings.TrimSpace (Getenv (str "WEATHER_FORECAST_DAYS"))) with
     | Some n => if (0 <? n)%Z then Z.min n 7 else 3%Z
     | None => 3%Z
     end).
Proof.
  unfold forecast.resolveDays.
  set (v := strings.TrimSpace (Getenv (str "WEATHER_FORECAST_DAYS"))).
  assert (Hnil : v = [] -> strconv.Atoi v = None) by (by intros ->).
  destruct (decide (v = [])) as [Hv|Hv]; [rewrite (Hnil Hv)|];
    destruct (strconv.Atoi v) as [n|];
    repeat match goal with
    | |- context [(?a <=? ?b)%Z] => destruct (Z.leb_spec a b)
    | |- context [(?a <? ?b)%Z] => destruct (Z.ltb_spec a b)
    | H : context [(?a <=? ?b)%Z] |- _ => destruct (Z.leb_spec a b)
    | H : context [(?a <? ?b)%Z] |- _ => destruct (Z.ltb_spec a b)
    end; try discriminate; repeat split; intros;
    repeat match goal with
    | H : context [(?a <? ?b)%Z] |- _ => destruct (Z.ltb_spec a b)
    end; try lia.
Qed.

Lemma forecast_days_clamped_witness :
  forecast.resolveDays fixtures.forecastEnv
    {| forecast.Location := []; forecast.Days := 30 |} = Z.min 30 7 /\
  forecast.resolveDays fixtures.forecastEnv
    {| forecast.Location := []; forecast.Days := 0 |} = 5%Z.
Proof.
  split.
  - apply (forecast_days_clamped fixtures.forecastEnv
             {| forecast.Location := []; forecast.Days := 30 |}). simpl. lia.
  - apply (proj2 (proj2 (forecast_days_clamped fixtures.forecastEnv
             {| forecast.Location := []; forecast.Days := 0 |}))). simpl. lia.
Defined.

(** [Execute] sends at most one lookup, with a non-empty API key, the
    non-empty location it resolved and a number of days between 1 and
    7; every other outcome is an error that leaves the provider
    untouched. *)
Theorem forecast_lookup_discipline {W float} Getenv fmt_f0
    (provider : gostring -> gostring -> Z -> W ->
                result gostring (list (@forecast.ForecastDay float)) * W)
    conv args st r st' :
  forecast.Execute Getenv fmt_f0 provider conv args st = (r, st') ->
  ((exists e, r = Err e) /\ st' = st) \/
  (exists p location days,
     args = Ok p /\
     forecast.resolveLocation Getenv conv p = Ok location /\
     location <> [] /\ Getenv (str "WEATHER_API_KEY") <> [] /\
     days = forecast.resolveDays Getenv p /\ (1 <= days <= 7)%Z /\
     forecast.lookups st'
     = forecast.lookups st ++ [(Getenv (str "WEATHER_API_KEY"), location, days)]).
Proof.
  unfold forecast.Execute. destruct args as [p|err].
  2: { intros [= <- <-]. left. eauto. }
  destruct (forecast.resolveLocation Getenv conv p) as [location|e] eqn:Hr.
  2: { intros [= <- <-]. left. eauto. }
  assert (location <> []) as Hne.
  { revert Hr. unfold forecast.resolveLocation.
    destruct (decide (_ = [])) as [|Hn]; [done|]. by intros [= <-]. }
  pose proof (resolveDays_bounds Getenv p) as Hdays.
  unfold forecast.FetchForecast.
  destruct (decide (Getenv (str "WEATHER_API_KEY") = [])) as [Hk|Hk].
  { intros [= <- <-]. left. eauto. }
  rewrite decide_False by done.
  replace (forecast.resolveDays Getenv p <=? 0)%Z with false
    by (symmetry; apply Z.leb_gt; lia).
  destruct (provider _ _ _ _) as [[fds|err] w]; intros [= <- <-];
    right; exists p, location, (forecast.resolveDays Getenv p); done.
Qed.

Lemma forecast_lookup_discipline_witness :
  let run := forecast.Execute fixtures.forecastEnv time.itoa fixtures.noForecast
               fixtures.conv1
               (Ok {| forecast.Location := str "Girona"; forecast.Days := 30 |})
               fixtures.forecastSt0 in
  ((exists e, fst run = Err e) /\ snd run = fixtures.forecastSt0) \/
  (exists p location days,
     @Ok gostring _ {| forecast.Location := str "Girona"; forecast.Days := 30 |} = Ok p /\
     forecast.resolveLocation fixtures.forecastEnv fixtures.conv1 p = Ok location /\
     location <> [] /\ fixtures.forecastEnv (str "WEATHER_API_KEY") <> [] /\
     days = forecast.resolveDays fixtures.forecastEnv p /\ (1 <= days <= 7)%Z /\
     forecast.lookups (snd run)
     = forecast.lookups fixtures.forecastSt0 ++
       [(fixtures.forecastEnv (str "WEATHER_API_KEY"), location, days)]).
Proof.
  intros run.
  apply (forecast_lookup_discipline fixtures.forecastEnv time.itoa
           fixtures.noForecast fixtures.conv1
           (Ok {| forecast.Location := str "Girona"; forecast.Days := 30 |})
           fixtures.forecastSt0 (fst run) (snd run)).
  apply surjective_pairing.
Defined.

(** ** The evaluation runner *)

Section runner_lemmas.

Context {W V float metrics : Type}.
Context (fzero : float) (fadd fdiv : float -> float -> float).
Context (float_of_len : nat -> float).
Context (at_least_70_percent : float -> bool).
Context (no_metrics : metrics).
Context (sub_results : list (@eval.EvalResult float metrics) -> metrics).

Implicit Types (a : assistant.Assistant W) (st : assistant.State W) (v : V).
Implicit Types (evaluators : list (@eval.Evaluator V float metrics)).
Implicit Types (testCase : eval.TestCase) (testCases : list eval.TestCase).
Implicit Types (result : @eval.TestResult float metrics).

Lemma evaluateAll_length evaluators testCase actual v :
  length (fst (eval.evaluateAll evaluators testCase actual v)) = length evaluators.
Proof.
  revert v. induction evaluators as [|e rest IH]; intros v; simpl; [done|].
  destruct (eval.Evaluate e testCase actual v) as [r v1].
  specialize (IH v1). destruct (eval.evaluateAll rest testCase actual v1).
  simpl in *. by rewrite IH.
Qed.

(** What the loop body yields for one test case: one completion call,
    and either the evaluated title or the failed result. *)
Lemma resultOf_spec a evaluators testCase st v result st' v' :
  eval.resultOf fzero no_metrics a evaluators testCase st v = (result, st', v') ->
  let conv :=
    {| model.Messages :=
         [{| model.Role_ := model.RoleUser;
             model.Content := eval.Message (eval.Input_ testCase) |}] |} in
  eval.TestCase_ result = testCase /\
  assistant.completions st' = S (assistant.completions st) /\
  transcript.executions (assistant.trace st')
    = transcript.executions (assistant.trace st) /\
  length (eval.Title (eval.Actual result)) <= 80 /\
  (assistant.newline ∉ eval.Title (eval.Actual result)) /\
  (forall title, fst (assistant.Title a conv st) = Ok title ->
     eval.Actual result = {| eval.Title := title; eval.Error := None |} /\
     (eval.EvalResults result, v')
     = eval.evaluateAll evaluators testCase
         {| eval.Title := title; eval.Error := None |} v /\
     eval.OverallPass result = forallb eval.Passed (eval.EvalResults result)) /\
  (forall err, fst (assistant.Title a conv st) = Err err ->
     eval.OverallPass result = false /\ v' = v /\
     eval.Title (eval.Actual result) = [] /\
     eval.Error (eval.Actual result)
     = Some (str "title generation failed: " ++ assistant.Error err) /\
     length (eval.EvalResults result) = 1).
Proof.
  unfold eval.resultOf, eval.runTestCase. cbv zeta.
  set (conv := {| model.Messages := _ |}).
  destruct (Title_appends_one_request a conv st _ [] eq_refl) as (r & w & Ht).
  pose proof (Title_guarantees a conv st) as Hg.
  rewrite Ht in *. cbn [fst].
  assert (assistant.completions
            {| assistant.world := w;
               assistant.trace := assistant.trace st ++
                 [assistant.EvCompletion
                    (assistant.titleParams (eval.Message (eval.Input_ testCase)))] |}
          = S (assistant.completions st)) as Hc
    by apply completions_snoc_completion.
  destruct r as [title|err].
  - destruct (eval.evaluateAll evaluators testCase _ v) as [evalResults v1] eqn:E.
    intros [= <- <- <-]; cbn.
    destruct (Hg title _ eq_refl) as (Hlen & Hnl & _).
    rewrite executions_app, app_nil_r.
    repeat split; try done;
      match goal with H : Ok _ = Ok _ |- _ => injection H as <- end; congruence.
  - intros [= <- <- <-]; cbn.
    rewrite executions_app, app_nil_r.
    repeat split; try done; try lia; try apply not_elem_of_nil;
      match goal with H : Err _ = Err _ |- _ => injection H as <- end; done.
Qed.

Lemma runAll_spec a evaluators testCases report st v report' st' v' :
  eval.runAll fzero no_metrics a evaluators testCases report st v
    = (report', st', v') ->
  exists results,
    eval.TestResults report' = eval.TestResults report ++ results /\
    eval.TotalTests report' = eval.TotalTests report /\
    map eval.TestCase_ results = testCases /\
    eval.PassedTests report'
      = eval.PassedTests report + length (List.filter eval.OverallPass results) /\
    eval.PassedTests report' + eval.FailedTests report'
      = eval.PassedTests report + eval.FailedTests report + length testCases /\
    assistant.completions st' = assistant.completions st + length testCases /\
    transcript.executions (assistant.trace st')
      = transcript.executions (assistant.trace st) /\
    Forall (fun result =>
              length (eval.Title (eval.Actual result)) <= 80 /\
              assistant.newline ∉ eval.Title (eval.Actual result)) results.
Proof.
  revert report st v. induction testCases as [|testCase rest IH];
    intros report st v; simpl.
  - intros [= <- <- <-]. exists []. rewrite app_nil_r. simpl.
    repeat split; try done; try lia.
  - destruct (eval.resultOf fzero no_metrics a evaluators testCase st v)
      as [[result st1] v1] eqn:E.
    apply resultOf_spec in E as (Htc & Hc & Hex & Hlen & Hnl & _).
    intros H. apply IH in H as (results & Hres & Htot & Hmap & Hp & Hpf & Hc' & Hex' & Hall).
    cbn in Hres, Htot, Hp, Hpf.
    exists (result :: results). rewrite Hres, <- app_assoc. simpl.
    rewrite Htc, Hmap, Hc', Hex', Hc, Hex.
    repeat split; try done; try (constructor; done);
      destruct (eval.OverallPass result); simpl; lia.
Qed.

(** The states after the loop do not depend on the report. *)
Lemma runAll_states a evaluators testCases report report' st v :
  snd (fst (eval.runAll fzero no_metrics a evaluators testCases report st v))
  = snd (fst (eval.runAll fzero no_metrics a evaluators testCases report' st v)) /\
  snd (eval.runAll fzero no_metrics a evaluators testCases report st v)
  = snd (eval.runAll fzero no_metrics a evaluators testCases report' st v).
Proof.
  revert report report' st v.
  induction testCases as [|testCase rest IH]; intros report report' st v; [done|].
  simpl. destruct (eval.resultOf fzero no_metrics a evaluators testCase st v)
    as [[result st1] v1]. apply IH.
Qed.

(** A test case whose title generation fails, in the state the loop
    has reached, gets the failed result at its index. *)
Lemma runAll_failed_generation a evaluators testCases report st v report' st' v' :
  eval.runAll fzero no_metrics a evaluators testCases report st v
    = (report', st', v') ->
  forall before testCase after err,
    testCases = before ++ testCase :: after ->
    fst (assistant.Title a (eval.conversationOf testCase)
           (snd (fst (eval.runAll fzero no_metrics a evaluators before report st v))))
      = Err err ->
    exists result,
      eval.TestResults report' !! (length (eval.TestResults report) + length before)
        = Some result /\
      eval.TestCase_ result = testCase /\
      eval.OverallPass result = false /\
      eval.Title (eval.Actual result) = [] /\
      eval.Error (eval.Actual result)
      = Some (str "title generation failed: " ++ assistant.Error err).
Proof.
  revert report st v. induction testCases as [|testCase0 rest IH];
    intros report st v Hrun before testCase after err Hsplit Herr.
  - by destruct before.
  - simpl in Hrun.
    destruct (eval.resultOf fzero no_metrics a evaluators testCase0 st v)
      as [[result st1] v1] eqn:E.
    destruct before as [|t0 before]; simplify_eq/=.
    + apply runAll_spec in Hrun as (results & Hres & _).
      cbn in Hres. apply resultOf_spec in E as (Htc & _ & _ & _ & _ & _ & Hfail).
      destruct (Hfail err Herr) as (Hp & _ & Ht & He & _).
      exists result. rewrite Hres, Nat.add_0_r, <- app_assoc.
      split; [by apply list_lookup_middle|done].
    + rewrite E in Herr.
      destruct (IH _ _ _ Hrun before testCase after err eq_refl) as (r & Hl & Hr).
      { by erewrite (proj1 (runAll_states a evaluators before _ _ st1 v1)). }
      exists r. split; [|done]. cbn in Hl. rewrite length_app in Hl. simpl in Hl.
      by replace (length (eval.TestResults report) + S (length before))
        with (length (eval.TestResults report) + 1 + length before) by lia.
Qed.

End runner_lemmas.

(** The report of [Run] has one result per test case, in the order of
    the test cases; the passed and failed counts add up to the total,
    and the passed count is the number of results that pass.  A title
    generation that fails does not stop the run: its test case gets a
    result that does not pass and records the error, so it is counted
    as failed, and the test cases behind it are run. *)
Theorem Run_report_counts {W V float metrics} fzero fadd fdiv float_of_len
    (no_metrics : metrics) (a : assistant.Assistant W)
    (evaluators : list (@eval.Evaluator V float metrics)) testCases st v
    report st' v' :
  eval.Run fzero fadd fdiv float_of_len no_metrics a evaluators testCases st v
    = (report, st', v') ->
  eval.TotalTests report = length testCases /\
  map eval.TestCase_ (eval.TestResults report) = testCases /\
  eval.PassedTests report
    = length (List.filter eval.OverallPass (eval.TestResults report)) /\
  eval.PassedTests report + eval.FailedTests report = eval.TotalTests report /\
  (forall before testCase after err,
     testCases = before ++ testCase :: after ->
     fst (assistant.Title a (eval.conversationOf testCase)
            (snd (fst (eval.Run fzero fadd fdiv float_of_len no_metrics a
                         evaluators before st v))))
       = Err err ->
     exists result,
       eval.TestResults report !! length before = Some result /\
       eval.TestCase_ result = testCase /\
       eval.OverallPass result = false /\
       eval.Title (eval.Actual result) = [] /\
       eval.Error (eval.Actual result)
       = Some (str "title generation failed: " ++ assistant.Error err) /\
       0 < eval.FailedTests report).
Proof.
  unfold eval.Run.
  destruct (eval.runAll _ _ _ _ testCases _ _ _) as [[report0 st0] v0] eqn:E.
  pose proof E as (results & Hres & Htot & Hmap & Hp & Hpf & _)%runAll_spec.
  intros [= <- <- <-]. cbn in Hres, Htot, Hp, Hpf |- *.
  rewrite Hres, Htot, Hp, Hmap.
  split; [done|]. split; [done|]. split; [done|]. split; [lia|].
  intros before testCase after err Hsplit Herr.
  destruct (eval.runAll _ _ _ _ before _ _ _) as [[reportb stb] vb] eqn:Eb.
  cbn in Herr.
  destruct (runAll_failed_generation fzero no_metrics a evaluators testCases _ st v
              report0 st0 v0 E before testCase after err Hsplit) as (result & Hl & Htc & Hpass & Ht & He).
  { erewrite (proj1 (runAll_states fzero no_metrics a evaluators before _ _ st v)).
    by rewrite Eb. }
  cbn in Hl. rewrite Hres in Hl. exists result. repeat split; try done.
  pose proof (list_elem_of_lookup_2 _ _ _ Hl) as Hin.
  assert (length (List.filter eval.OverallPass results) < length results) as Hlt.
  { clear -Hin Hpass. induction results as [|r rs IH]; [by apply elem_of_nil in Hin|].
    simpl. apply elem_of_cons in Hin as [<-|Hin].
    - rewrite Hpass. pose proof (List.filter_length_le eval.OverallPass rs). lia.
    - specialize (IH Hin). destruct (eval.OverallPass r); simpl; lia. }
  rewrite <- Hmap, length_map in Hpf. lia.
Qed.

Lemma Run_report_counts_witness :
  let report := fst (fst (eval.Run 0 Nat.add Nat.div id tt fixtures.moody
                            [fixtures.shortTitle] fixtures.twoCases fixtures.st0 0)) in
  (eval.TotalTests report = 2 /\ eval.PassedTests report = 1 /\
   eval.FailedTests report = 1) /\
  exists result,
    eval.TestResults report !! 1 = Some result /\
    eval.TestCase_ result = fixtures.testCaseOf "t2" "Hi" /\
    eval.OverallPass result = false /\
    eval.Title (eval.Actual result) = [] /\
    eval.Error (eval.Actual result)
    = Some (str "title generation failed: service unavailable") /\
    0 < eval.FailedTests report.
Proof.
  intros report. split; [by vm_compute|].
  apply (proj2 (proj2 (proj2 (proj2
           (Run_report_counts 0 Nat.add Nat.div id tt fixtures.moody
              [fixtures.shortTitle] fixtures.twoCases fixtures.st0 0 report
              _ _ eq_refl))))
           [fixtures.testCaseOf "t1" "What is the weather like in Barcelona?"]
           (fixtures.testCaseOf "t2" "Hi") []
           (assistant.ErrCompletion (str "service unavailable"))).
  - reflexivity.
  - vm_compute. reflexivity.
Defined.

(** [Run] asks the assistant for exactly one completion per test case,
    whatever the evaluators do, and never executes a tool; every title
    it records, also the empty one of a failed generation, has at most
    80 bytes and no newline. *)
Theorem Run_one_completion_per_test_case {W V float metrics} fzero fadd fdiv
    float_of_len (no_metrics : metrics) (a : assistant.Assistant W)
    (evaluators : list (@eval.Evaluator V float metrics)) testCases st v
    report st' v' :
  eval.Run fzero fadd fdiv float_of_len no_metrics a evaluators testCases st v
    = (report, st', v') ->
  assistant.completions st' = assistant.completions st + length testCases /\
  transcript.executions (assistant.trace st')
    = transcript.executions (assistant.trace st) /\
  Forall (fun result =>
            length (eval.Title (eval.Actual result)) <= 80 /\
            assistant.newline ∉ eval.Title (eval.Actual result))
    (eval.TestResults report).
Proof.
  unfold eval.Run.
  destruct (eval.runAll _ _ _ _ _ _ _ _) as [[report0 st0] v0] eqn:E.
  apply runAll_spec in E as (results & Hres & _ & _ & _ & _ & Hc & Hex & Hall).
  intros [= <- <- <-]. cbn in *. by subst.
Qed.

Lemma Run_one_completion_per_test_case_witness :
  let run := eval.Run 0 Nat.add Nat.div id tt
               (fixtures.answering (str "Weather in Barcelona"))
               [fixtures.shortTitle] fixtures.twoCases fixtures.st0 0 in
  assistant.completions (snd (fst run))
    = assistant.completions fixtures.st0 + length fixtures.twoCases /\
  transcript.executions (assistant.trace (snd (fst run)))
    = transcript.executions (assistant.trace fixtures.st0) /\
  Forall (fun result =>
            length (eval.Title (eval.Actual result)) <= 80 /\
            assistant.newline ∉ eval.Title (eval.Actual result))
    (eval.TestResults (fst (fst run))).
Proof.
  intros run.
  apply (Run_one_completion_per_test_case 0 Nat.add Nat.div id tt
           (fixtures.answering (str "Weather in Barcelona"))
           [fixtures.shortTitle] fixtures.twoCases fixtures.st0 0
           (fst (fst run)) (snd (fst run)) (snd run)).
  reflexivity.
Defined.

(** A test case passes overall exactly when its title was generated
    and every evaluator, run in order on that title, passes it; there
    is then one evaluation result per evaluator.  With no evaluator at
    all every generated title passes.  A failed title generation gives
    a failing result that records the error, and runs no evaluator. *)
Theorem test_case_pass_criterion {W V float metrics} fzero
    (no_metrics : metrics) (a : assistant.Assistant W)
    (evaluators : list (@eval.Evaluator V float metrics)) testCase st v
    result st' v' :
  eval.resultOf fzero no_metrics a evaluators testCase st v = (result, st', v') ->
  let conv :=
    {| model.Messages :=
         [{| model.Role_ := model.RoleUser;
             model.Content := eval.Message (eval.Input_ testCase) |}] |} in
  (eval.OverallPass result = true <->
   exists title,
     fst (assistant.Title a conv st) = Ok title /\
     Forall (fun r => eval.Passed r = true)
       (fst (eval.evaluateAll evaluators testCase
               {| eval.Title := title; eval.Error := None |} v))) /\
  (forall title, fst (assistant.Title a conv st) = Ok title ->
     eval.Actual result = {| eval.Title := title; eval.Error := None |} /\
     length (eval.EvalResults result) = length evaluators /\
     (evaluators = [] -> eval.OverallPass result = true)) /\
  (forall err, fst (assistant.Title a conv st) = Err err ->
     eval.OverallPass result = false /\ v' = v /\
     eval.Error (eval.Actual result)
     = Some (str "title generation failed: " ++ assistant.Error err)).
Proof.
  intros E conv.
  apply resultOf_spec in E as (_ & _ & _ & _ & _ & Hok & Herr). fold conv in Hok, Herr.
  split; [|split].
  - split.
    + intros Hp. destruct (fst (assistant.Title a conv st)) as [title|err] eqn:Ht.
      * destruct (Hok title eq_refl) as (_ & Hres & Hpass). exists title.
        split; [done|]. rewrite <- Hres. cbn [fst].
        rewrite Hpass in Hp. apply Forall_forall. intros r Hr.
        apply (proj1 (forallb_forall _ _) Hp). by apply list_elem_of_In.
      * destruct (Herr err eq_refl) as (Hf & _). congruence.
    + intros (title & Ht & Hall). destruct (Hok title Ht) as (_ & Hres & Hpass).
      rewrite Hpass. rewrite <- Hres in Hall. cbn [fst] in Hall.
      apply (proj2 (forallb_forall _ _)). intros r Hr.
      rewrite Forall_forall in Hall. apply Hall. by apply list_elem_of_In.
  - intros title Ht. destruct (Hok title Ht) as (Hact & Hres & Hpass).
    split; [done|]. split.
    + rewrite <- (evaluateAll_length evaluators testCase
                    {| eval.Title := title; eval.Error := None |} v).
      by rewrite <- Hres.
    + intros ->. rewrite Hpass. simpl in Hres. by injection Hres as -> _.
  - intros err Ht. destruct (Herr err Ht) as (? & ? & _ & ? & _). done.
Qed.

Lemma test_case_pass_criterion_witness :
  let run := eval.resultOf 0 tt (fixtures.answering (str "Weather in Barcelona"))
               [fixtures.shortTitle]
               (fixtures.testCaseOf "t1" "What is the weather like in Barcelona?")
               fixtures.st0 0 in
  eval.OverallPass (fst (fst run)) = true /\
  length (eval.EvalResults (fst (fst run))) = 1.
Proof.
  intros run.
  pose proof (test_case_pass_criterion 0 tt
                (fixtures.answering (str "Weather in Barcelona"))
                [fixtures.shortTitle]
                (fixtures.testCaseOf "t1" "What is the weather like in Barcelona?")
                fixtures.st0 0 (fst (fst run)) (snd (fst run)) (snd run) eq_refl)
    as (Hiff & Hok & _).
  split.
  - apply Hiff. exists (str "Weather in Barcelona"). split; [reflexivity|].
    repeat constructor.
  - exact (proj1 (proj2 (Hok (str "Weather in Barcelona") eq_refl))).
Defined.


(** ** The instrumented registry *)

(** Membership of a signal in a list that is written out. *)
Ltac signal_cases :=
  intros;
  repeat match goal with
  | H : _ ∈ _ :: _ |- _ => apply elem_of_cons in H as [H|H]
  | H : _ ∈ [] |- _ => by apply elem_of_nil in H
  | H : _ /\ _ |- _ => destruct H
  | H : exists _, _ |- _ => destruct H
  end;
  simplify_eq; eauto.

(** The instrumented [Execute] returns what the plain one returns, and
    acts on the world as it does: tracing and metrics never change a
    result.  Its signals are one span, started first and ended last.
    An execution and a duration are counted exactly when the tool
    exists (an unknown name is not an execution); an error is counted
    exactly when the call fails, as "not_found" or "execution_failed";
    the span status is Ok exactly when the call succeeds.  An
    instrument that could not be created records nothing. *)
Theorem instrumented_Execute_observes {W} (elapsed : W -> W -> Z)
    (m : instrumented.Instruments)
    (r : gmap gostring (tools.Tool W)) name args w signals :
  let '(res, w', signals') :=
    instrumented.Execute elapsed m r name args w signals in
  (res, w') = tools.Registry_Execute r name args w /\
  exists new,
    signals' = signals ++ instrumented.SpanStart (str "Tool." ++ name) name
                            :: new ++ [instrumented.SpanEnd] /\
    List.filter instrumented.is_execution_count new
    = (if decide (is_Some (tools.Get r name))
       then instrumented.when (instrumented.executionCounter m)
              (instrumented.ExecutionCount name)
       else []) /\
    List.filter instrumented.is_duration new
    = (if decide (is_Some (tools.Get r name))
       then instrumented.when (instrumented.durationHistogram m)
              (instrumented.DurationRecord name (elapsed w w'))
       else []) /\
    List.filter instrumented.is_error_count new
    = match res with
      | Ok _ => []
      | Err _ =>
          instrumented.when (instrumented.errorCounter m)
            (instrumented.ErrorCount name
               (if decide (is_Some (tools.Get r name))
                then str "execution_failed" else str "not_found"))
      end /\
    (forall description,
       instrumented.SpanSetStatus true description ∈ new <->
       description = str "success" /\ exists out, res = Ok out) /\
    instrumented.SpanEnd ∉ new.
Proof.
  unfold instrumented.Execute, tools.Registry_Execute, tools.Get.
  destruct m as [ec dh erc].
  destruct (r !! name) as [tool|] eqn:Hget.
  - destruct (tools.Execute tool args w) as [[out|err] w'] eqn:Hex.
    + split; [done|].
      exists ([instrumented.SpanResultLength (length out);
               instrumented.SpanSetStatus true (str "success")]
              ++ instrumented.when ec (instrumented.ExecutionCount name)
              ++ instrumented.when dh (instrumented.DurationRecord name (elapsed w w'))).
      rewrite !decide_True by eauto.
      destruct ec, dh; cbn; rewrite <- ?app_assoc; cbn;
        split_and!; try done; try (split; signal_cases; by repeat constructor);
        try (intros Hin; signal_cases).
    + split; [done|].
      exists ([instrumented.SpanRecordError err;
               instrumented.SpanSetStatus false (str "tool execution failed")]
              ++ instrumented.when erc (instrumented.ErrorCount name (str "execution_failed"))
              ++ instrumented.when ec (instrumented.ExecutionCount name)
              ++ instrumented.when dh (instrumented.DurationRecord name (elapsed w w'))).
      rewrite !decide_True by eauto.
      destruct ec, dh, erc; cbn; rewrite <- ?app_assoc; cbn;
        split_and!; try done; try (split; signal_cases; by repeat constructor);
        try (intros Hin; signal_cases).
  - split; [done|].
    exists ([instrumented.SpanRecordError (str "unknown tool: " ++ name);
             instrumented.SpanSetStatus false (str "tool not found")]
            ++ instrumented.when erc (instrumented.ErrorCount name (str "not_found"))).
    rewrite !decide_False by (by intros [? ?]).
    destruct erc; cbn; rewrite <- ?app_assoc; cbn;
      split_and!; try done; try (split; signal_cases; by repeat constructor);
        try (intros Hin; signal_cases).
Qed.

(** ** The rule-based evaluator *)

Section rule_lemmas.

Context (mapToLower : gostring -> gostring) (Sprintf : rules.Issue -> gostring).

(** The verdict as a function of the outcome of the checks: every
    combination of outcomes is evaluated in binary64. *)
Lemma Evaluate_verdict testCase actual :
  let title := eval.Title actual in
  let expected := eval.Expected_ testCase in
  let r := rules.Evaluate mapToLower Sprintf testCase actual in
  (eval.Passed r = true <->
   ~ rules.critical mapToLower expected title /\
   rules.deductions mapToLower expected title <= 3) /\
  (rules.critical mapToLower expected title -> eval.Score r = rules.zero) /\
  (rules.deductions mapToLower expected title = 0 ->
   ~ rules.critical mapToLower expected title -> eval.Score r = rules.perfect) /\
  PrimFloat.leb rules.zero (eval.Score r) = true /\
  PrimFloat.leb (eval.Score r) rules.perfect = true.
Proof.
  intros title expected r. subst r.
  unfold rules.Evaluate, rules.checks, rules.deductions, rules.keywordDeduction,
    rules.critical.
  fold title expected. cbv zeta.
  assert (eval.ShouldAvoid expected = [] ->
          rules.foundAvoid mapToLower expected title = []) as Hnone
    by (intros E; unfold rules.foundAvoid; by rewrite E).
  destruct (rules.foundAvoid mapToLower expected title) as [|avoid found];
    (destruct (eval.ShouldAvoid expected) as [|a l]; [try (by specialize (Hnone eq_refl))|]);
    clear Hnone;
    (destruct (decide (TrimSpace title = [])) as [Hblank|Hblank];
     generalize dependent (TrimSpace title); intros trimmed Hblank;
     generalize (rules.keywordMatchRate mapToLower expected title); intros rate;
     destruct (rules.exceedsMaxLen expected title),
       (rules.tooFewWords expected title), (rules.tooManyWords expected title),
       (Contains title nl), (rules.MatchString title),
       (1 <? rules.punctCount title);
     (destruct (eval.TitleKeywords expected) as [|k ks];
      [|destruct (PrimFloat.eqb rate _);
        [|destruct (PrimFloat.ltb rate _); [|destruct (PrimFloat.ltb rate _)]]]);
     vm_compute; intuition (first [discriminate | lia | congruence])).
Qed.

End rule_lemmas.

Lemma RuneCount_fuel_le fuel (s : gostring) : utf8.RuneCount_fuel fuel s <= fuel.
Proof.
  revert s. induction fuel as [|fuel IH]; intros s; simpl; [lia|].
  destruct s; [lia|]. specialize (IH (drop (utf8.DecodeRuneInString (a :: s)).2 (a :: s))).
  lia.
Qed.

Lemma Contains_byte (s : gostring) c : Contains s [c] = true <-> c ∈ s.
Proof.
  induction s as [|c' s IH]; simpl.
  - split; [done|]. by intros ?%elem_of_nil.
  - rewrite orb_true_iff, IH, elem_of_cons.
    assert (HasPrefix s [] = true) as -> by (by destruct s).
    rewrite andb_true_r, Ascii.eqb_eq. split; (intros [H|H]; [by left|by right]).
Qed.

(** The verdict of the rule-based evaluator.  A title passes exactly
    when none of the three critical failures holds (it contains a
    newline, it contains an avoided pattern, it is blank) and the other
    deductions add up to at most three tenths: over the length limit 4,
    too few words 3, too many words 3, keywords 5, 3 or 1, emojis 1,
    punctuation 1.  The binary64 rounding of the score changes none of
    these verdicts.  A critical failure gives the score 0, no deduction
    the score 1, and the score always lies between 0 and 1. *)
Theorem RuleEvaluator_verdict mapToLower Sprintf testCase actual :
  let title := eval.Title actual in
  let expected := eval.Expected_ testCase in
  let r := rules.Evaluate mapToLower Sprintf testCase actual in
  (eval.Passed r = true <->
   ~ rules.critical mapToLower expected title /\
   rules.deductions mapToLower expected title <= 3) /\
  (rules.critical mapToLower expected title -> eval.Score r = rules.zero) /\
  (rules.deductions mapToLower expected title = 0 ->
   ~ rules.critical mapToLower expected title -> eval.Score r = rules.perfect) /\
  PrimFloat.leb rules.zero (eval.Score r) = true /\
  PrimFloat.leb (eval.Score r) rules.perfect = true.
Proof. apply Evaluate_verdict. Qed.

(** On a title that [Title] returned, with a length limit of at least
    80 (or none), the length check and the newline check of the
    rule-based evaluator never fire; the title passes exactly when it
    is not blank, holds no avoided pattern and the remaining deductions
    are at most three tenths.  A blank title, which [Title] can return,
    fails. *)
Theorem Title_output_rule_checks {W} (a : assistant.Assistant W) conv st title st'
    mapToLower Sprintf testCase :
  assistant.Title a conv st = (Ok title, st') ->
  (eval.TitleMaxLen (eval.Expected_ testCase) <= 0 \/
   80 <= eval.TitleMaxLen (eval.Expected_ testCase))%Z ->
  let expected := eval.Expected_ testCase in
  let r := rules.Evaluate mapToLower Sprintf testCase
             {| eval.Title := title; eval.Error := None |} in
  rules.exceedsMaxLen expected title = false /\
  Contains title nl = false /\
  (eval.Passed r = true <->
   rules.foundAvoid mapToLower expected title = [] /\
   TrimSpace title <> [] /\
   rules.deductions mapToLower expected title <= 3) /\
  (TrimSpace title = [] -> eval.Passed r = false /\ eval.Score r = rules.zero).
Proof.
  intros Ht Hmax expected r.
  destruct (Title_guarantees a conv st title st' Ht) as (Hlen & Hnl & _).
  assert (Contains title nl = false) as Hc.
  { destruct (Contains title nl) eqn:E; [|done].
    by apply Contains_byte in E. }
  assert (rules.exceedsMaxLen expected title = false) as Hl.
  { unfold rules.exceedsMaxLen. fold expected in Hmax.
    pose proof (RuneCount_fuel_le (length title) title) as Hr.
    unfold utf8.RuneCountInString.
    destruct (Z.ltb_spec 0 (eval.TitleMaxLen expected)); [|done].
    destruct (Z.ltb_spec (eval.TitleMaxLen expected)
                (Z.of_nat (utf8.RuneCount_fuel (length title) title))); [lia|done]. }
  destruct (Evaluate_verdict mapToLower Sprintf testCase
              {| eval.Title := title; eval.Error := None |})
    as (Hpass & Hcrit & _).
  cbn [eval.Title] in Hpass, Hcrit. fold expected r in Hpass, Hcrit.
  unfold rules.critical in Hpass, Hcrit. rewrite Hc in Hpass, Hcrit.
  split; [done|]. split; [done|]. split.
  - rewrite Hpass. split.
    + intros [Hn Hd]. split; [|split; [|done]].
      * destruct (rules.foundAvoid mapToLower expected title) eqn:E; [done|].
        exfalso. apply Hn. right. left. done.
      * intros E. apply Hn. by right; right.
    + intros (Hf & Hb & Hd). split; [|done].
      intros [?|[?|?]]; done.
  - intros Hb. split.
    + destruct (eval.Passed r) eqn:E; [|done].
      destruct (proj1 Hpass eq_refl) as [Hn _]. exfalso. apply Hn. by right; right.
    + apply Hcrit. by right; right.
Qed.

Lemma Title_output_rule_checks_witness :
  let testCase := fixtures.testCaseOf "t1" "What is the weather like in Barcelona?" in
  let title := str "Weather in Barcelona" in
  let r := rules.Evaluate id (fun _ => []) testCase
             {| eval.Title := title; eval.Error := None |} in
  rules.exceedsMaxLen (eval.Expected_ testCase) title = false /\
  Contains title nl = false /\
  (eval.Passed r = true <->
   rules.foundAvoid id (eval.Expected_ testCase) title = [] /\
   TrimSpace title <> [] /\
   rules.deductions id (eval.Expected_ testCase) title <= 3) /\
  (TrimSpace title = [] -> eval.Passed r = false /\ eval.Score r = rules.zero).
Proof.
  intros testCase title.
  apply (Title_output_rule_checks (fixtures.answering (str "Weather in Barcelona"))
           fixtures.conv1 fixtures.st0 title
           (snd (assistant.Title (fixtures.answering (str "Weather in Barcelona"))
                   fixtures.conv1 fixtures.st0))
           id (fun _ => []) testCase).
  - reflexivity.
  - right. simpl. lia.
Defined.

(** The rubric on sample titles, for a test case that asks for two to
    six words: a clean title scores 1; a one-word title loses three
    tenths and passes at the threshold; with excessive punctuation as
    well it fails; a blank title fails. *)
Example RuleEvaluator_samples :
  let verdict title :=
    let r := rules.Evaluate id (fun _ => [])
               (fixtures.testCaseOf "t1" "What is the weather like in Barcelona?")
               {| eval.Title := str title; eval.Error := None |} in
    (eval.Passed r, PrimFloat.eqb (eval.Score r) rules.perfect) in
  verdict "Weather in Barcelona" = (true, true) /\
  verdict "Barcelona" = (true, false) /\
  verdict "Barcelona?!" = (false, false) /\
  verdict " " = (false, false).
Proof. vm_compute. repeat split. Qed.
